(** * Margarita-Image-Gen: the result poller, the frame locator, the cookie
    loader and the folder-name normaliser

    A shallow embedding of the decision logic of [src/WebScapper.py] and
    [src/enhanced_bing.py].  The two files share the modelled functions
    line for line ([ImageProcessor.get_image_urls],
    [ImageProcessor.to_kebab_case], [CookieManager.load_cookies],
    [ImageGenerator.switch_to_prompt_frame]); only
    [AuthenticationManager._get_prompt_input_element] is specific to
    [WebScapper.py].

    The browser is the environment: every call into it (find_elements,
    get_attribute, switch_to.frame, is_element_present,
    wait_for_element_present, time.time, time.sleep) is answered by an
    explicit description of the page and of the clock, and a call that
    raises is an explicit [Raised] outcome.  [time.time()] answers
    binary64 floats, and the loop test of the poller subtracts and
    compares them as Python does.  A text is a list of code points, and
    [str.strip], [str.lower] and the classes [\w] and [\s] of [re] follow
    the character tables of CPython.

    Around these, the file models [ImageGenerator.generate_image], which
    calls the locator twice, [ImageProcessor.download_image] and
    [ImageProcessor.download_all_images] of [WebScapper.py], which consume
    the sequence of the poller, the folder name of [enhanced_bing.py], and
    [BingImageScraper.run_generation_cycle] of [WebScapper.py], which
    chains them.  The definitions come first, module by module; the facts
    follow. *)

From Stdlib Require Import List String Ascii NArith ZArith Bool Lia.
From Stdlib Require PrimFloat Uint63.
From stdpp Require Import gmap strings list fin_maps pretty.
Import ListNotations.

Local Open Scope string_scope.
Local Open Scope list_scope.

(** ** Calls that may raise *)

(** The outcome of a Python call: a value, or an exception that propagates
    to the caller. *)
Inductive outcome (A : Type) : Type :=
| Returned (a : A)
| Raised.
Arguments Returned {A} a.
Arguments Raised {A}.

Definition bind {A B : Type} (o : outcome A) (k : A -> outcome B) : outcome B :=
  match o with
  | Returned a => k a
  | Raised => Raised
  end.

(** [try: body / except Exception: handler]. *)
Definition try_except {A : Type} (body : outcome A) (handler : A) : A :=
  match body with
  | Returned a => a
  | Raised => handler
  end.

(** * The bounded result poller: [ImageProcessor.get_image_urls] *)

Module Poller.

(** An [<img class="image-row-img">] element as [get_attribute("src")]
    answers on it: the attribute (None when it is missing), or an exception
    (the element went stale between find_elements and the read). *)
Inductive element : Type :=
| Src (v : option string)
| Stale.

Definition get_attribute (e : element) : outcome (option string) :=
  match e with
  | Src v => Returned v
  | Stale => Raised
  end.

(** What [sb_instance.find_elements] does in one round. *)
Inductive extraction : Type :=
| Elements (es : list element)
| FindRaises.

(** [time.time()] answers a binary64 float, in seconds. *)
Abbreviation float := PrimFloat.float.

(** The float of a whole number of seconds. *)
Definition seconds (n : N) : float :=
  PrimFloat.of_uint63 (Uint63.of_Z (Z.of_N n)).

(** [poll_timeout = 60]. *)
Definition poll_timeout : float := seconds 60.

(** The loop test of line 286, [time.time() - start_time < poll_timeout],
    for the answer [now] of [time.time()]: a subtraction and a comparison
    of binary64 floats. *)
Definition in_time (start_time now : float) : bool :=
  PrimFloat.ltb (PrimFloat.sub now start_time) poll_timeout.

(** One polling round as the environment plays it: what [time.time()]
    answers in the loop test that leads to the round, and the
    extraction. *)
Record round : Type := {
  now : float;
  found : extraction
}.

(** The world [get_image_urls] runs in: what [time.time()] answers at
    [start_time = time.time()], and the rounds in the order the loop asks
    for them.  The first loop test follows [start_time = time.time()] at
    once and passes; the clock goes on, so that the loop test fails in the
    end, after [patience] rounds at most (on a clock that stands still the
    loop of line 286 has no end). *)
Record world : Type := {
  start_clock : float;
  rounds : nat -> round;
  patience : nat;
  first_test : in_time start_clock (now (rounds 0)) = true;
  last_test : in_time start_clock (now (rounds patience)) = false
}.

(** What a call does besides extracting: [time.sleep(10)] and
    [time.sleep(2)], in milliseconds. *)
Inductive event : Type :=
| EvSleep (ms : N)
| EvFind (i : nat).

Definition initial_delay : N := 10000.
Definition poll_interval : N := 2000.

(** [src in urls]. *)
Definition mem (src : string) (urls : list string) : bool :=
  existsb (String.eqb src) urls.

(** Lines 291-292 of [WebScapper.py] (351-352 of [enhanced_bing.py]):
    [if src and (src.startswith("http") or src.startswith("blob:"))
        and src not in urls: urls.append(src)]. *)
Definition append_valid (urls : list string) (src : option string) : list string :=
  match src with
  | None => urls
  | Some s =>
      if negb (String.eqb s "")
         && (String.prefix "http" s || String.prefix "blob:" s)
         && negb (mem s urls)
      then urls ++ [s]
      else urls
  end.

(** The [for elem in image_elements] loop. *)
Fixpoint scan_elements (es : list element) (urls : list string)
  : outcome (list string) :=
  match es with
  | [] => Returned urls
  | e :: es' =>
      bind (get_attribute e) (fun src =>
      scan_elements es' (append_valid urls src))
  end.

(** Lines 287-292: one round starts from [urls = []]. *)
Definition scan_round (w : world) (i : nat) : outcome (list string) :=
  match found (rounds w i) with
  | FindRaises => Raised
  | Elements es => scan_elements es []
  end.

(** A run: what the call gives back and the sleeps and extractions it
    performed, in order. *)
Definition run : Type := outcome (list string) * list event.

Definition after (e : event) (r : option run) : option run :=
  match r with
  | Some (o, tr) => Some (o, e :: tr)
  | None => None
  end.

(** The [while time.time() - start_time < poll_timeout] loop.  [i] is the
    number of rounds played so far, [urls] the variable of the same name.
    [fuel] bounds the number of loop tests; [None] means the bound was too
    small. *)
Fixpoint poll (fuel : nat) (w : world) (i : nat) (start_time : float)
  (urls : list string) : option run :=
  match fuel with
  | O => None
  | S fuel' =>
      if in_time start_time (now (rounds w i)) then
        match scan_round w i with
        | Raised => Some (Raised, [EvFind i])
        | Returned urls' =>
            if (4 <=? length urls')%nat then Some (Returned urls', [EvFind i])
            else
              after (EvFind i) (after (EvSleep poll_interval)
                (poll fuel' w (S i) start_time urls'))
        end
      else Some (Returned urls, [])
  end.

(** Lines 297-298: [while len(urls) < 4: urls.append("")]. *)
Fixpoint pad (fuel : nat) (urls : list string) : list string :=
  match fuel with
  | O => urls
  | S fuel' => if (length urls <? 4)%nat then pad fuel' (urls ++ [""]) else urls
  end.

(** Line 299: [return urls[:4]]. *)
Definition finish (urls : list string) : list string :=
  firstn 4 (pad 4 urls).

(** The loop test fails in round [patience w] at the latest, so it is
    reached [S (patience w)] times at most
    ([PollerFacts.poll_enough_fuel]). *)
Definition poll_fuel (w : world) : nat := S (patience w).

(** [get_image_urls] (lines 273-299 of [WebScapper.py], 333-359 of
    [enhanced_bing.py]): [time.sleep(10)], [start_time = time.time()],
    [urls = []], the loop, the padding, [return urls[:4]]. *)
Definition get_image_urls (w : world) : option run :=
  let start_time := start_clock w in
  after (EvSleep initial_delay)
    (match poll (poll_fuel w) w 0 start_time [] with
     | Some (Returned urls, tr) => Some (Returned (finish urls), tr)
     | Some (Raised, tr) => Some (Raised, tr)
     | None => None
     end).

(** *** The words of the specification, to compare the code with *)

(** "non-empty and starting with either an HTTP(S) scheme prefix or a
    transient-object-URL scheme prefix". *)
Definition spec_valid (s : string) : bool :=
  negb (String.eqb s "")
  && (String.prefix "http" s || String.prefix "https" s
      || String.prefix "blob:" s).

(** "Deduplicate while preserving first-seen order". *)
Fixpoint dedup_first (l : list string) : list string :=
  match l with
  | [] => []
  | x :: t => x :: List.filter (fun y => negb (String.eqb y x)) (dedup_first t)
  end.

(** The values of a round that are strings ([get_attribute] answers None
    for a missing attribute). *)
Definition present_values (vals : list (option string)) : list string :=
  omap id vals.

Definition spec_round (vals : list (option string)) : list string :=
  dedup_first (List.filter spec_valid (present_values vals)).

(** The runs of the loop as a relation: [polled w i urls r] when the loop,
    entered for round [i] with the variable [urls], can run as [r]. *)
Inductive polled (w : world) : nat -> list string -> run -> Prop :=
| polled_timeout i urls :
    polled w i urls (Returned urls, [])
| polled_raise i urls :
    scan_round w i = Raised ->
    polled w i urls (Raised, [EvFind i])
| polled_break i urls urls' :
    scan_round w i = Returned urls' ->
    4 <= length urls' ->
    polled w i urls (Returned urls', [EvFind i])
| polled_sleep i urls urls' o tr :
    scan_round w i = Returned urls' ->
    length urls' < 4 ->
    polled w (S i) urls' (o, tr) ->
    polled w i urls (o, EvFind i :: EvSleep poll_interval :: tr).

(** The values of [l] that are not yet among [acc]. *)
Definition fresh (acc l : list string) : list string :=
  List.filter (fun y => negb (mem y acc)) l.

(** The example of the specification. *)
Definition example_round : list (option string) :=
  [Some "http://a"; Some "http://a"; Some "blob:b"; Some ""; Some "http://c"].

(** A clock that reads [first] seconds at [start_time = time.time()] and
    [step] seconds more at each loop test after the first one. *)
Definition ticking (first step : N) (i : nat) : float :=
  seconds (first + step * N.of_nat i).

(** A page that keeps showing the elements of the example, on a clock
    that reads two seconds more at each loop test. *)
Definition steady_world : world := {|
  start_clock := seconds 0;
  rounds := fun i =>
    {| now := ticking 0 2 i; found := Elements (map Src example_round) |};
  patience := 30;
  first_test := eq_refl;
  last_test := eq_refl
|}.

(** A browser whose first [find_elements] raises. *)
Definition raising_world : world := {|
  start_clock := seconds 0;
  rounds := fun i => {| now := ticking 0 2 i; found := FindRaises |};
  patience := 30;
  first_test := eq_refl;
  last_test := eq_refl
|}.

(** A page whose five images appear in the third round, on a clock that
    reads three seconds more at each loop test. *)
Definition late_world : world := {|
  start_clock := seconds 1700000010;
  rounds := fun i =>
    {| now := ticking 1700000010 3 i;
       found :=
         if (i <? 2)%nat then Elements []
         else Elements (map Src [Some "blob:1"; Some "blob:2"; None;
                                 Some "https://x/3"; Some "blob:1";
                                 Some "blob:4"; Some "blob:5"]) |};
  patience := 20;
  first_test := eq_refl;
  last_test := eq_refl
|}.

(** A page whose four images appear in the round of index 29, the last one
    that starts within [poll_timeout] on a clock that reads two seconds
    more at each loop test. *)
Definition last_attempt_world : world := {|
  start_clock := seconds 0;
  rounds := fun i =>
    {| now := ticking 0 2 i;
       found :=
         if (i <? 29)%nat then Elements []
         else Elements (map Src [Some "blob:1"; Some "blob:2";
                                 Some "blob:3"; Some "blob:4"]) |};
  patience := 30;
  first_test := eq_refl;
  last_test := eq_refl
|}.

(** The float nearest to 10.002. *)
Definition ten_and_two_thousandths : float :=
  PrimFloat.div (seconds 10002) (seconds 1000).

(** An empty page on a clock that reads 10.002 at
    [start_time = time.time()] and [10.002 + 2 * i] at the loop test of
    round [i].  In binary64 [70.002 - 10.002] is less than 60, and the
    loop test of round 30 passes. *)
Definition drifting_world : world := {|
  start_clock := ten_and_two_thousandths;
  rounds := fun i =>
    {| now := PrimFloat.add ten_and_two_thousandths (ticking 0 2 i);
       found := Elements [] |};
  patience := 31;
  first_test := eq_refl;
  last_test := eq_refl
|}.

(** What precedes the extraction of round 29 in that world. *)
Definition last_attempt_prefix : list event :=
  EvSleep initial_delay
  :: flat_map (fun k => [EvFind k; EvSleep poll_interval]) (seq 0 29).

End Poller.

(** * The frame-scoped element locator *)

Module Locator.

(** The current browsing context of the driver. *)
Inductive context : Type :=
| DefaultContent
| InFrame (i : nat).

(** How one iframe of the main document answers the two calls the locator
    makes on it. *)
Inductive frame : Type :=
| Unreachable    (* switch_to.frame raises: stale reference, permission *)
| LookupRaises   (* the frame is entered, the presence test raises *)
| Without        (* the frame is entered, the selector is absent *)
| With.          (* the frame is entered, the selector is present *)

(** The page: whether the main document holds the selector, and the iframes
    of the main document in DOM order.  Iframes hold no iframes of their
    own. *)
Record page : Type := {
  main_has : bool;
  frames : list frame
}.

(** Driver calls read and write the current context and may raise; an
    exception leaves the context as the failing call left it. *)
Definition driver (A : Type) : Type := context -> outcome A * context.

Definition ret {A : Type} (a : A) : driver A := fun c => (Returned a, c).

Definition raise {A : Type} : driver A := fun c => (Raised, c).

Definition seq_ {A B : Type} (m : driver A) (k : A -> driver B) : driver B :=
  fun c =>
    match m c with
    | (Returned a, c') => k a c'
    | (Raised, c') => (Raised, c')
    end.

(** [try: body / except Exception: handler]. *)
Definition try_ {A : Type} (body handler : driver A) : driver A :=
  fun c =>
    match body c with
    | (Returned a, c') => (Returned a, c')
    | (Raised, c') => handler c'
    end.

Notation "'do' x <- m 'then' k" := (seq_ m (fun x => k))
  (at level 10, x name, m at level 100, k at level 200).
Notation "'exec' m 'then' k" := (seq_ m (fun _ => k))
  (at level 10, m at level 100, k at level 200).

(** [driver.switch_to.default_content()]. *)
Definition default_content : driver unit :=
  fun _ => (Returned tt, DefaultContent).

(** [driver.switch_to.frame(iframe)], for the iframe of index [i]. *)
Definition switch_to_frame (p : page) (i : nat) : driver unit :=
  fun c =>
    match frames p !! i with
    | Some Unreachable | None => (Raised, c)
    | Some _ => (Returned tt, InFrame i)
    end.

(** [driver.find_elements(By.TAG_NAME, "iframe")]: the iframes of the
    current context, as indices into [frames]. *)
Definition find_iframes (p : page) : driver (list nat) :=
  fun c =>
    match c with
    | DefaultContent => (Returned (seq 0 (length (frames p))), c)
    | InFrame _ => (Returned [], c)
    end.

(** [sb.is_element_present(selector)] in the current context. *)
Definition is_element_present (p : page) : driver bool :=
  fun c =>
    match c with
    | DefaultContent => (Returned (main_has p), c)
    | InFrame i =>
        match frames p !! i with
        | Some With => (Returned true, c)
        | Some Without => (Returned false, c)
        | Some LookupRaises | Some Unreachable | None => (Raised, c)
        end
    end.

(** The element handle that [wait_for_element_present] gives back: the
    prompt input of a context. *)
Inductive element : Type :=
| PromptInput (ctx : context).

(** What a wait adds to what the page shows at once: [late c] when the
    selector, absent from context [c] at first, shows up there before a
    wait of five seconds on [c] gives up.  [is_element_present] looks once
    and does not see it. *)
Definition arrivals : Type := context -> bool.

(** [sb.wait_for_element_present(selector, timeout=5)]: the element, at
    once or as soon as it shows up, or an exception when the timeout passes
    without it. *)
Definition wait_for_element_present (p : page) (late : arrivals)
  : driver element :=
  fun c =>
    match is_element_present p c with
    | (Returned true, c') => (Returned (PromptInput c'), c')
    | (Returned false, c') =>
        if late c' then (Returned (PromptInput c'), c') else (Raised, c')
    | (Raised, c') => (Raised, c')
    end.

(** [ImageGenerator.switch_to_prompt_frame], the [for iframe in iframes]
    loop with the two statements after it (lines 395-405 of
    [WebScapper.py], 450-460 of [enhanced_bing.py]). *)
Fixpoint search_frames (p : page) (iframes : list nat) : driver bool :=
  match iframes with
  | [] =>
      exec default_content then
      ret false
  | iframe :: rest =>
      do hit <- try_ (exec switch_to_frame p iframe then is_element_present p)
                     (ret false) then
      if hit then ret true
      else exec default_content then search_frames p rest
  end.

(** [ImageGenerator.switch_to_prompt_frame]
    ([switch_to_create_button_frame] is the same code for another
    selector). *)
Definition switch_to_prompt_frame (p : page) : driver bool :=
  exec default_content then
  do hit <- is_element_present p then
  if hit then ret true
  else do iframes <- find_iframes p then search_frames p iframes.

(** [AuthenticationManager._get_prompt_input_element], the loop over the
    iframes with the two statements after it (lines 218-231). *)
Fixpoint search_frames_element (p : page) (late : arrivals)
  (iframes : list nat) : driver element :=
  match iframes with
  | [] =>
      exec default_content then
      raise
  | iframe :: rest =>
      do found <- try_ (exec switch_to_frame p iframe then
                        do e <- wait_for_element_present p late then
                        ret (Some e))
                       (exec default_content then ret None) then
      match found with
      | Some e => ret e
      | None => search_frames_element p late rest
      end
  end.

(** [AuthenticationManager._get_prompt_input_element] (lines 206-231 of
    [WebScapper.py]).  The first lookup runs in whatever context is
    current on entry. *)
Definition _get_prompt_input_element (p : page) (late : arrivals)
  : driver element :=
  do found <- try_ (do e <- wait_for_element_present p late then
                    ret (Some e))
                   (ret None) then
  match found with
  | Some e => ret e
  | None =>
      do iframes <- find_iframes p then search_frames_element p late iframes
  end.

(** The selector is present in context [c] of page [p]. *)
Definition holds (p : page) (c : context) : bool :=
  match c with
  | DefaultContent => main_has p
  | InFrame i =>
      match frames p !! i with
      | Some With => true
      | _ => false
      end
  end.

(** The selector is present in context [c] before a wait on [c] gives up:
    it is there at once, or it shows up late in a context on which the
    lookup does not raise. *)
Definition shows (p : page) (late : arrivals) (c : context) : bool :=
  match c with
  | DefaultContent => main_has p || late c
  | InFrame i =>
      match frames p !! i with
      | Some With => true
      | Some Without => late c
      | _ => false
      end
  end.

(** A page on which nothing shows up late. *)
Definition no_arrivals : arrivals := fun _ => false.

(** A frame on which a call of the locator raises. *)
Definition raises (f : frame) : bool :=
  match f with
  | Unreachable | LookupRaises => true
  | Without | With => false
  end.

(** A page whose prompt input sits in the fourth iframe, behind a stale
    iframe, an iframe whose lookup raises and an iframe without it. *)
Definition framed_page : page := {|
  main_has := false;
  frames := [Unreachable; LookupRaises; Without; With]
|}.

(** The same page without the fourth iframe: the selector is nowhere. *)
Definition bare_page : page := {|
  main_has := false;
  frames := [Unreachable; LookupRaises; Without]
|}.

End Locator.

(** * The cookie loader: [CookieManager.load_cookies] *)

Module Cookies.

(** The values of a cookie record as [json.load] gives them. *)
Inductive value : Type :=
| VNull
| VBool (b : bool)
| VNum (n : Z)
| VStr (s : string).

(** A cookie record is a dict from field names to values. *)
Abbreviation cookie := (gmap string value).

(** Lines 173-174: [if 'expires' in cookie:
    cookie['expiry'] = cookie.pop('expires')]. *)
Definition rename_expires (c : cookie) : cookie :=
  match c !! "expires" with
  | Some v => <["expiry" := v]> (delete "expires" c)
  | None => c
  end.

(** [cookie.get("domain", "").startswith(".")]: only a string has
    [startswith]; on any other value the call raises AttributeError. *)
Definition domain_startswith_dot (c : cookie) : outcome bool :=
  match c !! "domain" with
  | None => Returned (String.prefix "." "")
  | Some (VStr s) => Returned (String.prefix "." s)
  | Some _ => Raised
  end.

(** Lines 177-178. *)
Definition adjust_domain (c : cookie) : outcome cookie :=
  bind (domain_startswith_dot c) (fun dotted =>
  Returned (if dotted then <["domain" := VStr "www.bing.com"]> c else c)).

Definition allowed_keys : list string :=
  ["name"; "value"; "path"; "domain"; "secure"; "expiry"].

(** Line 182: [{k: cookie[k] for k in cookie if k in allowed_keys}]. *)
Definition filtered (c : cookie) : cookie :=
  filter (fun kv => kv.1 ∈ allowed_keys) c.

(** The body of the [for cookie in cookies] loop up to [add_cookie]: the
    record handed to the browser. *)
Definition process_cookie (c : cookie) : outcome cookie :=
  bind (adjust_domain (rename_expires c)) (fun c' =>
  Returned (filtered c')).

(** What [self.cookies_file] holds. *)
Inductive cookies_file : Type :=
| Missing
| Unreadable
| Loaded (cookies : list cookie).

Section Browser.

(** [sb_instance.add_cookie]: whether the browser takes the record or
    raises. *)
Variable add_cookie : cookie -> outcome unit.

(** Lines 184-187: [try: sb_instance.add_cookie(filtered_cookie)
    / except Exception: print a warning].  The boolean says whether the
    browser took the record. *)
Definition try_add (filtered_cookie : cookie) : bool :=
  try_except (bind (add_cookie filtered_cookie) (fun _ => Returned true))
             false.

(** The [for cookie in cookies] loop: the records handed to [add_cookie]
    so far, in order, each with the answer of the browser, and whether the
    loop ran to its end. *)
Fixpoint add_all (cookies : list cookie) (handed : list (cookie * bool))
  : outcome unit * list (cookie * bool) :=
  match cookies with
  | [] => (Returned tt, handed)
  | cookie :: rest =>
      match process_cookie cookie with
      | Raised => (Raised, handed)
      | Returned filtered_cookie =>
          add_all rest (handed ++ [(filtered_cookie, try_add filtered_cookie)])
      end
  end.

(** [load_cookies]: the boolean it returns and the records it handed to
    [add_cookie]. *)
Definition load_cookies (f : cookies_file) : bool * list (cookie * bool) :=
  match f with
  | Missing => (false, [])
  | Unreadable => (false, [])
  | Loaded cookies =>
      match add_all cookies [] with
      | (Returned _, handed) => (true, handed)
      | (Raised, handed) => (false, handed)
      end
  end.

End Browser.

(** The domain of the record, when it has one, is a string. *)
Definition domain_is_text (c : cookie) : Prop :=
  match c !! "domain" with
  | None | Some (VStr _) => True
  | Some _ => False
  end.

(** What the claim says of a record [c] and of the record [c'] handed to
    the browser for it: a domain that starts with "." becomes
    "www.bing.com", any other domain stays; the value of "expires" moves
    to "expiry" and "expires" goes; every other allowed field keeps its
    value; a field outside the allowed set is dropped. *)
Definition normalised (c c' : gmap string value) : Prop :=
  (forall s, c !! "domain" = Some (VStr s) ->
             c' !! "domain"
             = Some (VStr (if String.prefix "." s then "www.bing.com" else s)))
  /\ (c !! "domain" = None -> c' !! "domain" = None)
  /\ (forall v, c !! "expires" = Some v ->
                c' !! "expires" = None /\ c' !! "expiry" = Some v)
  /\ (c !! "expires" = None ->
      c' !! "expires" = None /\ c' !! "expiry" = c !! "expiry")
  /\ (forall k, k ∈ allowed_keys -> k <> "domain" -> k <> "expiry" ->
                c' !! k = c !! k)
  /\ (forall k, k ∉ allowed_keys -> c' !! k = None).

(** A record as the browser exports it, with a dotted domain, an "expires"
    field and a field the browser does not take back. *)
Definition exported_cookie : gmap string value :=
  <["name" := VStr "_U"]> (<["value" := VStr "1a2b"]>
  (<["domain" := VStr ".bing.com"]> (<["path" := VStr "/"]>
  (<["secure" := VBool true]> (<["expires" := VNum 1767225600]>
  (<["sameSite" := VStr "None"]> ∅)))))).

(** A record whose domain is not a string. *)
Definition odd_cookie : gmap string value :=
  <["name" := VStr "x"]> (<["domain" := VNull]> ∅).

End Cookies.

(** * The folder-name normaliser: [ImageProcessor.to_kebab_case] *)

Module Kebab.

(** A Python [str] is a sequence of Unicode code points. *)
Abbreviation text := (list N).

(** ** The character tables

    What [str.isspace], [str.isalnum] and [str.lower] answer on each code
    point, and the cased and case-ignorable code points that [str.lower]
    looks at around a capital sigma: the tables of CPython 3.11 (Unicode
    14.0.0), from U+0000 to U+10FFFF.  A code point outside the ranges of a
    table is not in the class; a code point outside [lower_table] is not
    changed by [str.lower]. *)

(** The code points on which [str.isspace] answers True, as ranges. *)
Definition space_ranges : list (N * N) := [
  (9, 13); (28, 32); (133, 133); (160, 160); (5760, 5760); (8192, 8202);
  (8232, 8233); (8239, 8239); (8287, 8287); (12288, 12288)
]%N.

(** The code points on which [str.isalnum] answers True, as ranges. *)
Definition alnum_ranges : list (N * N) := [
  (48, 57); (65, 90); (97, 122); (170, 170); (178, 179); (181, 181);
  (185, 186); (188, 190); (192, 214); (216, 246); (248, 705); (710, 721);
  (736, 740); (748, 748); (750, 750); (880, 884); (886, 887); (890, 893);
  (895, 895); (902, 902); (904, 906); (908, 908); (910, 929); (931, 1013);
  (1015, 1153); (1162, 1327); (1329, 1366); (1369, 1369); (1376, 1416);
  (1488, 1514); (1519, 1522); (1568, 1610); (1632, 1641); (1646, 1647);
  (1649, 1747); (1749, 1749); (1765, 1766); (1774, 1788); (1791, 1791);
  (1808, 1808); (1810, 1839); (1869, 1957); (1969, 1969); (1984, 2026);
  (2036, 2037); (2042, 2042); (2048, 2069); (2074, 2074); (2084, 2084);
  (2088, 2088); (2112, 2136); (2144, 2154); (2160, 2183); (2185, 2190);
  (2208, 2249); (2308, 2361); (2365, 2365); (2384, 2384); (2392, 2401);
  (2406, 2415); (2417, 2432); (2437, 2444); (2447, 2448); (2451, 2472);
  (2474, 2480); (2482, 2482); (2486, 2489); (2493, 2493); (2510, 2510);
  (2524, 2525); (2527, 2529); (2534, 2545); (2548, 2553); (2556, 2556);
  (2565, 2570); (2575, 2576); (2579, 2600); (2602, 2608); (2610, 2611);
  (2613, 2614); (2616, 2617); (2649, 2652); (2654, 2654); (2662, 2671);
  (2674, 2676); (2693, 2701); (2703, 2705); (2707, 2728); (2730, 2736);
  (2738, 2739); (2741, 2745); (2749, 2749); (2768, 2768); (2784, 2785);
  (2790, 2799); (2809, 2809); (2821, 2828); (2831, 2832); (2835, 2856);
  (2858, 2864); (2866, 2867); (2869, 2873); (2877, 2877); (2908, 2909);
  (2911, 2913); (2918, 2927); (2929, 2935); (2947, 2947); (2949, 2954);
  (2958, 2960); (2962, 2965); (2969, 2970); (2972, 2972); (2974, 2975);
  (2979, 2980); (2984, 2986); (2990, 3001); (3024, 3024); (3046, 3058);
  (3077, 3084); (3086, 3088); (3090, 3112); (3114, 3129); (3133, 3133);
  (3160, 3162); (3165, 3165); (3168, 3169); (3174, 3183); (3192, 3198);
  (3200, 3200); (3205, 3212); (3214, 3216); (3218, 3240); (3242, 3251);
  (3253, 3257); (3261, 3261); (3293, 3294); (3296, 3297); (3302, 3311);
  (3313, 3314); (3332, 3340); (3342, 3344); (3346, 3386); (3389, 3389);
  (3406, 3406); (3412, 3414); (3416, 3425); (3430, 3448); (3450, 3455);
  (3461, 3478); (3482, 3505); (3507, 3515); (3517, 3517); (3520, 3526);
  (3558, 3567); (3585, 3632); (3634, 3635); (3648, 3654); (3664, 3673);
  (3713, 3714); (3716, 3716); (3718, 3722); (3724, 3747); (3749, 3749);
  (3751, 3760); (3762, 3763); (3773, 3773); (3776, 3780); (3782, 3782);
  (3792, 3801); (3804, 3807); (3840, 3840); (3872, 3891); (3904, 3911);
  (3913, 3948); (3976, 3980); (4096, 4138); (4159, 4169); (4176, 4181);
  (4186, 4189); (4193, 4193); (4197, 4198); (4206, 4208); (4213, 4225);
  (4238, 4238); (4240, 4249); (4256, 4293); (4295, 4295); (4301, 4301);
  (4304, 4346); (4348, 4680); (4682, 4685); (4688, 4694); (4696, 4696);
  (4698, 4701); (4704, 4744); (4746, 4749); (4752, 4784); (4786, 4789);
  (4792, 4798); (4800, 4800); (4802, 4805); (4808, 4822); (4824, 4880);
  (4882, 4885); (4888, 4954); (4969, 4988); (4992, 5007); (5024, 5109);
  (5112, 5117); (5121, 5740); (5743, 5759); (5761, 5786); (5792, 5866);
  (5870, 5880); (5888, 5905); (5919, 5937); (5952, 5969); (5984, 5996);
  (5998, 6000); (6016, 6067); (6103, 6103); (6108, 6108); (6112, 6121);
  (6128, 6137); (6160, 6169); (6176, 6264); (6272, 6276); (6279, 6312);
  (6314, 6314); (6320, 6389); (6400, 6430); (6470, 6509); (6512, 6516);
  (6528, 6571); (6576, 6601); (6608, 6618); (6656, 6678); (6688, 6740);
  (6784, 6793); (6800, 6809); (6823, 6823); (6917, 6963); (6981, 6988);
  (6992, 7001); (7043, 7072); (7086, 7141); (7168, 7203); (7232, 7241);
  (7245, 7293); (7296, 7304); (7312, 7354); (7357, 7359); (7401, 7404);
  (7406, 7411); (7413, 7414); (7418, 7418); (7424, 7615); (7680, 7957);
  (7960, 7965); (7968, 8005); (8008, 8013); (8016, 8023); (8025, 8025);
  (8027, 8027); (8029, 8029); (8031, 8061); (8064, 8116); (8118, 8124);
  (8126, 8126); (8130, 8132); (8134, 8140); (8144, 8147); (8150, 8155);
  (8160, 8172); (8178, 8180); (8182, 8188); (8304, 8305); (8308, 8313);
  (8319, 8329); (8336, 8348); (8450, 8450); (8455, 8455); (8458, 8467);
  (8469, 8469); (8473, 8477); (8484, 8484); (8486, 8486); (8488, 8488);
  (8490, 8493); (8495, 8505); (8508, 8511); (8517, 8521); (8526, 8526);
  (8528, 8585); (9312, 9371); (9450, 9471); (10102, 10131); (11264, 11492);
  (11499, 11502); (11506, 11507); (11517, 11517); (11520, 11557);
  (11559, 11559); (11565, 11565); (11568, 11623); (11631, 11631);
  (11648, 11670); (11680, 11686); (11688, 11694); (11696, 11702);
  (11704, 11710); (11712, 11718); (11720, 11726); (11728, 11734);
  (11736, 11742); (11823, 11823); (12293, 12295); (12321, 12329);
  (12337, 12341); (12344, 12348); (12353, 12438); (12445, 12447);
  (12449, 12538); (12540, 12543); (12549, 12591); (12593, 12686);
  (12690, 12693); (12704, 12735); (12784, 12799); (12832, 12841);
  (12872, 12879); (12881, 12895); (12928, 12937); (12977, 12991);
  (13312, 19903); (19968, 42124); (42192, 42237); (42240, 42508);
  (42512, 42539); (42560, 42606); (42623, 42653); (42656, 42735);
  (42775, 42783); (42786, 42888); (42891, 42954); (42960, 42961);
  (42963, 42963); (42965, 42969); (42994, 43009); (43011, 43013);
  (43015, 43018); (43020, 43042); (43056, 43061); (43072, 43123);
  (43138, 43187); (43216, 43225); (43250, 43255); (43259, 43259);
  (43261, 43262); (43264, 43301); (43312, 43334); (43360, 43388);
  (43396, 43442); (43471, 43481); (43488, 43492); (43494, 43518);
  (43520, 43560); (43584, 43586); (43588, 43595); (43600, 43609);
  (43616, 43638); (43642, 43642); (43646, 43695); (43697, 43697);
  (43701, 43702); (43705, 43709); (43712, 43712); (43714, 43714);
  (43739, 43741); (43744, 43754); (43762, 43764); (43777, 43782);
  (43785, 43790); (43793, 43798); (43808, 43814); (43816, 43822);
  (43824, 43866); (43868, 43881); (43888, 44002); (44016, 44025);
  (44032, 55203); (55216, 55238); (55243, 55291); (63744, 64109);
  (64112, 64217); (64256, 64262); (64275, 64279); (64285, 64285);
  (64287, 64296); (64298, 64310); (64312, 64316); (64318, 64318);
  (64320, 64321); (64323, 64324); (64326, 64433); (64467, 64829);
  (64848, 64911); (64914, 64967); (65008, 65019); (65136, 65140);
  (65142, 65276); (65296, 65305); (65313, 65338); (65345, 65370);
  (65382, 65470); (65474, 65479); (65482, 65487); (65490, 65495);
  (65498, 65500); (65536, 65547); (65549, 65574); (65576, 65594);
  (65596, 65597); (65599, 65613); (65616, 65629); (65664, 65786);
  (65799, 65843); (65856, 65912); (65930, 65931); (66176, 66204);
  (66208, 66256); (66273, 66299); (66304, 66339); (66349, 66378);
  (66384, 66421); (66432, 66461); (66464, 66499); (66504, 66511);
  (66513, 66517); (66560, 66717); (66720, 66729); (66736, 66771);
  (66776, 66811); (66816, 66855); (66864, 66915); (66928, 66938);
  (66940, 66954); (66956, 66962); (66964, 66965); (66967, 66977);
  (66979, 66993); (66995, 67001); (67003, 67004); (67072, 67382);
  (67392, 67413); (67424, 67431); (67456, 67461); (67463, 67504);
  (67506, 67514); (67584, 67589); (67592, 67592); (67594, 67637);
  (67639, 67640); (67644, 67644); (67647, 67669); (67672, 67702);
  (67705, 67742); (67751, 67759); (67808, 67826); (67828, 67829);
  (67835, 67867); (67872, 67897); (67968, 68023); (68028, 68047);
  (68050, 68096); (68112, 68115); (68117, 68119); (68121, 68149);
  (68160, 68168); (68192, 68222); (68224, 68255); (68288, 68295);
  (68297, 68324); (68331, 68335); (68352, 68405); (68416, 68437);
  (68440, 68466); (68472, 68497); (68521, 68527); (68608, 68680);
  (68736, 68786); (68800, 68850); (68858, 68899); (68912, 68921);
  (69216, 69246); (69248, 69289); (69296, 69297); (69376, 69415);
  (69424, 69445); (69457, 69460); (69488, 69505); (69552, 69579);
  (69600, 69622); (69635, 69687); (69714, 69743); (69745, 69746);
  (69749, 69749); (69763, 69807); (69840, 69864); (69872, 69881);
  (69891, 69926); (69942, 69951); (69956, 69956); (69959, 69959);
  (69968, 70002); (70006, 70006); (70019, 70066); (70081, 70084);
  (70096, 70106); (70108, 70108); (70113, 70132); (70144, 70161);
  (70163, 70187); (70272, 70278); (70280, 70280); (70282, 70285);
  (70287, 70301); (70303, 70312); (70320, 70366); (70384, 70393);
  (70405, 70412); (70415, 70416); (70419, 70440); (70442, 70448);
  (70450, 70451); (70453, 70457); (70461, 70461); (70480, 70480);
  (70493, 70497); (70656, 70708); (70727, 70730); (70736, 70745);
  (70751, 70753); (70784, 70831); (70852, 70853); (70855, 70855);
  (70864, 70873); (71040, 71086); (71128, 71131); (71168, 71215);
  (71236, 71236); (71248, 71257); (71296, 71338); (71352, 71352);
  (71360, 71369); (71424, 71450); (71472, 71483); (71488, 71494);
  (71680, 71723); (71840, 71922); (71935, 71942); (71945, 71945);
  (71948, 71955); (71957, 71958); (71960, 71983); (71999, 71999);
  (72001, 72001); (72016, 72025); (72096, 72103); (72106, 72144);
  (72161, 72161); (72163, 72163); (72192, 72192); (72203, 72242);
  (72250, 72250); (72272, 72272); (72284, 72329); (72349, 72349);
  (72368, 72440); (72704, 72712); (72714, 72750); (72768, 72768);
  (72784, 72812); (72818, 72847); (72960, 72966); (72968, 72969);
  (72971, 73008); (73030, 73030); (73040, 73049); (73056, 73061);
  (73063, 73064); (73066, 73097); (73112, 73112); (73120, 73129);
  (73440, 73458); (73648, 73648); (73664, 73684); (73728, 74649);
  (74752, 74862); (74880, 75075); (77712, 77808); (77824, 78894);
  (82944, 83526); (92160, 92728); (92736, 92766); (92768, 92777);
  (92784, 92862); (92864, 92873); (92880, 92909); (92928, 92975);
  (92992, 92995); (93008, 93017); (93019, 93025); (93027, 93047);
  (93053, 93071); (93760, 93846); (93952, 94026); (94032, 94032);
  (94099, 94111); (94176, 94177); (94179, 94179); (94208, 100343);
  (100352, 101589); (101632, 101640); (110576, 110579); (110581, 110587);
  (110589, 110590); (110592, 110882); (110928, 110930); (110948, 110951);
  (110960, 111355); (113664, 113770); (113776, 113788); (113792, 113800);
  (113808, 113817); (119520, 119539); (119648, 119672); (119808, 119892);
  (119894, 119964); (119966, 119967); (119970, 119970); (119973, 119974);
  (119977, 119980); (119982, 119993); (119995, 119995); (119997, 120003);
  (120005, 120069); (120071, 120074); (120077, 120084); (120086, 120092);
  (120094, 120121); (120123, 120126); (120128, 120132); (120134, 120134);
  (120138, 120144); (120146, 120485); (120488, 120512); (120514, 120538);
  (120540, 120570); (120572, 120596); (120598, 120628); (120630, 120654);
  (120656, 120686); (120688, 120712); (120714, 120744); (120746, 120770);
  (120772, 120779); (120782, 120831); (122624, 122654); (123136, 123180);
  (123191, 123197); (123200, 123209); (123214, 123214); (123536, 123565);
  (123584, 123627); (123632, 123641); (124896, 124902); (124904, 124907);
  (124909, 124910); (124912, 124926); (124928, 125124); (125127, 125135);
  (125184, 125251); (125259, 125259); (125264, 125273); (126065, 126123);
  (126125, 126127); (126129, 126132); (126209, 126253); (126255, 126269);
  (126464, 126467); (126469, 126495); (126497, 126498); (126500, 126500);
  (126503, 126503); (126505, 126514); (126516, 126519); (126521, 126521);
  (126523, 126523); (126530, 126530); (126535, 126535); (126537, 126537);
  (126539, 126539); (126541, 126543); (126545, 126546); (126548, 126548);
  (126551, 126551); (126553, 126553); (126555, 126555); (126557, 126557);
  (126559, 126559); (126561, 126562); (126564, 126564); (126567, 126570);
  (126572, 126578); (126580, 126583); (126585, 126588); (126590, 126590);
  (126592, 126601); (126603, 126619); (126625, 126627); (126629, 126633);
  (126635, 126651); (127232, 127244); (130032, 130041); (131072, 173791);
  (173824, 177976); (177984, 178205); (178208, 183969); (183984, 191456);
  (194560, 195101); (196608, 201546)
]%N.

(** The cased code points (lower case, upper case or title case), as
    ranges. *)
Definition cased_ranges : list (N * N) := [
  (65, 90); (97, 122); (170, 170); (181, 181); (186, 186); (192, 214);
  (216, 246); (248, 442); (444, 447); (452, 659); (661, 696); (704, 705);
  (736, 740); (837, 837); (880, 883); (886, 887); (890, 893); (895, 895);
  (902, 902); (904, 906); (908, 908); (910, 929); (931, 1013); (1015, 1153);
  (1162, 1327); (1329, 1366); (1376, 1416); (4256, 4293); (4295, 4295);
  (4301, 4301); (4304, 4346); (4349, 4351); (5024, 5109); (5112, 5117);
  (7296, 7304); (7312, 7354); (7357, 7359); (7424, 7615); (7680, 7957);
  (7960, 7965); (7968, 8005); (8008, 8013); (8016, 8023); (8025, 8025);
  (8027, 8027); (8029, 8029); (8031, 8061); (8064, 8116); (8118, 8124);
  (8126, 8126); (8130, 8132); (8134, 8140); (8144, 8147); (8150, 8155);
  (8160, 8172); (8178, 8180); (8182, 8188); (8305, 8305); (8319, 8319);
  (8336, 8348); (8450, 8450); (8455, 8455); (8458, 8467); (8469, 8469);
  (8473, 8477); (8484, 8484); (8486, 8486); (8488, 8488); (8490, 8493);
  (8495, 8500); (8505, 8505); (8508, 8511); (8517, 8521); (8526, 8526);
  (8544, 8575); (8579, 8580); (9398, 9449); (11264, 11492); (11499, 11502);
  (11506, 11507); (11520, 11557); (11559, 11559); (11565, 11565);
  (42560, 42605); (42624, 42653); (42786, 42887); (42891, 42894);
  (42896, 42954); (42960, 42961); (42963, 42963); (42965, 42969);
  (42997, 42998); (43000, 43002); (43824, 43866); (43868, 43880);
  (43888, 43967); (64256, 64262); (64275, 64279); (65313, 65338);
  (65345, 65370); (66560, 66639); (66736, 66771); (66776, 66811);
  (66928, 66938); (66940, 66954); (66956, 66962); (66964, 66965);
  (66967, 66977); (66979, 66993); (66995, 67001); (67003, 67004);
  (67456, 67456); (67459, 67461); (67463, 67504); (67506, 67514);
  (68736, 68786); (68800, 68850); (71840, 71903); (93760, 93823);
  (119808, 119892); (119894, 119964); (119966, 119967); (119970, 119970);
  (119973, 119974); (119977, 119980); (119982, 119993); (119995, 119995);
  (119997, 120003); (120005, 120069); (120071, 120074); (120077, 120084);
  (120086, 120092); (120094, 120121); (120123, 120126); (120128, 120132);
  (120134, 120134); (120138, 120144); (120146, 120485); (120488, 120512);
  (120514, 120538); (120540, 120570); (120572, 120596); (120598, 120628);
  (120630, 120654); (120656, 120686); (120688, 120712); (120714, 120744);
  (120746, 120770); (120772, 120779); (122624, 122633); (122635, 122654);
  (125184, 125251); (127280, 127305); (127312, 127337); (127344, 127369)
]%N.

(** The case-ignorable code points, as ranges. *)
Definition case_ignorable_ranges : list (N * N) := [
  (39, 39); (46, 46); (58, 58); (94, 94); (96, 96); (168, 168); (173, 173);
  (175, 175); (180, 180); (183, 184); (688, 879); (884, 885); (890, 890);
  (900, 901); (903, 903); (1155, 1161); (1369, 1369); (1375, 1375);
  (1425, 1469); (1471, 1471); (1473, 1474); (1476, 1477); (1479, 1479);
  (1524, 1524); (1536, 1541); (1552, 1562); (1564, 1564); (1600, 1600);
  (1611, 1631); (1648, 1648); (1750, 1757); (1759, 1768); (1770, 1773);
  (1807, 1807); (1809, 1809); (1840, 1866); (1958, 1968); (2027, 2037);
  (2042, 2042); (2045, 2045); (2070, 2093); (2137, 2139); (2184, 2184);
  (2192, 2193); (2200, 2207); (2249, 2306); (2362, 2362); (2364, 2364);
  (2369, 2376); (2381, 2381); (2385, 2391); (2402, 2403); (2417, 2417);
  (2433, 2433); (2492, 2492); (2497, 2500); (2509, 2509); (2530, 2531);
  (2558, 2558); (2561, 2562); (2620, 2620); (2625, 2626); (2631, 2632);
  (2635, 2637); (2641, 2641); (2672, 2673); (2677, 2677); (2689, 2690);
  (2748, 2748); (2753, 2757); (2759, 2760); (2765, 2765); (2786, 2787);
  (2810, 2815); (2817, 2817); (2876, 2876); (2879, 2879); (2881, 2884);
  (2893, 2893); (2901, 2902); (2914, 2915); (2946, 2946); (3008, 3008);
  (3021, 3021); (3072, 3072); (3076, 3076); (3132, 3132); (3134, 3136);
  (3142, 3144); (3146, 3149); (3157, 3158); (3170, 3171); (3201, 3201);
  (3260, 3260); (3263, 3263); (3270, 3270); (3276, 3277); (3298, 3299);
  (3328, 3329); (3387, 3388); (3393, 3396); (3405, 3405); (3426, 3427);
  (3457, 3457); (3530, 3530); (3538, 3540); (3542, 3542); (3633, 3633);
  (3636, 3642); (3654, 3662); (3761, 3761); (3764, 3772); (3782, 3782);
  (3784, 3789); (3864, 3865); (3893, 3893); (3895, 3895); (3897, 3897);
  (3953, 3966); (3968, 3972); (3974, 3975); (3981, 3991); (3993, 4028);
  (4038, 4038); (4141, 4144); (4146, 4151); (4153, 4154); (4157, 4158);
  (4184, 4185); (4190, 4192); (4209, 4212); (4226, 4226); (4229, 4230);
  (4237, 4237); (4253, 4253); (4348, 4348); (4957, 4959); (5906, 5908);
  (5938, 5939); (5970, 5971); (6002, 6003); (6068, 6069); (6071, 6077);
  (6086, 6086); (6089, 6099); (6103, 6103); (6109, 6109); (6155, 6159);
  (6211, 6211); (6277, 6278); (6313, 6313); (6432, 6434); (6439, 6440);
  (6450, 6450); (6457, 6459); (6679, 6680); (6683, 6683); (6742, 6742);
  (6744, 6750); (6752, 6752); (6754, 6754); (6757, 6764); (6771, 6780);
  (6783, 6783); (6823, 6823); (6832, 6862); (6912, 6915); (6964, 6964);
  (6966, 6970); (6972, 6972); (6978, 6978); (7019, 7027); (7040, 7041);
  (7074, 7077); (7080, 7081); (7083, 7085); (7142, 7142); (7144, 7145);
  (7149, 7149); (7151, 7153); (7212, 7219); (7222, 7223); (7288, 7293);
  (7376, 7378); (7380, 7392); (7394, 7400); (7405, 7405); (7412, 7412);
  (7416, 7417); (7468, 7530); (7544, 7544); (7579, 7679); (8125, 8125);
  (8127, 8129); (8141, 8143); (8157, 8159); (8173, 8175); (8189, 8190);
  (8203, 8207); (8216, 8217); (8228, 8228); (8231, 8231); (8234, 8238);
  (8288, 8292); (8294, 8303); (8305, 8305); (8319, 8319); (8336, 8348);
  (8400, 8432); (11388, 11389); (11503, 11505); (11631, 11631);
  (11647, 11647); (11744, 11775); (11823, 11823); (12293, 12293);
  (12330, 12333); (12337, 12341); (12347, 12347); (12441, 12446);
  (12540, 12542); (40981, 40981); (42232, 42237); (42508, 42508);
  (42607, 42610); (42612, 42621); (42623, 42623); (42652, 42655);
  (42736, 42737); (42752, 42785); (42864, 42864); (42888, 42890);
  (42994, 42996); (43000, 43001); (43010, 43010); (43014, 43014);
  (43019, 43019); (43045, 43046); (43052, 43052); (43204, 43205);
  (43232, 43249); (43263, 43263); (43302, 43309); (43335, 43345);
  (43392, 43394); (43443, 43443); (43446, 43449); (43452, 43453);
  (43471, 43471); (43493, 43494); (43561, 43566); (43569, 43570);
  (43573, 43574); (43587, 43587); (43596, 43596); (43632, 43632);
  (43644, 43644); (43696, 43696); (43698, 43700); (43703, 43704);
  (43710, 43711); (43713, 43713); (43741, 43741); (43756, 43757);
  (43763, 43764); (43766, 43766); (43867, 43871); (43881, 43883);
  (44005, 44005); (44008, 44008); (44013, 44013); (64286, 64286);
  (64434, 64450); (65024, 65039); (65043, 65043); (65056, 65071);
  (65106, 65106); (65109, 65109); (65279, 65279); (65287, 65287);
  (65294, 65294); (65306, 65306); (65342, 65342); (65344, 65344);
  (65392, 65392); (65438, 65439); (65507, 65507); (65529, 65531);
  (66045, 66045); (66272, 66272); (66422, 66426); (67456, 67461);
  (67463, 67504); (67506, 67514); (68097, 68099); (68101, 68102);
  (68108, 68111); (68152, 68154); (68159, 68159); (68325, 68326);
  (68900, 68903); (69291, 69292); (69446, 69456); (69506, 69509);
  (69633, 69633); (69688, 69702); (69744, 69744); (69747, 69748);
  (69759, 69761); (69811, 69814); (69817, 69818); (69821, 69821);
  (69826, 69826); (69837, 69837); (69888, 69890); (69927, 69931);
  (69933, 69940); (70003, 70003); (70016, 70017); (70070, 70078);
  (70089, 70092); (70095, 70095); (70191, 70193); (70196, 70196);
  (70198, 70199); (70206, 70206); (70367, 70367); (70371, 70378);
  (70400, 70401); (70459, 70460); (70464, 70464); (70502, 70508);
  (70512, 70516); (70712, 70719); (70722, 70724); (70726, 70726);
  (70750, 70750); (70835, 70840); (70842, 70842); (70847, 70848);
  (70850, 70851); (71090, 71093); (71100, 71101); (71103, 71104);
  (71132, 71133); (71219, 71226); (71229, 71229); (71231, 71232);
  (71339, 71339); (71341, 71341); (71344, 71349); (71351, 71351);
  (71453, 71455); (71458, 71461); (71463, 71467); (71727, 71735);
  (71737, 71738); (71995, 71996); (71998, 71998); (72003, 72003);
  (72148, 72151); (72154, 72155); (72160, 72160); (72193, 72202);
  (72243, 72248); (72251, 72254); (72263, 72263); (72273, 72278);
  (72281, 72283); (72330, 72342); (72344, 72345); (72752, 72758);
  (72760, 72765); (72767, 72767); (72850, 72871); (72874, 72880);
  (72882, 72883); (72885, 72886); (73009, 73014); (73018, 73018);
  (73020, 73021); (73023, 73029); (73031, 73031); (73104, 73105);
  (73109, 73109); (73111, 73111); (73459, 73460); (78896, 78904);
  (92912, 92916); (92976, 92982); (92992, 92995); (94031, 94031);
  (94095, 94111); (94176, 94177); (94179, 94180); (110576, 110579);
  (110581, 110587); (110589, 110590); (113821, 113822); (113824, 113827);
  (118528, 118573); (118576, 118598); (119143, 119145); (119155, 119170);
  (119173, 119179); (119210, 119213); (119362, 119364); (121344, 121398);
  (121403, 121452); (121461, 121461); (121476, 121476); (121499, 121503);
  (121505, 121519); (122880, 122886); (122888, 122904); (122907, 122913);
  (122915, 122916); (122918, 122922); (123184, 123197); (123566, 123566);
  (123628, 123631); (125136, 125142); (125252, 125259); (127995, 127999);
  (917505, 917505); (917536, 917631); (917760, 917999)
]%N.

(** The code points that [str.lower] changes, U+0130 apart, each with
    the code point it becomes (U+03A3 with the small sigma it becomes
    when it does not end a word). *)
Definition lower_table : list (N * N) := [
  (65, 97); (66, 98); (67, 99); (68, 100); (69, 101); (70, 102); (71, 103);
  (72, 104); (73, 105); (74, 106); (75, 107); (76, 108); (77, 109);
  (78, 110); (79, 111); (80, 112); (81, 113); (82, 114); (83, 115);
  (84, 116); (85, 117); (86, 118); (87, 119); (88, 120); (89, 121);
  (90, 122); (192, 224); (193, 225); (194, 226); (195, 227); (196, 228);
  (197, 229); (198, 230); (199, 231); (200, 232); (201, 233); (202, 234);
  (203, 235); (204, 236); (205, 237); (206, 238); (207, 239); (208, 240);
  (209, 241); (210, 242); (211, 243); (212, 244); (213, 245); (214, 246);
  (216, 248); (217, 249); (218, 250); (219, 251); (220, 252); (221, 253);
  (222, 254); (256, 257); (258, 259); (260, 261); (262, 263); (264, 265);
  (266, 267); (268, 269); (270, 271); (272, 273); (274, 275); (276, 277);
  (278, 279); (280, 281); (282, 283); (284, 285); (286, 287); (288, 289);
  (290, 291); (292, 293); (294, 295); (296, 297); (298, 299); (300, 301);
  (302, 303); (306, 307); (308, 309); (310, 311); (313, 314); (315, 316);
  (317, 318); (319, 320); (321, 322); (323, 324); (325, 326); (327, 328);
  (330, 331); (332, 333); (334, 335); (336, 337); (338, 339); (340, 341);
  (342, 343); (344, 345); (346, 347); (348, 349); (350, 351); (352, 353);
  (354, 355); (356, 357); (358, 359); (360, 361); (362, 363); (364, 365);
  (366, 367); (368, 369); (370, 371); (372, 373); (374, 375); (376, 255);
  (377, 378); (379, 380); (381, 382); (385, 595); (386, 387); (388, 389);
  (390, 596); (391, 392); (393, 598); (394, 599); (395, 396); (398, 477);
  (399, 601); (400, 603); (401, 402); (403, 608); (404, 611); (406, 617);
  (407, 616); (408, 409); (412, 623); (413, 626); (415, 629); (416, 417);
  (418, 419); (420, 421); (422, 640); (423, 424); (425, 643); (428, 429);
  (430, 648); (431, 432); (433, 650); (434, 651); (435, 436); (437, 438);
  (439, 658); (440, 441); (444, 445); (452, 454); (453, 454); (455, 457);
  (456, 457); (458, 460); (459, 460); (461, 462); (463, 464); (465, 466);
  (467, 468); (469, 470); (471, 472); (473, 474); (475, 476); (478, 479);
  (480, 481); (482, 483); (484, 485); (486, 487); (488, 489); (490, 491);
  (492, 493); (494, 495); (497, 499); (498, 499); (500, 501); (502, 405);
  (503, 447); (504, 505); (506, 507); (508, 509); (510, 511); (512, 513);
  (514, 515); (516, 517); (518, 519); (520, 521); (522, 523); (524, 525);
  (526, 527); (528, 529); (530, 531); (532, 533); (534, 535); (536, 537);
  (538, 539); (540, 541); (542, 543); (544, 414); (546, 547); (548, 549);
  (550, 551); (552, 553); (554, 555); (556, 557); (558, 559); (560, 561);
  (562, 563); (570, 11365); (571, 572); (573, 410); (574, 11366);
  (577, 578); (579, 384); (580, 649); (581, 652); (582, 583); (584, 585);
  (586, 587); (588, 589); (590, 591); (880, 881); (882, 883); (886, 887);
  (895, 1011); (902, 940); (904, 941); (905, 942); (906, 943); (908, 972);
  (910, 973); (911, 974); (913, 945); (914, 946); (915, 947); (916, 948);
  (917, 949); (918, 950); (919, 951); (920, 952); (921, 953); (922, 954);
  (923, 955); (924, 956); (925, 957); (926, 958); (927, 959); (928, 960);
  (929, 961); (931, 963); (932, 964); (933, 965); (934, 966); (935, 967);
  (936, 968); (937, 969); (938, 970); (939, 971); (975, 983); (984, 985);
  (986, 987); (988, 989); (990, 991); (992, 993); (994, 995); (996, 997);
  (998, 999); (1000, 1001); (1002, 1003); (1004, 1005); (1006, 1007);
  (1012, 952); (1015, 1016); (1017, 1010); (1018, 1019); (1021, 891);
  (1022, 892); (1023, 893); (1024, 1104); (1025, 1105); (1026, 1106);
  (1027, 1107); (1028, 1108); (1029, 1109); (1030, 1110); (1031, 1111);
  (1032, 1112); (1033, 1113); (1034, 1114); (1035, 1115); (1036, 1116);
  (1037, 1117); (1038, 1118); (1039, 1119); (1040, 1072); (1041, 1073);
  (1042, 1074); (1043, 1075); (1044, 1076); (1045, 1077); (1046, 1078);
  (1047, 1079); (1048, 1080); (1049, 1081); (1050, 1082); (1051, 1083);
  (1052, 1084); (1053, 1085); (1054, 1086); (1055, 1087); (1056, 1088);
  (1057, 1089); (1058, 1090); (1059, 1091); (1060, 1092); (1061, 1093);
  (1062, 1094); (1063, 1095); (1064, 1096); (1065, 1097); (1066, 1098);
  (1067, 1099); (1068, 1100); (1069, 1101); (1070, 1102); (1071, 1103);
  (1120, 1121); (1122, 1123); (1124, 1125); (1126, 1127); (1128, 1129);
  (1130, 1131); (1132, 1133); (1134, 1135); (1136, 1137); (1138, 1139);
  (1140, 1141); (1142, 1143); (1144, 1145); (1146, 1147); (1148, 1149);
  (1150, 1151); (1152, 1153); (1162, 1163); (1164, 1165); (1166, 1167);
  (1168, 1169); (1170, 1171); (1172, 1173); (1174, 1175); (1176, 1177);
  (1178, 1179); (1180, 1181); (1182, 1183); (1184, 1185); (1186, 1187);
  (1188, 1189); (1190, 1191); (1192, 1193); (1194, 1195); (1196, 1197);
  (1198, 1199); (1200, 1201); (1202, 1203); (1204, 1205); (1206, 1207);
  (1208, 1209); (1210, 1211); (1212, 1213); (1214, 1215); (1216, 1231);
  (1217, 1218); (1219, 1220); (1221, 1222); (1223, 1224); (1225, 1226);
  (1227, 1228); (1229, 1230); (1232, 1233); (1234, 1235); (1236, 1237);
  (1238, 1239); (1240, 1241); (1242, 1243); (1244, 1245); (1246, 1247);
  (1248, 1249); (1250, 1251); (1252, 1253); (1254, 1255); (1256, 1257);
  (1258, 1259); (1260, 1261); (1262, 1263); (1264, 1265); (1266, 1267);
  (1268, 1269); (1270, 1271); (1272, 1273); (1274, 1275); (1276, 1277);
  (1278, 1279); (1280, 1281); (1282, 1283); (1284, 1285); (1286, 1287);
  (1288, 1289); (1290, 1291); (1292, 1293); (1294, 1295); (1296, 1297);
  (1298, 1299); (1300, 1301); (1302, 1303); (1304, 1305); (1306, 1307);
  (1308, 1309); (1310, 1311); (1312, 1313); (1314, 1315); (1316, 1317);
  (1318, 1319); (1320, 1321); (1322, 1323); (1324, 1325); (1326, 1327);
  (1329, 1377); (1330, 1378); (1331, 1379); (1332, 1380); (1333, 1381);
  (1334, 1382); (1335, 1383); (1336, 1384); (1337, 1385); (1338, 1386);
  (1339, 1387); (1340, 1388); (1341, 1389); (1342, 1390); (1343, 1391);
  (1344, 1392); (1345, 1393); (1346, 1394); (1347, 1395); (1348, 1396);
  (1349, 1397); (1350, 1398); (1351, 1399); (1352, 1400); (1353, 1401);
  (1354, 1402); (1355, 1403); (1356, 1404); (1357, 1405); (1358, 1406);
  (1359, 1407); (1360, 1408); (1361, 1409); (1362, 1410); (1363, 1411);
  (1364, 1412); (1365, 1413); (1366, 1414); (4256, 11520); (4257, 11521);
  (4258, 11522); (4259, 11523); (4260, 11524); (4261, 11525); (4262, 11526);
  (4263, 11527); (4264, 11528); (4265, 11529); (4266, 11530); (4267, 11531);
  (4268, 11532); (4269, 11533); (4270, 11534); (4271, 11535); (4272, 11536);
  (4273, 11537); (4274, 11538); (4275, 11539); (4276, 11540); (4277, 11541);
  (4278, 11542); (4279, 11543); (4280, 11544); (4281, 11545); (4282, 11546);
  (4283, 11547); (4284, 11548); (4285, 11549); (4286, 11550); (4287, 11551);
  (4288, 11552); (4289, 11553); (4290, 11554); (4291, 11555); (4292, 11556);
  (4293, 11557); (4295, 11559); (4301, 11565); (5024, 43888); (5025, 43889);
  (5026, 43890); (5027, 43891); (5028, 43892); (5029, 43893); (5030, 43894);
  (5031, 43895); (5032, 43896); (5033, 43897); (5034, 43898); (5035, 43899);
  (5036, 43900); (5037, 43901); (5038, 43902); (5039, 43903); (5040, 43904);
  (5041, 43905); (5042, 43906); (5043, 43907); (5044, 43908); (5045, 43909);
  (5046, 43910); (5047, 43911); (5048, 43912); (5049, 43913); (5050, 43914);
  (5051, 43915); (5052, 43916); (5053, 43917); (5054, 43918); (5055, 43919);
  (5056, 43920); (5057, 43921); (5058, 43922); (5059, 43923); (5060, 43924);
  (5061, 43925); (5062, 43926); (5063, 43927); (5064, 43928); (5065, 43929);
  (5066, 43930); (5067, 43931); (5068, 43932); (5069, 43933); (5070, 43934);
  (5071, 43935); (5072, 43936); (5073, 43937); (5074, 43938); (5075, 43939);
  (5076, 43940); (5077, 43941); (5078, 43942); (5079, 43943); (5080, 43944);
  (5081, 43945); (5082, 43946); (5083, 43947); (5084, 43948); (5085, 43949);
  (5086, 43950); (5087, 43951); (5088, 43952); (5089, 43953); (5090, 43954);
  (5091, 43955); (5092, 43956); (5093, 43957); (5094, 43958); (5095, 43959);
  (5096, 43960); (5097, 43961); (5098, 43962); (5099, 43963); (5100, 43964);
  (5101, 43965); (5102, 43966); (5103, 43967); (5104, 5112); (5105, 5113);
  (5106, 5114); (5107, 5115); (5108, 5116); (5109, 5117); (7312, 4304);
  (7313, 4305); (7314, 4306); (7315, 4307); (7316, 4308); (7317, 4309);
  (7318, 4310); (7319, 4311); (7320, 4312); (7321, 4313); (7322, 4314);
  (7323, 4315); (7324, 4316); (7325, 4317); (7326, 4318); (7327, 4319);
  (7328, 4320); (7329, 4321); (7330, 4322); (7331, 4323); (7332, 4324);
  (7333, 4325); (7334, 4326); (7335, 4327); (7336, 4328); (7337, 4329);
  (7338, 4330); (7339, 4331); (7340, 4332); (7341, 4333); (7342, 4334);
  (7343, 4335); (7344, 4336); (7345, 4337); (7346, 4338); (7347, 4339);
  (7348, 4340); (7349, 4341); (7350, 4342); (7351, 4343); (7352, 4344);
  (7353, 4345); (7354, 4346); (7357, 4349); (7358, 4350); (7359, 4351);
  (7680, 7681); (7682, 7683); (7684, 7685); (7686, 7687); (7688, 7689);
  (7690, 7691); (7692, 7693); (7694, 7695); (7696, 7697); (7698, 7699);
  (7700, 7701); (7702, 7703); (7704, 7705); (7706, 7707); (7708, 7709);
  (7710, 7711); (7712, 7713); (7714, 7715); (7716, 7717); (7718, 7719);
  (7720, 7721); (7722, 7723); (7724, 7725); (7726, 7727); (7728, 7729);
  (7730, 7731); (7732, 7733); (7734, 7735); (7736, 7737); (7738, 7739);
  (7740, 7741); (7742, 7743); (7744, 7745); (7746, 7747); (7748, 7749);
  (7750, 7751); (7752, 7753); (7754, 7755); (7756, 7757); (7758, 7759);
  (7760, 7761); (7762, 7763); (7764, 7765); (7766, 7767); (7768, 7769);
  (7770, 7771); (7772, 7773); (7774, 7775); (7776, 7777); (7778, 7779);
  (7780, 7781); (7782, 7783); (7784, 7785); (7786, 7787); (7788, 7789);
  (7790, 7791); (7792, 7793); (7794, 7795); (7796, 7797); (7798, 7799);
  (7800, 7801); (7802, 7803); (7804, 7805); (7806, 7807); (7808, 7809);
  (7810, 7811); (7812, 7813); (7814, 7815); (7816, 7817); (7818, 7819);
  (7820, 7821); (7822, 7823); (7824, 7825); (7826, 7827); (7828, 7829);
  (7838, 223); (7840, 7841); (7842, 7843); (7844, 7845); (7846, 7847);
  (7848, 7849); (7850, 7851); (7852, 7853); (7854, 7855); (7856, 7857);
  (7858, 7859); (7860, 7861); (7862, 7863); (7864, 7865); (7866, 7867);
  (7868, 7869); (7870, 7871); (7872, 7873); (7874, 7875); (7876, 7877);
  (7878, 7879); (7880, 7881); (7882, 7883); (7884, 7885); (7886, 7887);
  (7888, 7889); (7890, 7891); (7892, 7893); (7894, 7895); (7896, 7897);
  (7898, 7899); (7900, 7901); (7902, 7903); (7904, 7905); (7906, 7907);
  (7908, 7909); (7910, 7911); (7912, 7913); (7914, 7915); (7916, 7917);
  (7918, 7919); (7920, 7921); (7922, 7923); (7924, 7925); (7926, 7927);
  (7928, 7929); (7930, 7931); (7932, 7933); (7934, 7935); (7944, 7936);
  (7945, 7937); (7946, 7938); (7947, 7939); (7948, 7940); (7949, 7941);
  (7950, 7942); (7951, 7943); (7960, 7952); (7961, 7953); (7962, 7954);
  (7963, 7955); (7964, 7956); (7965, 7957); (7976, 7968); (7977, 7969);
  (7978, 7970); (7979, 7971); (7980, 7972); (7981, 7973); (7982, 7974);
  (7983, 7975); (7992, 7984); (7993, 7985); (7994, 7986); (7995, 7987);
  (7996, 7988); (7997, 7989); (7998, 7990); (7999, 7991); (8008, 8000);
  (8009, 8001); (8010, 8002); (8011, 8003); (8012, 8004); (8013, 8005);
  (8025, 8017); (8027, 8019); (8029, 8021); (8031, 8023); (8040, 8032);
  (8041, 8033); (8042, 8034); (8043, 8035); (8044, 8036); (8045, 8037);
  (8046, 8038); (8047, 8039); (8072, 8064); (8073, 8065); (8074, 8066);
  (8075, 8067); (8076, 8068); (8077, 8069); (8078, 8070); (8079, 8071);
  (8088, 8080); (8089, 8081); (8090, 8082); (8091, 8083); (8092, 8084);
  (8093, 8085); (8094, 8086); (8095, 8087); (8104, 8096); (8105, 8097);
  (8106, 8098); (8107, 8099); (8108, 8100); (8109, 8101); (8110, 8102);
  (8111, 8103); (8120, 8112); (8121, 8113); (8122, 8048); (8123, 8049);
  (8124, 8115); (8136, 8050); (8137, 8051); (8138, 8052); (8139, 8053);
  (8140, 8131); (8152, 8144); (8153, 8145); (8154, 8054); (8155, 8055);
  (8168, 8160); (8169, 8161); (8170, 8058); (8171, 8059); (8172, 8165);
  (8184, 8056); (8185, 8057); (8186, 8060); (8187, 8061); (8188, 8179);
  (8486, 969); (8490, 107); (8491, 229); (8498, 8526); (8544, 8560);
  (8545, 8561); (8546, 8562); (8547, 8563); (8548, 8564); (8549, 8565);
  (8550, 8566); (8551, 8567); (8552, 8568); (8553, 8569); (8554, 8570);
  (8555, 8571); (8556, 8572); (8557, 8573); (8558, 8574); (8559, 8575);
  (8579, 8580); (9398, 9424); (9399, 9425); (9400, 9426); (9401, 9427);
  (9402, 9428); (9403, 9429); (9404, 9430); (9405, 9431); (9406, 9432);
  (9407, 9433); (9408, 9434); (9409, 9435); (9410, 9436); (9411, 9437);
  (9412, 9438); (9413, 9439); (9414, 9440); (9415, 9441); (9416, 9442);
  (9417, 9443); (9418, 9444); (9419, 9445); (9420, 9446); (9421, 9447);
  (9422, 9448); (9423, 9449); (11264, 11312); (11265, 11313);
  (11266, 11314); (11267, 11315); (11268, 11316); (11269, 11317);
  (11270, 11318); (11271, 11319); (11272, 11320); (11273, 11321);
  (11274, 11322); (11275, 11323); (11276, 11324); (11277, 11325);
  (11278, 11326); (11279, 11327); (11280, 11328); (11281, 11329);
  (11282, 11330); (11283, 11331); (11284, 11332); (11285, 11333);
  (11286, 11334); (11287, 11335); (11288, 11336); (11289, 11337);
  (11290, 11338); (11291, 11339); (11292, 11340); (11293, 11341);
  (11294, 11342); (11295, 11343); (11296, 11344); (11297, 11345);
  (11298, 11346); (11299, 11347); (11300, 11348); (11301, 11349);
  (11302, 11350); (11303, 11351); (11304, 11352); (11305, 11353);
  (11306, 11354); (11307, 11355); (11308, 11356); (11309, 11357);
  (11310, 11358); (11311, 11359); (11360, 11361); (11362, 619);
  (11363, 7549); (11364, 637); (11367, 11368); (11369, 11370);
  (11371, 11372); (11373, 593); (11374, 625); (11375, 592); (11376, 594);
  (11378, 11379); (11381, 11382); (11390, 575); (11391, 576);
  (11392, 11393); (11394, 11395); (11396, 11397); (11398, 11399);
  (11400, 11401); (11402, 11403); (11404, 11405); (11406, 11407);
  (11408, 11409); (11410, 11411); (11412, 11413); (11414, 11415);
  (11416, 11417); (11418, 11419); (11420, 11421); (11422, 11423);
  (11424, 11425); (11426, 11427); (11428, 11429); (11430, 11431);
  (11432, 11433); (11434, 11435); (11436, 11437); (11438, 11439);
  (11440, 11441); (11442, 11443); (11444, 11445); (11446, 11447);
  (11448, 11449); (11450, 11451); (11452, 11453); (11454, 11455);
  (11456, 11457); (11458, 11459); (11460, 11461); (11462, 11463);
  (11464, 11465); (11466, 11467); (11468, 11469); (11470, 11471);
  (11472, 11473); (11474, 11475); (11476, 11477); (11478, 11479);
  (11480, 11481); (11482, 11483); (11484, 11485); (11486, 11487);
  (11488, 11489); (11490, 11491); (11499, 11500); (11501, 11502);
  (11506, 11507); (42560, 42561); (42562, 42563); (42564, 42565);
  (42566, 42567); (42568, 42569); (42570, 42571); (42572, 42573);
  (42574, 42575); (42576, 42577); (42578, 42579); (42580, 42581);
  (42582, 42583); (42584, 42585); (42586, 42587); (42588, 42589);
  (42590, 42591); (42592, 42593); (42594, 42595); (42596, 42597);
  (42598, 42599); (42600, 42601); (42602, 42603); (42604, 42605);
  (42624, 42625); (42626, 42627); (42628, 42629); (42630, 42631);
  (42632, 42633); (42634, 42635); (42636, 42637); (42638, 42639);
  (42640, 42641); (42642, 42643); (42644, 42645); (42646, 42647);
  (42648, 42649); (42650, 42651); (42786, 42787); (42788, 42789);
  (42790, 42791); (42792, 42793); (42794, 42795); (42796, 42797);
  (42798, 42799); (42802, 42803); (42804, 42805); (42806, 42807);
  (42808, 42809); (42810, 42811); (42812, 42813); (42814, 42815);
  (42816, 42817); (42818, 42819); (42820, 42821); (42822, 42823);
  (42824, 42825); (42826, 42827); (42828, 42829); (42830, 42831);
  (42832, 42833); (42834, 42835); (42836, 42837); (42838, 42839);
  (42840, 42841); (42842, 42843); (42844, 42845); (42846, 42847);
  (42848, 42849); (42850, 42851); (42852, 42853); (42854, 42855);
  (42856, 42857); (42858, 42859); (42860, 42861); (42862, 42863);
  (42873, 42874); (42875, 42876); (42877, 7545); (42878, 42879);
  (42880, 42881); (42882, 42883); (42884, 42885); (42886, 42887);
  (42891, 42892); (42893, 613); (42896, 42897); (42898, 42899);
  (42902, 42903); (42904, 42905); (42906, 42907); (42908, 42909);
  (42910, 42911); (42912, 42913); (42914, 42915); (42916, 42917);
  (42918, 42919); (42920, 42921); (42922, 614); (42923, 604); (42924, 609);
  (42925, 620); (42926, 618); (42928, 670); (42929, 647); (42930, 669);
  (42931, 43859); (42932, 42933); (42934, 42935); (42936, 42937);
  (42938, 42939); (42940, 42941); (42942, 42943); (42944, 42945);
  (42946, 42947); (42948, 42900); (42949, 642); (42950, 7566);
  (42951, 42952); (42953, 42954); (42960, 42961); (42966, 42967);
  (42968, 42969); (42997, 42998); (65313, 65345); (65314, 65346);
  (65315, 65347); (65316, 65348); (65317, 65349); (65318, 65350);
  (65319, 65351); (65320, 65352); (65321, 65353); (65322, 65354);
  (65323, 65355); (65324, 65356); (65325, 65357); (65326, 65358);
  (65327, 65359); (65328, 65360); (65329, 65361); (65330, 65362);
  (65331, 65363); (65332, 65364); (65333, 65365); (65334, 65366);
  (65335, 65367); (65336, 65368); (65337, 65369); (65338, 65370);
  (66560, 66600); (66561, 66601); (66562, 66602); (66563, 66603);
  (66564, 66604); (66565, 66605); (66566, 66606); (66567, 66607);
  (66568, 66608); (66569, 66609); (66570, 66610); (66571, 66611);
  (66572, 66612); (66573, 66613); (66574, 66614); (66575, 66615);
  (66576, 66616); (66577, 66617); (66578, 66618); (66579, 66619);
  (66580, 66620); (66581, 66621); (66582, 66622); (66583, 66623);
  (66584, 66624); (66585, 66625); (66586, 66626); (66587, 66627);
  (66588, 66628); (66589, 66629); (66590, 66630); (66591, 66631);
  (66592, 66632); (66593, 66633); (66594, 66634); (66595, 66635);
  (66596, 66636); (66597, 66637); (66598, 66638); (66599, 66639);
  (66736, 66776); (66737, 66777); (66738, 66778); (66739, 66779);
  (66740, 66780); (66741, 66781); (66742, 66782); (66743, 66783);
  (66744, 66784); (66745, 66785); (66746, 66786); (66747, 66787);
  (66748, 66788); (66749, 66789); (66750, 66790); (66751, 66791);
  (66752, 66792); (66753, 66793); (66754, 66794); (66755, 66795);
  (66756, 66796); (66757, 66797); (66758, 66798); (66759, 66799);
  (66760, 66800); (66761, 66801); (66762, 66802); (66763, 66803);
  (66764, 66804); (66765, 66805); (66766, 66806); (66767, 66807);
  (66768, 66808); (66769, 66809); (66770, 66810); (66771, 66811);
  (66928, 66967); (66929, 66968); (66930, 66969); (66931, 66970);
  (66932, 66971); (66933, 66972); (66934, 66973); (66935, 66974);
  (66936, 66975); (66937, 66976); (66938, 66977); (66940, 66979);
  (66941, 66980); (66942, 66981); (66943, 66982); (66944, 66983);
  (66945, 66984); (66946, 66985); (66947, 66986); (66948, 66987);
  (66949, 66988); (66950, 66989); (66951, 66990); (66952, 66991);
  (66953, 66992); (66954, 66993); (66956, 66995); (66957, 66996);
  (66958, 66997); (66959, 66998); (66960, 66999); (66961, 67000);
  (66962, 67001); (66964, 67003); (66965, 67004); (68736, 68800);
  (68737, 68801); (68738, 68802); (68739, 68803); (68740, 68804);
  (68741, 68805); (68742, 68806); (68743, 68807); (68744, 68808);
  (68745, 68809); (68746, 68810); (68747, 68811); (68748, 68812);
  (68749, 68813); (68750, 68814); (68751, 68815); (68752, 68816);
  (68753, 68817); (68754, 68818); (68755, 68819); (68756, 68820);
  (68757, 68821); (68758, 68822); (68759, 68823); (68760, 68824);
  (68761, 68825); (68762, 68826); (68763, 68827); (68764, 68828);
  (68765, 68829); (68766, 68830); (68767, 68831); (68768, 68832);
  (68769, 68833); (68770, 68834); (68771, 68835); (68772, 68836);
  (68773, 68837); (68774, 68838); (68775, 68839); (68776, 68840);
  (68777, 68841); (68778, 68842); (68779, 68843); (68780, 68844);
  (68781, 68845); (68782, 68846); (68783, 68847); (68784, 68848);
  (68785, 68849); (68786, 68850); (71840, 71872); (71841, 71873);
  (71842, 71874); (71843, 71875); (71844, 71876); (71845, 71877);
  (71846, 71878); (71847, 71879); (71848, 71880); (71849, 71881);
  (71850, 71882); (71851, 71883); (71852, 71884); (71853, 71885);
  (71854, 71886); (71855, 71887); (71856, 71888); (71857, 71889);
  (71858, 71890); (71859, 71891); (71860, 71892); (71861, 71893);
  (71862, 71894); (71863, 71895); (71864, 71896); (71865, 71897);
  (71866, 71898); (71867, 71899); (71868, 71900); (71869, 71901);
  (71870, 71902); (71871, 71903); (93760, 93792); (93761, 93793);
  (93762, 93794); (93763, 93795); (93764, 93796); (93765, 93797);
  (93766, 93798); (93767, 93799); (93768, 93800); (93769, 93801);
  (93770, 93802); (93771, 93803); (93772, 93804); (93773, 93805);
  (93774, 93806); (93775, 93807); (93776, 93808); (93777, 93809);
  (93778, 93810); (93779, 93811); (93780, 93812); (93781, 93813);
  (93782, 93814); (93783, 93815); (93784, 93816); (93785, 93817);
  (93786, 93818); (93787, 93819); (93788, 93820); (93789, 93821);
  (93790, 93822); (93791, 93823); (125184, 125218); (125185, 125219);
  (125186, 125220); (125187, 125221); (125188, 125222); (125189, 125223);
  (125190, 125224); (125191, 125225); (125192, 125226); (125193, 125227);
  (125194, 125228); (125195, 125229); (125196, 125230); (125197, 125231);
  (125198, 125232); (125199, 125233); (125200, 125234); (125201, 125235);
  (125202, 125236); (125203, 125237); (125204, 125238); (125205, 125239);
  (125206, 125240); (125207, 125241); (125208, 125242); (125209, 125243);
  (125210, 125244); (125211, 125245); (125212, 125246); (125213, 125247);
  (125214, 125248); (125215, 125249); (125216, 125250); (125217, 125251)
]%N.

(** [c] lies in one of the ranges. *)
Definition in_ranges (c : N) (ranges : list (N * N)) : bool :=
  existsb (fun r => (fst r <=? c) && (c <=? snd r))%N ranges.

(** The entry of [c] in a table. *)
Fixpoint assoc (c : N) (table : list (N * N)) : option N :=
  match table with
  | [] => None
  | (k, v) :: rest => if (c =? k)%N then Some v else assoc c rest
  end.

(** [str.isspace], which is also the class [\s] of [re] and what
    [str.strip] removes. *)
Definition is_space (c : N) : bool := in_ranges c space_ranges.

Definition is_alnum (c : N) : bool := in_ranges c alnum_ranges.

(** The class [\w] of [re]: the alphanumeric code points and the
    underscore. *)
Definition is_word (c : N) : bool := is_alnum c || (c =? 95)%N.

Definition is_cased (c : N) : bool := in_ranges c cased_ranges.

Definition is_case_ignorable (c : N) : bool :=
  in_ranges c case_ignorable_ranges.

Definition hyphen : N := 45.

(** The one code point that [str.lower] gives for a code point other than
    U+0130, and other than a U+03A3 that ends a word. *)
Definition low (c : N) : N :=
  match assoc c lower_table with
  | Some d => d
  | None => c
  end.

(** [str.lower] on one code point, its neighbours apart: U+0130 (capital I
    with dot above) lower-cases to the two code points U+0069 U+0307. *)
Definition lower_char (c : N) : text :=
  if (c =? 304)%N then [105; 775]%N else [low c].

Fixpoint skip_ignorable (s : text) : text :=
  match s with
  | [] => []
  | c :: t => if is_case_ignorable c then skip_ignorable t else s
  end.

(** Whether a capital sigma (U+03A3) ends a word: a cased code point comes
    before it and none comes after it, case-ignorable code points being
    skipped on both sides.  [before] holds the code points that precede
    the sigma, the nearest first. *)
Definition final_sigma (before after : text) : bool :=
  match skip_ignorable before with
  | c :: _ => is_cased c
  | [] => false
  end
  && match skip_ignorable after with
     | c :: _ => negb (is_cased c)
     | [] => true
     end.

(** [str.lower] on the code point [c] between [before] and [after]: a
    capital sigma that ends a word becomes the final small sigma
    (U+03C2). *)
Definition lower_at (before after : text) (c : N) : text :=
  if (c =? 931)%N && final_sigma before after then [962%N]
  else lower_char c.

Fixpoint lower_from (before s : text) : text :=
  match s with
  | [] => []
  | c :: t => lower_at before t c ++ lower_from (c :: before) t
  end.

(** [text.lower()]. *)
Definition lower (s : text) : text := lower_from [] s.

Fixpoint lstrip (s : text) : text :=
  match s with
  | [] => []
  | c :: t => if is_space c then lstrip t else s
  end.

Definition rstrip (s : text) : text := rev (lstrip (rev s)).

(** [text.strip()]. *)
Definition strip (s : text) : text := rstrip (lstrip s).

(** [re.sub(r'[^\w\s-]', '', text)]. *)
Definition drop_punctuation (s : text) : text :=
  List.filter (fun c => is_word c || is_space c || (c =? hyphen)%N) s.

Definition is_separator (c : N) : bool := (c =? hyphen)%N || is_space c.

(** [re.sub(r'[-\s]+', '-', text)]: each maximal run of hyphens and
    whitespace becomes one hyphen.  [in_run] says that the previous code
    point belongs to the run being replaced. *)
Fixpoint collapse (in_run : bool) (s : text) : text :=
  match s with
  | [] => []
  | c :: t =>
      if is_separator c then
        if in_run then collapse true t else hyphen :: collapse true t
      else c :: collapse false t
  end.

(** [to_kebab_case] (lines 257-261 of [WebScapper.py], 311-315 of
    [enhanced_bing.py]). *)
Definition to_kebab_case (s : text) : text :=
  lower (collapse false (drop_punctuation (strip s))).

(** The text "İ" (U+0130). *)
Definition capital_i_dot : text := [304%N].

(** The text " A cat, -- on_Mars! " with a tab at its end. *)
Definition spaced_prompt : text :=
  [32; 65; 32; 99; 97; 116; 44; 32; 45; 45; 32; 111; 110; 95; 77; 97; 114;
   115; 33; 32; 9]%N.

(** The text "Café Été". *)
Definition cafe_prompt : text := [67; 97; 102; 233; 32; 201; 116; 233]%N.

(** The text "ΟΔΟΣ ΣΟΦΙΑΣ!" *)
Definition greek_prompt : text :=
  [927; 916; 927; 931; 32; 931; 927; 934; 921; 913; 931; 33]%N.

(** A word character that [str.lower] leaves as it is, wherever it
    stands. *)
Definition stable (c : N) : bool :=
  is_word c && (low c =? c)%N && negb (c =? 304)%N && negb (c =? 931)%N.

(** A text of hyphens and stable word characters in which no hyphen
    follows a hyphen; [after_hyphen] says that a hyphen comes just before
    the text. *)
Fixpoint settled (after_hyphen : bool) (s : text) : bool :=
  match s with
  | [] => true
  | c :: t =>
      if (c =? hyphen)%N then negb after_hyphen && settled true t
      else stable c && settled false t
  end.

(** What [collapse] is given by [drop_punctuation]: word characters,
    whitespace and hyphens. *)
Definition kept (c : N) : bool :=
  is_word c || is_space c || (c =? hyphen)%N.

(** The code points of a range. *)
Definition points (r : N * N) : list N :=
  map (fun k => (fst r + N.of_nat k)%N)
      (seq 0 (N.to_nat (N.succ (snd r) - fst r))).

(** What [str.lower] makes of a code point of its table: a code point of
    the same class that it leaves as it is. *)
Definition entry_ok (e : N * N) : bool :=
  let (c, d) := e in
  Bool.eqb (is_word d) (is_word c)
  && Bool.eqb (is_space d) (is_space c)
  && negb (c =? hyphen)%N && negb (d =? hyphen)%N
  && match assoc d lower_table with Some _ => false | None => true end
  && negb (d =? 304)%N && negb (d =? 931)%N && negb (d =? 775)%N.

End Kebab.

(** * Counting what a call of the poller did *)

Module Rounds.
Import Poller.

Definition is_find (e : event) : bool :=
  match e with
  | EvFind _ => true
  | EvSleep _ => false
  end.

(** The number of extractions of a trace. *)
Definition finds (tr : list event) : nat := length (List.filter is_find tr).

(** Python's [any(image_urls)]: some entry is a non-empty string. *)
Definition any (l : list string) : bool :=
  existsb (fun u => negb (String.eqb u "")) l.

(** The entries that [download_all_images] acts on: [if url]. *)
Definition truthy (l : list string) : list string :=
  List.filter (fun u => negb (String.eqb u "")) l.

(** A page that shows four images in the first round and one image from
    the second round on. *)
Definition shrinking_world : world := {|
  start_clock := seconds 5;
  rounds := fun i =>
    {| now := ticking 5 22 i;
       found :=
         match i with
         | 0 => Elements (map Src [Some "blob:1"; Some "blob:1";
                                   Some "blob:2"; Some "blob:3"])
         | _ => Elements (map Src [Some "blob:9"; None])
         end |};
  patience := 3;
  first_test := eq_refl;
  last_test := eq_refl
|}.

End Rounds.

(** * Letter case *)

Module Letters.
Import Kebab.

(** A code point that [drop_punctuation] removes. *)
Definition is_punctuation (c : N) : bool :=
  negb (is_word c || is_space c || (c =? hyphen)%N).

(** The texts "É Cat" and "é cAT". *)
Definition upper_prompt : list N := [201; 32; 67; 97; 116]%N.
Definition mixed_prompt : list N := [233; 32; 99; 65; 84]%N.

(** The texts "AΣ!B" and "aς!b", with a capital sigma and a final small
    sigma. *)
Definition sigma_prompt : list N := [65; 931; 33; 66]%N.
Definition final_sigma_prompt : list N := [97; 962; 33; 98]%N.

(** A prompt of sixty letters "a". *)
Definition long_prompt : list N := repeat 97%N 60.

(** A code point other than U+0130 and capital sigma: [str.lower] turns a
    text of such code points into [map low] of it. *)
Definition plain (c : N) : Prop := c <> 304%N /\ c <> 931%N.

End Letters.

(** * Sample pages *)

Module Pages.
Import Locator.

(** A page with the selector in its second and in its third iframe. *)
Definition twice_page : page := {|
  main_has := false;
  frames := [Without; With; With]
|}.

(** A page with the selector in the main document only. *)
Definition plain_page : page := {|
  main_has := true;
  frames := [Unreachable; Without]
|}.

(** A page with the selector in no context at first; it shows up in the
    main document within five seconds. *)
Definition slow_page : page := {|
  main_has := false;
  frames := [Without]
|}.

Definition slow_arrivals : arrivals :=
  fun c =>
    match c with
    | DefaultContent => true
    | InFrame _ => false
    end.

End Pages.

(** * Submitting a prompt: [ImageGenerator.generate_image] *)

Module Generator.
Import Locator.

(** How the site answers the calls of [generate_image] other than those of
    the two locators. *)
Record site : Type := {
  open_raises : bool;     (* [sb.open(self.page_url)] raises *)
  prompt_page : page;     (* the page as seen for "#gi_form_q" *)
  button_page : page;     (* the page as seen for "#create_btn_c" *)
  clear_raises : bool;    (* [sb.clear("#gi_form_q")] raises *)
  type_raises : bool;     (* [sb.type("#gi_form_q", prompt)] raises *)
  click_raises : bool;    (* [sb.click("#create_btn_c")] raises *)
  appears : nat -> bool   (* the completion selector of that index shows up
                             within the timeout; index 3 is the XPath *)
}.

Inductive event : Type :=
| EvOpen
| EvSleep (ms : N)
| EvClear (c : context)
| EvType (c : context)
| EvClick (c : context)
| EvSeen (selector : nat).

(** The current context and what was done so far. *)
Record state : Type := {
  ctx : context;
  log : list event
}.

(** A statement: it may raise, and leaves a state either way. *)
Definition step (A : Type) : Type := state -> outcome A * state.

Definition pure {A : Type} (a : A) : step A := fun st => (Returned a, st).

Definition and_then {A B : Type} (m : step A) (k : A -> step B) : step B :=
  fun st =>
    match m st with
    | (Returned a, st') => k a st'
    | (Raised, st') => (Raised, st')
    end.

(** [try: body / except Exception: handler]. *)
Definition attempt {A : Type} (body handler : step A) : step A :=
  fun st =>
    match body st with
    | (Returned a, st') => (Returned a, st')
    | (Raised, st') => handler st'
    end.

(** A call of the locator: it moves the current context. *)
Definition locate {A : Type} (m : driver A) : step A :=
  fun st =>
    match m (ctx st) with
    | (o, c) => (o, {| ctx := c; log := log st |})
    end.

(** A call that raises, or is done and logged, in the current context. *)
Definition perform (raises : bool) (e : context -> event) : step unit :=
  fun st =>
    if raises then (Raised, st)
    else (Returned tt, {| ctx := ctx st; log := log st ++ [e (ctx st)] |}).

Definition completion_selectors : list nat := [0; 1; 2].

(** [sb.wait_for_element_present(selector, timeout=self.timeout)]. *)
Definition wait_for (s : site) (selector : nat) : step unit :=
  perform (negb (appears s selector)) (fun _ => EvSeen selector).

(** The [for selector in completion_selectors] loop and what follows it
    (lines 470-490 of [WebScapper.py], 525-545 of [enhanced_bing.py]): a
    selector that shows up ends the call after a sleep of ten seconds; the
    XPath tried after the loop ends it without that sleep. *)
Fixpoint await_completion (s : site) (selectors : list nat) : step bool :=
  match selectors with
  | [] =>
      attempt (and_then (wait_for s 3) (fun _ => pure true)) (pure false)
  | selector :: rest =>
      and_then
        (attempt
           (and_then (wait_for s selector) (fun _ =>
            and_then (perform false (fun _ => EvSleep 10000)) (fun _ =>
            pure true)))
           (pure false))
        (fun seen => if seen then pure true else await_completion s rest)
  end.

(** [generate_image] (lines 431-494 of [WebScapper.py], 486-549 of
    [enhanced_bing.py]); the spinner is left out.
    [switch_to_create_button_frame] is [switch_to_prompt_frame] for the
    other selector. *)
Definition generate_image (s : site) : step bool :=
  attempt
    (and_then (perform (open_raises s) (fun _ => EvOpen)) (fun _ =>
     and_then (perform false (fun _ => EvSleep 3000)) (fun _ =>
     and_then (locate (switch_to_prompt_frame (prompt_page s))) (fun found =>
     if negb found then pure false else
     and_then (perform (clear_raises s) EvClear) (fun _ =>
     and_then (perform (type_raises s) EvType) (fun _ =>
     and_then (locate (switch_to_prompt_frame (button_page s))) (fun found' =>
     if negb found' then pure false else
     and_then (perform (click_raises s) EvClick) (fun _ =>
     await_completion s completion_selectors))))))))
    (pure false).

Definition fresh_session : state := {| ctx := DefaultContent; log := [] |}.

(** What the wait for the images logs: the first of the three selectors
    that shows up and the sleep after it, or the XPath alone. *)
Definition completion_tail (s : site) : list event :=
  if appears s 0 then [EvSeen 0; EvSleep 10000]
  else if appears s 1 then [EvSeen 1; EvSleep 10000]
  else if appears s 2 then [EvSeen 2; EvSleep 10000]
  else if appears s 3 then [EvSeen 3]
  else [].

Definition is_click (e : event) : bool :=
  match e with
  | EvClick _ => true
  | _ => false
  end.

(** The steps up to the click, for the contexts the two locators end in. *)
Definition submission (cp cb : context) : list event :=
  [EvOpen; EvSleep 3000; EvClear cp; EvType cp; EvClick cb].

(** Some context of the page holds the selector. *)
Definition somewhere (p : page) : bool :=
  main_has p
  || existsb (fun i => holds p (InFrame i)) (seq 0 (length (frames p))).

(** A site whose prompt input sits in the fourth iframe and whose button
    sits in the main document; only the XPath of the fallback shows up. *)
Definition framed_site : site := {|
  open_raises := false;
  prompt_page := framed_page;
  button_page := {| main_has := true; frames := [Unreachable; Without] |};
  clear_raises := false;
  type_raises := false;
  click_raises := false;
  appears := fun k => (k =? 3)%nat
|}.

End Generator.

(** * Saving the images: [ImageProcessor.download_image] and
    [ImageProcessor.download_all_images] *)

Module Download.
Import Kebab.

(** The code points of an ASCII literal. *)
Definition text_of_string (s : string) : list N :=
  map N_of_ascii (list_ascii_of_string s).

(** [s.split(sep)] for a separator of one code point. *)
Fixpoint split (sep : N) (s : list N) : list (list N) :=
  match s with
  | [] => [[]]
  | c :: t =>
      if (c =? sep)%N then [] :: split sep t
      else match split sep t with
           | field :: fields => (c :: field) :: fields
           | [] => [[c]]
           end
  end.

(** [s.split(sep, 1)]. *)
Fixpoint split_once (sep : N) (s : list N) : list (list N) :=
  match s with
  | [] => [[]]
  | c :: t =>
      if (c =? sep)%N then [[]; t]
      else match split_once sep t with
           | field :: fields => (c :: field) :: fields
           | [] => [[c]]
           end
  end.

Definition comma : N := 44.
Definition semicolon : N := 59.
Definition colon : N := 58.
Definition dot : N := 46.

(** [header, base64_data = data_url.split(',', 1)]: ValueError unless the
    split gives two parts. *)
Definition split_header (data_url : list N) : outcome (list N * list N) :=
  match split_once comma data_url with
  | [header; base64_data] => Returned (header, base64_data)
  | _ => Raised
  end.

(** [header.split(';')[0].split(':')[1]]: IndexError when the part before
    the first ';' has no ':'. *)
Definition mime_type_of (header : list N) : outcome (list N) :=
  match split semicolon header with
  | [] => Raised
  | first :: _ =>
      match split colon first with
      | _ :: second :: _ => Returned second
      | _ => Raised
      end
  end.

Definition text_eqb (a b : list N) : bool := bool_decide (a = b).

(** The dict of lines 338-342 with its default. *)
Definition ext_of (mime_type : list N) : list N :=
  if text_eqb mime_type (text_of_string "image/png")
  then text_of_string "png"
  else if text_eqb mime_type (text_of_string "image/jpeg")
  then text_of_string "jpg"
  else if text_eqb mime_type (text_of_string "image/jpg")
  then text_of_string "jpg"
  else text_of_string "png".

(** What lines 335-342 make of a data URL: the extension and the payload. *)
Definition parse_data_url (data_url : list N) : outcome (list N * list N) :=
  bind (split_header data_url) (fun parts =>
  bind (mime_type_of (fst parts)) (fun mime_type =>
  Returned (ext_of mime_type, snd parts))).

(** [str(n)] for a natural number. *)
Definition decimal (n : nat) : list N := text_of_string (pretty n).

(** A path as its components; [dir / name] drops an empty name. *)
Definition join (dir : list (list N)) (name : list N) : list (list N) :=
  match name with
  | [] => dir
  | _ => dir ++ [name]
  end.

(** Line 345: [f"{self.to_kebab_case(prompt)}-{index+1}.{ext}"]. *)
Definition filename (name : list N) (index : nat) (ext : list N) : list N :=
  name ++ [hyphen] ++ decimal (index + 1) ++ [dot] ++ ext.

Section World.

(** [sb_instance.execute_script(js_script)] for the script that fetches
    [image_url]: the data URL, the empty text for a result that is not
    truthy, or an exception. *)
Variable execute_script : string -> outcome (list N).

(** [base64.b64decode]. *)
Variable b64decode : list N -> outcome (list N).

(** [prompt_folder.mkdir(exist_ok=True)] and [open(filepath, "wb")] raise
    on these paths. *)
Variable mkdir_raises : list (list N) -> bool.
Variable open_raises : list (list N) -> bool.

(** [self.output_dir]. *)
Variable output_dir : list (list N).

(** A statement on the files below [output_dir]: a map from paths to
    contents. *)
Definition io (A : Type) : Type :=
  gmap (list (list N)) (list N) -> outcome A * gmap (list (list N)) (list N).

Definition io_ret {A : Type} (a : A) : io A := fun fs => (Returned a, fs).

Definition io_bind {A B : Type} (m : io A) (k : A -> io B) : io B :=
  fun fs =>
    match m fs with
    | (Returned a, fs') => k a fs'
    | (Raised, fs') => (Raised, fs')
    end.

Definition io_try {A : Type} (body handler : io A) : io A :=
  fun fs =>
    match body fs with
    | (Returned a, fs') => (Returned a, fs')
    | (Raised, fs') => handler fs'
    end.

(** A call that changes no file. *)
Definition call {A : Type} (o : outcome A) : io A := fun fs => (o, fs).

(** [prepare_prompt_folder] of [WebScapper.py] (lines 263-271), for the
    kebab-case name of the prompt. *)
Definition prepare_prompt_folder (name : list N) : io (list (list N)) :=
  fun fs =>
    let prompt_folder := join output_dir name in
    if mkdir_raises prompt_folder then (Raised, fs)
    else (Returned prompt_folder, fs).

(** [open(filepath, "wb")]: the file is there and empty from now on. *)
Definition open_wb (filepath : list (list N)) : io unit :=
  fun fs =>
    if open_raises filepath then (Raised, fs)
    else (Returned tt, <[filepath := []]> fs).

(** [f.write(data)]. *)
Definition write (filepath : list (list N)) (data : list N) : io unit :=
  fun fs => (Returned tt, <[filepath := data]> fs).

(** [download_image] of [WebScapper.py] (lines 301-354), for the
    kebab-case name [name] of the prompt. *)
Definition download_image (image_url : string) (name : list N)
  (index : nat) : io (option (list (list N))) :=
  if String.eqb image_url "" then io_ret None
  else
    io_try
      (io_bind (call (execute_script image_url)) (fun data_url =>
       match data_url with
       | [] => io_ret None
       | _ =>
           io_bind (call (parse_data_url data_url)) (fun parsed =>
           io_bind (prepare_prompt_folder name) (fun prompt_folder =>
           let filepath :=
             join prompt_folder (filename name index (fst parsed)) in
           io_bind (open_wb filepath) (fun _ =>
           io_bind (call (b64decode (snd parsed))) (fun data =>
           io_bind (write filepath data) (fun _ =>
           io_ret (Some filepath))))))
       end))
      (io_ret None).

(** What [download_all_images] did: the paths it returns and the number
    of its sleeps of two seconds. *)
Record batch : Type := {
  downloaded_files : list (list (list N));
  naps : nat
}.

(** The [for i, url in enumerate(image_urls)] loop of
    [download_all_images] (lines 364-369), from index [i] on. *)
Fixpoint download_from (i : nat) (image_urls : list string) (name : list N)
  (done : batch) (fs : gmap (list (list N)) (list N))
  : batch * gmap (list (list N)) (list N) :=
  match image_urls with
  | [] => (done, fs)
  | url :: rest =>
      if String.eqb url "" then download_from (S i) rest name done fs
      else
        match download_image url name i fs with
        | (Returned (Some path), fs') =>
            download_from (S i) rest name
              {| downloaded_files := downloaded_files done ++ [path];
                 naps := S (naps done) |} fs'
        | (_, fs') =>
            download_from (S i) rest name
              {| downloaded_files := downloaded_files done;
                 naps := S (naps done) |} fs'
        end
  end.

(** [download_all_images] (lines 356-371). *)
Definition download_all_images (image_urls : list string) (name : list N)
  (fs : gmap (list (list N)) (list N))
  : batch * gmap (list (list N)) (list N) :=
  download_from 0 image_urls name
    {| downloaded_files := []; naps := 0 |} fs.

End World.

(** [prepare_prompt_folder] of [enhanced_bing.py] (lines 317-331) cuts the
    name of the folder to [max_length] code points. *)
Definition max_length : nat := 50.

Definition bounded_folder_name (name : list N) : list N :=
  if (max_length <? length name)%nat then take max_length name else name.

(** A data URL for a MIME type and a payload. *)
Definition data_url_of (mime_type payload : list N) : list N :=
  text_of_string "data:" ++ mime_type ++ text_of_string ";base64,"
  ++ payload.

(** The path of the image of position [index]:
    [output_dir / name / "<name>-<index+1>.<ext>"]. *)
Definition file_path (output_dir : list (list N)) (name : list N)
  (index : nat) (ext : list N) : list (list N) :=
  join (join output_dir name) (filename name index ext).

(** A browser that answers every fetch with a PNG data URL, a decoder that
    takes the payload as it is. *)
Definition png_script (_ : string) : outcome (list N) :=
  Returned (data_url_of (text_of_string "image/png") [65; 65; 44; 61]%N).

Definition plain_decode (payload : list N) : outcome (list N) :=
  Returned payload.

(** The files after an earlier run for the prompt "a": its first image. *)
Definition earlier_files : gmap (list (list N)) (list N) :=
  {[ file_path [text_of_string "outputs"] [97%N] 0 (text_of_string "png")
     := [1; 2; 3]%N ]}.

(** A decoder that rejects every payload. *)
Definition failing_decode (_ : list N) : outcome (list N) := Raised.

Definition no_path (_ : list (list N)) : bool := false.

Definition outputs : list (list N) := [text_of_string "outputs"].

End Download.

(** * One cycle: [BingImageScraper.run_generation_cycle] *)

Module Cycle.
Import Kebab.

(** What a cycle meets: the line that [input] gives (or its EOFError),
    the site, the rounds of the poller and the world of the downloads. *)
Record setting : Type := {
  typed : outcome (list N);
  the_site : Generator.site;
  the_world : Poller.world;
  execute_script : string -> outcome (list N);
  b64decode : list N -> outcome (list N);
  mkdir_raises : list (list N) -> bool;
  open_raises : list (list N) -> bool;
  output_dir : list (list N)
}.

(** What a cycle did: its answer, the state of the form, the trace of the
    poller, the paths of the images, the sleeps between the downloads and
    the files. *)
Record report : Type := {
  verdict : bool;
  form : Generator.state;
  poll_trace : list Poller.event;
  saved : list (list (list N));
  download_naps : nat;
  files : gmap (list (list N)) (list N)
}.

(** A cycle that stops before the downloads. *)
Definition stopped (form : Generator.state) (tr : list Poller.event)
  (fs : gmap (list (list N)) (list N)) : report :=
  {| verdict := false; form := form; poll_trace := tr; saved := [];
     download_naps := 0; files := fs |}.

(** [run_generation_cycle] of [WebScapper.py] (lines 568-606).  [None]
    stands for a poller out of fuel. *)
Definition run_generation_cycle (e : setting) (st : Generator.state)
  (fs : gmap (list (list N)) (list N)) : option report :=
  match typed e with
  | Raised => Some (stopped st [] fs)
  | Returned line =>
      let prompt := strip line in
      match prompt with
      | [] => Some (stopped st [] fs)
      | _ =>
          match Generator.generate_image (the_site e) st with
          | (Returned true, st') =>
              match Poller.get_image_urls (the_world e) with
              | None => None
              | Some (Raised, tr) => Some (stopped st' tr fs)
              | Some (Returned image_urls, tr) =>
                  if negb (Rounds.any image_urls)
                  then Some (stopped st' tr fs)
                  else
                    match Download.download_all_images
                            (execute_script e) (b64decode e)
                            (mkdir_raises e) (open_raises e)
                            (output_dir e) image_urls
                            (to_kebab_case prompt) fs with
                    | (b, fs') =>
                        Some {| verdict :=
                                  match Download.downloaded_files b with
                                  | [] => false
                                  | _ => true
                                  end;
                                form := st';
                                poll_trace := tr;
                                saved := Download.downloaded_files b;
                                download_naps := Download.naps b;
                                files := fs' |}
                    end
              end
          | (_, st') => Some (stopped st' [] fs)
          end
      end
  end.

(** A cycle for the prompt " a ": the framed site, the steady page of the
    poller and a browser that gives a PNG for every URL. *)
Definition sample_setting : setting := {|
  typed := Returned [32; 97; 32]%N;
  the_site := Generator.framed_site;
  the_world := Poller.steady_world;
  execute_script := Download.png_script;
  b64decode := Download.plain_decode;
  mkdir_raises := Download.no_path;
  open_raises := Download.no_path;
  output_dir := Download.outputs
|}.

(** The same cycle with a browser whose first extraction raises. *)
Definition raising_setting : setting := {|
  typed := Returned [32; 97; 32]%N;
  the_site := Generator.framed_site;
  the_world := Poller.raising_world;
  execute_script := Download.png_script;
  b64decode := Download.plain_decode;
  mkdir_raises := Download.no_path;
  open_raises := Download.no_path;
  output_dir := Download.outputs
|}.

(** The same cycle for a line of blanks. *)
Definition blank_setting : setting := {|
  typed := Returned [32; 9; 32]%N;
  the_site := Generator.framed_site;
  the_world := Poller.steady_world;
  execute_script := Download.png_script;
  b64decode := Download.plain_decode;
  mkdir_raises := Download.no_path;
  open_raises := Download.no_path;
  output_dir := Download.outputs
|}.

End Cycle.

(** * Facts about the poller *)

Module PollerFacts.
Import Poller.

Lemma pad_closed_form (fuel : nat) (urls : list string) :
  4 <= fuel + length urls ->
  pad fuel urls = urls ++ replicate (4 - length urls) "".
Proof.
  revert urls. induction fuel as [|fuel IH]; intros urls Hlen; simpl.
  - replace (4 - length urls) with 0 by (simpl in Hlen; lia).
    simpl. now rewrite app_nil_r.
  - destruct (Nat.ltb_spec (length urls) 4) as [Hlt|Hge].
    + rewrite IH by (rewrite length_app; simpl; lia).
      rewrite length_app. simpl.
      replace (4 - length urls) with (S (4 - (length urls + 1))) by lia.
      simpl. now rewrite <- app_assoc.
    + replace (4 - length urls) with 0 by lia.
      simpl. now rewrite app_nil_r.
Qed.

Lemma finish_closed_form (urls : list string) :
  finish urls = take 4 (urls ++ replicate (4 - length urls) "").
Proof. unfold finish. rewrite pad_closed_form by lia. reflexivity. Qed.

Lemma finish_length (urls : list string) : length (finish urls) = 4.
Proof.
  rewrite finish_closed_form, length_take, length_app, length_replicate. lia.
Qed.

Lemma finish_short (urls : list string) :
  length urls < 4 ->
  finish urls = urls ++ replicate (4 - length urls) "".
Proof.
  intros H. rewrite finish_closed_form. apply take_ge.
  rewrite length_app, length_replicate. lia.
Qed.

Lemma finish_long (urls : list string) :
  4 <= length urls -> finish urls = take 4 urls.
Proof.
  intros H. rewrite finish_closed_form.
  replace (4 - length urls) with 0 by lia. simpl. now rewrite app_nil_r.
Qed.

(** The loop test fails in round [patience w] at the latest: [fuel] loop
    tests are enough as soon as they reach that round. *)
Lemma poll_enough_fuel (w : world) (fuel i : nat) (urls : list string) :
  i <= patience w ->
  patience w < i + fuel ->
  is_Some (poll fuel w i (start_clock w) urls).
Proof.
  revert i urls.
  induction fuel as [|fuel IH]; intros i urls Hle Hfuel; [lia|].
  cbn [poll]. destruct (in_time _ _) eqn:Htest; [|eauto].
  destruct (scan_round w i) as [urls'|]; [|eauto].
  destruct (4 <=? length urls')%nat; [eauto|].
  assert (Hne : i <> patience w).
  { intros ->. rewrite (last_test w) in Htest. discriminate. }
  destruct (IH (S i) urls') as [ [o tr] Hrun]; [lia..|].
  rewrite Hrun. simpl. eauto.
Qed.

Lemma get_image_urls_returns (w : world) : is_Some (get_image_urls w).
Proof.
  unfold get_image_urls, poll_fuel.
  destruct (poll_enough_fuel w (S (patience w)) 0 []) as [ [o tr] Hrun];
    [lia..|].
  rewrite Hrun. destruct o; simpl; eauto.
Qed.

(** ** One round: the code against the words of the specification *)

Lemma mem_true (x : string) (l : list string) : mem x l = true <-> In x l.
Proof.
  unfold mem. rewrite existsb_exists. split.
  - intros [y [Hin Heq]]. apply String.eqb_eq in Heq. now subst.
  - intros Hin. exists x. split; [assumption | apply String.eqb_refl].
Qed.

Lemma prefix_shorter (a b s : string) :
  String.prefix (a ++ b)%string s = true -> String.prefix a s = true.
Proof.
  revert s. induction a as [|c a IH]; intros s.
  - intros _. now destruct s.
  - destruct s as [|d s]; simpl; [discriminate|].
    destruct (Ascii.ascii_dec c d); [apply IH | discriminate].
Qed.

Lemma prefix_https_http (s : string) :
  String.prefix "https" s = true -> String.prefix "http" s = true.
Proof. exact (prefix_shorter "http" "s" s). Qed.

(** The test of line 291 is the validity of the specification. *)
Lemma spec_valid_code (s : string) :
  spec_valid s
  = negb (String.eqb s "")
    && (String.prefix "http" s || String.prefix "blob:" s).
Proof.
  unfold spec_valid. f_equal.
  destruct (String.prefix "https" s) eqn:Hs.
  - rewrite (prefix_https_http s Hs). reflexivity.
  - now rewrite orb_false_r.
Qed.

Lemma filter_twice {A : Type} (f g : A -> bool) (l : list A) :
  List.filter f (List.filter g l) = List.filter (fun x => g x && f x) l.
Proof.
  induction l as [|x l IH]; simpl; [reflexivity|].
  destruct (g x); simpl; [destruct (f x)|]; now rewrite IH.
Qed.

Lemma fresh_nil (l : list string) : fresh [] l = l.
Proof.
  unfold fresh. induction l as [|x l IH]; [reflexivity|].
  cbn [List.filter]. change (mem x []) with false. cbn [negb].
  now rewrite IH.
Qed.

Lemma mem_snoc (y s : string) (acc : list string) :
  mem y (acc ++ [s]) = mem y acc || String.eqb y s.
Proof. unfold mem. rewrite existsb_app. simpl. now rewrite orb_false_r. Qed.

(** The loop of lines 289-292 appends to [urls] what the specification
    keeps, less what [urls] holds already. *)
Lemma fold_append_valid (vals : list (option string)) (acc : list string) :
  fold_left append_valid vals acc = acc ++ fresh acc (spec_round vals).
Proof.
  revert acc. induction vals as [|v vals IH]; intros acc.
  - simpl. now rewrite app_nil_r.
  - destruct v as [s|]; [|exact (IH acc)].
    cbn [fold_left append_valid]. unfold spec_round in *.
    change (present_values (Some s :: vals)) with (s :: present_values vals).
    cbn [List.filter]. rewrite spec_valid_code.
    destruct (negb (String.eqb s "")
              && (String.prefix "http" s || String.prefix "blob:" s)) eqn:Hv;
      cbn [andb]; [|exact (IH acc)].
    cbn [dedup_first]. unfold fresh in *. cbn [List.filter].
    destruct (mem s acc) eqn:Hm; cbn [negb].
    + rewrite IH, filter_twice. f_equal. apply filter_ext. intros y.
      destruct (String.eqb_spec y s) as [->|Hne]; [|reflexivity].
      now rewrite Hm.
    + rewrite IH, filter_twice, <- app_assoc. cbn [app]. do 2 f_equal.
      apply filter_ext. intros y. rewrite mem_snoc.
      destruct (mem y acc), (String.eqb y s); reflexivity.
Qed.

Lemma scan_elements_values (vals : list (option string)) (urls : list string) :
  scan_elements (map Src vals) urls
  = Returned (fold_left append_valid vals urls).
Proof.
  revert urls. induction vals as [|v vals IH]; intros urls; simpl.
  - reflexivity.
  - apply IH.
Qed.

(** A scan that returns met no stale element. *)
Lemma scan_elements_returned (es : list element) (urls u : list string) :
  scan_elements es urls = Returned u ->
  exists vals, es = map Src vals /\ u = fold_left append_valid vals urls.
Proof.
  revert urls. induction es as [|e es IH]; intros urls H; simpl in H.
  - exists []. split; [reflexivity | simpl; congruence].
  - destruct e as [v|]; simpl in H; [|discriminate].
    destruct (IH _ H) as [vals [-> ->]]. now exists (v :: vals).
Qed.

Lemma scan_round_returned (w : world) (i : nat) (u : list string) :
  scan_round w i = Returned u ->
  exists vals, found (rounds w i) = Elements (map Src vals)
               /\ u = spec_round vals.
Proof.
  unfold scan_round. destruct (found (rounds w i)) as [es|]; [|discriminate].
  intros H. destruct (scan_elements_returned _ _ _ H) as [vals [-> ->]].
  exists vals. split; [reflexivity|].
  now rewrite fold_append_valid, fresh_nil.
Qed.

Lemma dedup_first_In (x : string) (l : list string) :
  In x (dedup_first l) <-> In x l.
Proof.
  induction l as [|y l IH]; simpl; [tauto|].
  rewrite filter_In, IH. destruct (String.eqb_spec x y) as [->|Hne].
  - simpl. intuition discriminate.
  - simpl. intuition congruence.
Qed.

Lemma dedup_first_NoDup (l : list string) : NoDup (dedup_first l).
Proof.
  apply NoDup_ListNoDup.
  induction l as [|y l IH]; simpl; constructor.
  - rewrite filter_In, String.eqb_refl. simpl.
    intros [_ H]. discriminate.
  - apply List.NoDup_filter. exact IH.
Qed.

Lemma present_values_In (x : string) (vals : list (option string)) :
  In x (present_values vals) <-> In (Some x) vals.
Proof.
  unfold present_values. induction vals as [|v vals IH]; simpl; [tauto|].
  destruct v as [s|]; simpl; rewrite IH; intuition congruence.
Qed.

Lemma spec_round_In (x : string) (vals : list (option string)) :
  In x (spec_round vals) <-> In (Some x) vals /\ spec_valid x = true.
Proof.
  unfold spec_round. now rewrite dedup_first_In, filter_In, present_values_In.
Qed.

Lemma spec_round_nonempty (vals : list (option string)) :
  Forall (fun u => u <> "") (spec_round vals).
Proof.
  apply List.Forall_forall. intros x Hx. apply spec_round_In in Hx as [_ Hv].
  unfold spec_valid in Hv. intros ->. discriminate.
Qed.

(** ** The loop *)

Lemma poll_polled (fuel : nat) (w : world) (i : nat) (start_time : float)
  (urls : list string) (r : run) :
  poll fuel w i start_time urls = Some r -> polled w i urls r.
Proof.
  revert i urls r.
  induction fuel as [|fuel IH]; intros i urls r; [discriminate|].
  cbn [poll]. destruct (in_time _ _).
  - destruct (scan_round w i) as [urls'|] eqn:Hscan.
    + destruct (Nat.leb_spec 4 (length urls')) as [Hge|Hlt].
      * intros [= <-]. now apply polled_break.
      * destruct (poll fuel w (S i) start_time urls') as [[o tr]|] eqn:Hrec;
          [|discriminate].
        simpl. intros [= <-]. apply polled_sleep with urls'; eauto.
    + intros [= <-]. now apply polled_raise.
  - intros [= <-]. apply polled_timeout.
Qed.

Lemma poll_unfold (fuel : nat) (w : world) (i : nat) (start_time : float)
  (urls : list string) :
  poll (S fuel) w i start_time urls
  = if in_time start_time (now (rounds w i)) then
      match scan_round w i with
      | Raised => Some (Raised, [EvFind i])
      | Returned urls' =>
          if (4 <=? length urls')%nat then Some (Returned urls', [EvFind i])
          else
            after (EvFind i) (after (EvSleep poll_interval)
              (poll fuel w (S i) start_time urls'))
      end
    else Some (Returned urls, []).
Proof. reflexivity. Qed.

(** The first loop test passes, so that the first round is played. *)
Lemma poll_first (fuel : nat) (w : world) (urls : list string)
  (o : outcome (list string)) (tr : list event) :
  poll (S fuel) w 0 (start_clock w) urls = Some (o, tr) ->
  exists tr', tr = EvFind 0 :: tr'.
Proof.
  rewrite poll_unfold, (first_test w).
  destruct (scan_round w 0) as [u|].
  - destruct (4 <=? length u)%nat.
    + intros [= _ <-]. eauto.
    + destruct (poll fuel w 1 _ u) as [[o2 tr2]|]; [|discriminate].
      simpl. intros [= _ <-]. eauto.
  - intros [= _ <-]. eauto.
Qed.

Lemma get_image_urls_polled (w : world) (o : outcome (list string))
  (tr : list event) :
  get_image_urls w = Some (o, tr) ->
  exists o' tr',
    polled w 0 [] (o', EvFind 0 :: tr')
    /\ tr = EvSleep initial_delay :: EvFind 0 :: tr'
    /\ o = bind o' (fun urls => Returned (finish urls)).
Proof.
  unfold get_image_urls.
  destruct (poll (poll_fuel w) w 0 _ []) as [[o' tr0]|] eqn:Hrun;
    [|discriminate].
  pose proof (poll_polled _ _ _ _ _ _ Hrun) as Hpolled.
  assert (Hhead : exists tr', tr0 = EvFind 0 :: tr').
  { unfold poll_fuel in Hrun. exact (poll_first _ _ _ _ _ Hrun). }
  destruct Hhead as [tr' ->].
  intros H. exists o', tr'. split; [exact Hpolled|].
  destruct o'; simpl in H; injection H as <- <-; split; reflexivity.
Qed.

(** Induction on the runs of the loop, for a statement about the outcome
    and the trace. *)
Ltac polled_induction H :=
  match type of H with
  | polled _ _ _ (?o, ?tr) =>
      let r := fresh "r" in
      let Hr := fresh "Hr" in
      let Heq := fresh "Heq" in
      remember (o, tr) as r eqn:Hr;
      revert o tr Hr;
      induction H as [i urls|i urls Hs|i urls urls' Hs Hlen
                     |i urls urls' o0 tr0 Hs Hlen Hrec IH];
      intros o tr Heq; inversion Heq; subst; clear Heq
  end.

(** A returned list is the variable on entry, when no round was played, or
    the list of a round that was played. *)
Lemma polled_returned (w : world) (i : nat) (urls : list string)
  (o : outcome (list string)) (tr : list event) :
  polled w i urls (o, tr) ->
  forall u, o = Returned u ->
  (tr = [] /\ u = urls)
  \/ exists j, In (EvFind j) tr /\ scan_round w j = Returned u.
Proof.
  intros H. polled_induction H; intros u Ho; try discriminate.
  - injection Ho as <-. left. split; reflexivity.
  - injection Ho as <-. right. exists i. split; [now left | exact Hs].
  - right. destruct (IH _ _ eq_refl u Ho) as [[-> ->]|[j [Hin Hj]]].
    + exists i. split; [now left | exact Hs].
    + exists j. split; [right; right; exact Hin | exact Hj].
Qed.

(** The call raises exactly when a round that was played raises. *)
Lemma polled_raised (w : world) (i : nat) (urls : list string)
  (o : outcome (list string)) (tr : list event) :
  polled w i urls (o, tr) ->
  o = Raised <-> exists j, In (EvFind j) tr /\ scan_round w j = Raised.
Proof.
  intros H. polled_induction H.
  - split; [discriminate | intros [j [[] _]]].
  - split; [|reflexivity]. intros _. exists i. split; [now left | exact Hs].
  - split; [discriminate|].
    intros [j [[Hj|[]] Hraise]]. injection Hj as <-. congruence.
  - rewrite (IH _ _ eq_refl). split.
    + intros [j [Hin Hj]]. exists j. split; [right; right; exact Hin|exact Hj].
    + intros [j [[Hj|[Hj|Hin]] Hraise]].
      * injection Hj as <-. congruence.
      * discriminate.
      * eauto.
Qed.

(** Nothing follows a round that gave four or more URLs. *)
Lemma polled_stops (w : world) (i : nat) (urls u : list string)
  (o : outcome (list string)) (tr pre post : list event) (j : nat) :
  polled w i urls (o, tr) ->
  tr = pre ++ EvFind j :: post ->
  scan_round w j = Returned u ->
  4 <= length u ->
  post = [] /\ o = Returned u.
Proof.
  intros H Htr Hj Hu. revert pre Htr.
  polled_induction H; intros pre Htr.
  - now destruct pre.
  - destruct pre as [|e [|e' pre]]; [|discriminate..].
    injection Htr as <- <-. congruence.
  - destruct pre as [|e [|e' pre]]; [|discriminate..].
    injection Htr as <- <-. split; [reflexivity | congruence].
  - destruct pre as [|e [|e' pre]].
    + injection Htr as <- _. rewrite Hs in Hj. injection Hj as <-. lia.
    + discriminate.
    + injection Htr as _ _ ->. exact (IH _ _ eq_refl pre eq_refl).
Qed.

(** While every round gives the same list, that list is returned as soon
    as one round is played. *)
Lemma polled_steady (w : world) (i : nat) (urls u : list string)
  (o : outcome (list string)) (tr : list event) :
  (forall j, scan_round w j = Returned u) ->
  polled w i urls (o, tr) ->
  (tr = [] /\ o = Returned urls) \/ o = Returned u.
Proof.
  intros Hall H. polled_induction H.
  - left. split; reflexivity.
  - rewrite Hall in Hs. discriminate.
  - rewrite Hall in Hs. injection Hs as <-. now right.
  - rewrite Hall in Hs. injection Hs as <-.
    destruct (IH _ _ eq_refl) as [[_ ->]| ->]; now right.
Qed.

(** Padding and truncation keep the URLs of a duplicate-free list apart. *)
Lemma finish_distinct (urls : list string) (i j : nat) (u : string) :
  NoDup urls ->
  Forall (fun x => x <> "") urls ->
  i <> j ->
  finish urls !! i = Some u ->
  finish urls !! j = Some u ->
  u = "".
Proof.
  intros Hnd Hne Hij Hi Hj.
  destruct (String.eqb_spec u "") as [Hu|Hu]; [exact Hu|exfalso].
  rewrite finish_closed_form in Hi, Hj.
  apply lookup_take_Some in Hi as [Hi _]. apply lookup_take_Some in Hj as [Hj _].
  apply lookup_app_Some in Hi as [Hi|[_ Hi]];
    [|apply lookup_replicate in Hi as [Hi _]; congruence].
  apply lookup_app_Some in Hj as [Hj|[_ Hj]];
    [|apply lookup_replicate in Hj as [Hj _]; congruence].
  apply Hij. exact (NoDup_lookup _ _ _ _ Hnd Hi Hj).
Qed.

(** ** The claims about the poller *)

(** C1: whatever the rounds hold and whatever the clock reads, a call
    whose extractions do not raise returns a sequence of length exactly 4: the
    URLs of a round that was played, padded with empty strings when they
    are fewer than 4 and cut to the first 4 when they are more. *)
Theorem C1_get_image_urls_length (w : world) :
  (forall i, scan_round w i <> Raised) ->
  exists l tr urls j,
    get_image_urls w = Some (Returned l, tr)
    /\ In (EvFind j) tr
    /\ scan_round w j = Returned urls
    /\ length l = 4
    /\ (length urls < 4 -> l = urls ++ replicate (4 - length urls) "")
    /\ (4 <= length urls -> l = take 4 urls).
Proof.
  intros Hok.
  destruct (get_image_urls_returns w) as [[o tr] Hrun].
  destruct (get_image_urls_polled _ _ _ Hrun) as [o' [tr' [Hp [-> ->] ] ] ].
  destruct o' as [urls|].
  - destruct (polled_returned _ _ _ _ _ Hp urls eq_refl)
      as [[Hnil _]|[j [Hin Hj]]]; [discriminate|].
    exists (finish urls), (EvSleep initial_delay :: EvFind 0 :: tr'), urls, j.
    split; [exact Hrun|]. split; [now right|]. split; [exact Hj|].
    split; [apply finish_length|].
    split; [apply finish_short | apply finish_long].
  - destruct (proj1 (polled_raised _ _ _ _ _ Hp) eq_refl) as [j [_ Hj]].
    now destruct (Hok j).
Qed.

Lemma C1_get_image_urls_length_witness :
  (forall i, scan_round late_world i <> Raised)
  /\ exists l tr urls j,
       get_image_urls late_world = Some (Returned l, tr)
       /\ In (EvFind j) tr
       /\ scan_round late_world j = Returned urls
       /\ length l = 4
       /\ (length urls < 4 -> l = urls ++ replicate (4 - length urls) "")
       /\ (4 <= length urls -> l = take 4 urls).
Proof.
  assert (H : forall i, scan_round late_world i <> Raised).
  { intros i. unfold scan_round. simpl. destruct (i <? 2)%nat; discriminate. }
  split; [exact H | exact (C1_get_image_urls_length late_world H)].
Defined.

(** C2, as the code has it: the call always comes back within the time
    budget, and running out of time is no error.  It returns a sequence of
    length 4 unless an extraction of a round that was played raises; that
    exception is not caught, it ends the call. *)
Theorem C2_get_image_urls_outcome (w : world) :
  exists o tr,
    get_image_urls w = Some (o, tr)
    /\ (o = Raised <-> exists j, In (EvFind j) tr /\ scan_round w j = Raised)
    /\ (forall l, o = Returned l -> length l = 4).
Proof.
  destruct (get_image_urls_returns w) as [[o tr] Hrun].
  exists o, tr. split; [exact Hrun|].
  destruct (get_image_urls_polled _ _ _ Hrun) as [o' [tr' [Hp [-> ->] ] ] ].
  split.
  - pose proof (polled_raised _ _ _ _ _ Hp) as Hr. split.
    + intros Ho. assert (Ho' : o' = Raised) by (now destruct o').
      destruct (proj1 Hr Ho') as [j [Hin Hj]].
      exists j. split; [right; exact Hin | exact Hj].
    + intros [j [[Hd|Hin] Hj]]; [discriminate|].
      rewrite (proj2 Hr); [reflexivity | eauto].
  - intros l. destruct o' as [urls|]; simpl; [|discriminate].
    intros [= <-]. apply finish_length.
Qed.

(** C2, as stated, fails: when the first [find_elements] raises, the call
    raises after that one extraction instead of polling on and returning a
    padded sequence. *)
Lemma C2_raising_round_not_swallowed :
  get_image_urls raising_world
  = Some (Raised, [EvSleep initial_delay; EvFind 0])
  /\ ~ exists l tr, get_image_urls raising_world = Some (Returned l, tr).
Proof.
  assert (H : get_image_urls raising_world
              = Some (Raised, [EvSleep initial_delay; EvFind 0]))
    by reflexivity.
  split; [exact H|]. intros [l [tr Hl]]. rewrite H in Hl. discriminate.
Qed.

(** C6: in every round the values kept are those the specification calls
    valid (non-empty, starting with "http", which covers "https", or with
    "blob:"), without duplicates and in first-seen order; and no URL occurs
    twice in the sequence the call returns. *)
Theorem C6_round_filter_dedup (w : world) (l : list string)
  (tr : list event) :
  get_image_urls w = Some (Returned l, tr) ->
  (forall i vals,
      found (rounds w i) = Elements (map Src vals) ->
      scan_round w i = Returned (spec_round vals)
      /\ NoDup (spec_round vals)
      /\ (forall u, In u (spec_round vals)
                    <-> In (Some u) vals /\ spec_valid u = true))
  /\ (forall i j u,
        i <> j -> l !! i = Some u -> l !! j = Some u -> u = "").
Proof.
  intros Hrun. split.
  - intros i vals Hfound. split; [|split].
    + unfold scan_round. rewrite Hfound, scan_elements_values.
      now rewrite fold_append_valid, fresh_nil.
    + apply dedup_first_NoDup.
    + intros u. apply spec_round_In.
  - destruct (get_image_urls_polled _ _ _ Hrun) as [o' [tr' [Hp [_ Ho] ] ] ].
    destruct o' as [urls|]; [|discriminate]. injection Ho as ->.
    destruct (polled_returned _ _ _ _ _ Hp urls eq_refl)
      as [[Hnil _]|[k [_ Hk] ] ]; [discriminate|].
    destruct (scan_round_returned _ _ _ Hk) as [vals [_ ->] ].
    intros i j u. apply finish_distinct.
    + apply dedup_first_NoDup.
    + apply spec_round_nonempty.
Qed.

Lemma C6_round_filter_dedup_witness :
  get_image_urls late_world
  = Some (Returned ["blob:1"; "blob:2"; "https://x/3"; "blob:4"],
          [EvSleep initial_delay; EvFind 0; EvSleep poll_interval;
           EvFind 1; EvSleep poll_interval; EvFind 2])
  /\ (forall i j u,
        i <> j ->
        ["blob:1"; "blob:2"; "https://x/3"; "blob:4"] !! i = Some u ->
        ["blob:1"; "blob:2"; "https://x/3"; "blob:4"] !! j = Some u ->
        u = "").
Proof.
  assert (H : get_image_urls late_world
    = Some (Returned ["blob:1"; "blob:2"; "https://x/3"; "blob:4"],
            [EvSleep initial_delay; EvFind 0; EvSleep poll_interval;
             EvFind 1; EvSleep poll_interval; EvFind 2]))
    by (vm_compute; reflexivity).
  split; [exact H | exact (proj2 (C6_round_filter_dedup late_world _ _ H))].
Defined.

(** C7: when the page shows ["http://a", "http://a", "blob:b", "",
    "http://c"] in the first round and goes on showing it until the time
    budget is spent, the call returns ["http://a", "blob:b", "http://c",
    ""]. *)
Theorem C7_example_round (w : world) :
  (forall i, found (rounds w i) = Elements (map Src example_round)) ->
  exists tr,
    get_image_urls w
    = Some (Returned ["http://a"; "blob:b"; "http://c"; ""], tr).
Proof.
  intros Hsame.
  assert (Hscan : forall j,
    scan_round w j = Returned ["http://a"; "blob:b"; "http://c"]).
  { intros j. unfold scan_round. rewrite Hsame. reflexivity. }
  destruct (get_image_urls_returns w) as [[o tr] Hrun].
  destruct (get_image_urls_polled _ _ _ Hrun) as [o' [tr' [Hp [_ Ho] ] ] ].
  exists tr. rewrite Hrun.
  destruct (polled_steady _ _ _ _ _ _ Hscan Hp) as [[Hnil _]|Ho'];
    [discriminate|].
  subst. reflexivity.
Qed.

Lemma C7_example_round_witness :
  (forall i, found (rounds steady_world i) = Elements (map Src example_round))
  /\ exists tr,
       get_image_urls steady_world
       = Some (Returned ["http://a"; "blob:b"; "http://c"; ""], tr).
Proof.
  split.
  - intros i. reflexivity.
  - apply (C7_example_round steady_world). intros i. reflexivity.
Defined.

(** C8: once a round gives four or more valid URLs nothing follows it:
    the extraction of that round is the last event of the call, no sleep
    comes after it, and its first four URLs are returned.  This holds for
    every round that is played, the last one within the budget included. *)
Theorem C8_stops_at_threshold (w : world) (o : outcome (list string))
  (tr pre post : list event) (j : nat) (urls : list string) :
  get_image_urls w = Some (o, tr) ->
  tr = pre ++ EvFind j :: post ->
  scan_round w j = Returned urls ->
  4 <= length urls ->
  post = [] /\ o = Returned (take 4 urls).
Proof.
  intros Hrun Htr Hj Hlen.
  destruct (get_image_urls_polled _ _ _ Hrun) as [o' [tr' [Hp [Htr' Ho] ] ] ].
  destruct pre as [|e pre]; [rewrite Htr' in Htr; discriminate|].
  rewrite Htr' in Htr. injection Htr as _ Htr.
  destruct (polled_stops _ _ _ _ _ _ _ _ _ Hp Htr Hj Hlen) as [-> ->].
  split; [reflexivity|]. rewrite Ho. simpl. now rewrite finish_long.
Qed.

Lemma C8_stops_at_threshold_witness :
  get_image_urls last_attempt_world
  = Some (Returned ["blob:1"; "blob:2"; "blob:3"; "blob:4"],
          last_attempt_prefix ++ [EvFind 29])
  /\ scan_round last_attempt_world 29
     = Returned ["blob:1"; "blob:2"; "blob:3"; "blob:4"]
  /\ ([] : list event) = []
  /\ Returned ["blob:1"; "blob:2"; "blob:3"; "blob:4"]
     = Returned (take 4 ["blob:1"; "blob:2"; "blob:3"; "blob:4"]).
Proof.
  assert (Hrun : get_image_urls last_attempt_world
    = Some (Returned ["blob:1"; "blob:2"; "blob:3"; "blob:4"],
            last_attempt_prefix ++ [EvFind 29]))
    by (vm_compute; reflexivity).
  assert (Hscan : scan_round last_attempt_world 29
    = Returned ["blob:1"; "blob:2"; "blob:3"; "blob:4"])
    by (vm_compute; reflexivity).
  split; [exact Hrun|]. split; [exact Hscan|].
  apply (C8_stops_at_threshold last_attempt_world _ _ last_attempt_prefix
           [] 29 _ Hrun eq_refl Hscan).
  simpl. lia.
Defined.

End PollerFacts.

(** * Facts about the locator *)

Module LocatorFacts.
Import Locator Pages.

(** One turn of the [for iframe in iframes] loop of
    [switch_to_prompt_frame]: the loop stops in the frame when the frame
    holds the selector, and goes on from the main document otherwise,
    whether the frame lacks the selector or a call on it raised. *)
Lemma search_frames_step (p : page) (i : nat) (rest : list nat) (c : context) :
  search_frames p (i :: rest) c
  = if holds p (InFrame i) then (Returned true, InFrame i)
    else search_frames p rest DefaultContent.
Proof.
  cbn [search_frames]. unfold seq_, try_, switch_to_frame, holds.
  destruct (frames p !! i) as [[]|] eqn:E; cbn;
    rewrite ?E; reflexivity.
Qed.

Lemma search_frames_element_step (p : page) (late : arrivals) (i : nat)
  (rest : list nat) (c : context) :
  search_frames_element p late (i :: rest) c
  = if shows p late (InFrame i)
    then (Returned (PromptInput (InFrame i)), InFrame i)
    else search_frames_element p late rest DefaultContent.
Proof.
  cbn [search_frames_element].
  unfold seq_, try_, switch_to_frame, wait_for_element_present, shows.
  destruct (frames p !! i) as [[]|] eqn:E; cbn;
    rewrite ?E; try reflexivity.
  destruct (late (InFrame i)); reflexivity.
Qed.

Lemma search_frames_absent (p : page) (l : list nat) (c : context) :
  (forall i, In i l -> holds p (InFrame i) = false) ->
  search_frames p l c = (Returned false, DefaultContent).
Proof.
  revert c. induction l as [|i l IH]; intros c Hl; [reflexivity|].
  rewrite search_frames_step, (Hl i) by now left.
  apply IH. intros k Hk. apply Hl. now right.
Qed.

Lemma search_frames_element_absent (p : page) (late : arrivals)
  (l : list nat) (c : context) :
  (forall i, In i l -> shows p late (InFrame i) = false) ->
  search_frames_element p late l c = (Raised, DefaultContent).
Proof.
  revert c. induction l as [|i l IH]; intros c Hl; [reflexivity|].
  rewrite search_frames_element_step, (Hl i) by now left.
  apply IH. intros k Hk. apply Hl. now right.
Qed.

Lemma search_frames_first (p : page) (pre post : list nat) (j : nat)
  (c : context) :
  (forall i, In i pre -> holds p (InFrame i) = false) ->
  holds p (InFrame j) = true ->
  search_frames p (pre ++ j :: post) c = (Returned true, InFrame j).
Proof.
  revert c. induction pre as [|i pre IH]; intros c Hpre Hj; simpl app.
  - now rewrite search_frames_step, Hj.
  - rewrite search_frames_step, (Hpre i) by now left.
    apply IH; [|exact Hj]. intros k Hk. apply Hpre. now right.
Qed.

Lemma search_frames_element_first (p : page) (late : arrivals)
  (pre post : list nat) (j : nat) (c : context) :
  (forall i, In i pre -> shows p late (InFrame i) = false) ->
  shows p late (InFrame j) = true ->
  search_frames_element p late (pre ++ j :: post) c
  = (Returned (PromptInput (InFrame j)), InFrame j).
Proof.
  revert c. induction pre as [|i pre IH]; intros c Hpre Hj; simpl app.
  - now rewrite search_frames_element_step, Hj.
  - rewrite search_frames_element_step, (Hpre i) by now left.
    apply IH; [|exact Hj]. intros k Hk. apply Hpre. now right.
Qed.

(** The search never raises, and it gives up in the main document only. *)
Lemma search_frames_exits (p : page) (l : list nat) (c : context) :
  (exists j, search_frames p l c = (Returned true, InFrame j)
             /\ holds p (InFrame j) = true)
  \/ search_frames p l c = (Returned false, DefaultContent).
Proof.
  revert c. induction l as [|i l IH]; intros c; [now right|].
  rewrite search_frames_step. destruct (holds p (InFrame i)) eqn:Hi.
  - left. now exists i.
  - apply IH.
Qed.

Lemma search_frames_element_exits (p : page) (late : arrivals)
  (l : list nat) (c : context) :
  (exists j, search_frames_element p late l c
             = (Returned (PromptInput (InFrame j)), InFrame j)
             /\ shows p late (InFrame j) = true)
  \/ search_frames_element p late l c = (Raised, DefaultContent).
Proof.
  revert c. induction l as [|i l IH]; intros c; [now right|].
  rewrite search_frames_element_step.
  destruct (shows p late (InFrame i)) eqn:Hi.
  - left. now exists i.
  - apply IH.
Qed.

(** The search sees a page through [holds] alone. *)
Lemma search_frames_holds (p q : page) (l : list nat) (c : context) :
  (forall i, holds p (InFrame i) = holds q (InFrame i)) ->
  search_frames p l c = search_frames q l c.
Proof.
  intros Hpq. revert c. induction l as [|i l IH]; intros c; [reflexivity|].
  now rewrite !search_frames_step, Hpq, IH.
Qed.

(** The index of a frame among those that [find_elements] lists. *)
Lemma seq_split_at (n j : nat) :
  j < n -> seq 0 n = seq 0 j ++ j :: seq (S j) (n - S j).
Proof.
  intros Hj. replace n with (j + S (n - S j)) at 1 by lia.
  now rewrite seq_app.
Qed.

Lemma holds_frame_lt (p : page) (j : nat) :
  holds p (InFrame j) = true -> j < length (frames p).
Proof.
  simpl. destruct (frames p !! j) eqn:E; [|discriminate].
  intros _. apply lookup_lt_Some in E. exact E.
Qed.

Lemma switch_to_prompt_frame_unfold (p : page) (entry : context) :
  switch_to_prompt_frame p entry
  = if main_has p then (Returned true, DefaultContent)
    else search_frames p (seq 0 (length (frames p))) DefaultContent.
Proof.
  unfold switch_to_prompt_frame, seq_. cbn.
  destruct (main_has p); reflexivity.
Qed.

Lemma _get_prompt_input_element_default (p : page) (late : arrivals) :
  _get_prompt_input_element p late DefaultContent
  = if shows p late DefaultContent
    then (Returned (PromptInput DefaultContent), DefaultContent)
    else search_frames_element p late (seq 0 (length (frames p)))
           DefaultContent.
Proof.
  unfold _get_prompt_input_element, seq_, try_, wait_for_element_present.
  cbn. destruct (main_has p); [reflexivity|]. cbn.
  destruct (late DefaultContent); reflexivity.
Qed.

Lemma _get_prompt_input_element_in_frame (p : page) (late : arrivals)
  (i : nat) :
  _get_prompt_input_element p late (InFrame i)
  = if shows p late (InFrame i)
    then (Returned (PromptInput (InFrame i)), InFrame i)
    else (Raised, DefaultContent).
Proof.
  unfold _get_prompt_input_element, seq_, try_, wait_for_element_present.
  cbn. destruct (frames p !! i) as [[]|]; try reflexivity.
  destruct (late (InFrame i)); reflexivity.
Qed.

Lemma holds_shows (p : page) (late : arrivals) (c : context) :
  holds p c = true -> shows p late c = true.
Proof.
  destruct c as [|i]; cbn.
  - now intros ->.
  - destruct (frames p !! i) as [[]|]; trivial; discriminate.
Qed.

(** With [Without] in place of an iframe that raises, the page holds the
    selector where it held it. *)
Lemma holds_with_frame (p : page) (i k : nat) (f : frame) :
  frames p !! i = Some f ->
  raises f = true ->
  holds {| main_has := main_has p; frames := <[i := Without]> (frames p) |}
        (InFrame k)
  = holds p (InFrame k).
Proof.
  intros Hi Hf. cbn [holds frames].
  destruct (Nat.eq_dec k i) as [->|Hne].
  - rewrite list_lookup_insert_eq by (now apply lookup_lt_Some in Hi).
    rewrite Hi. now destruct f.
  - now rewrite list_lookup_insert_ne by auto.
Qed.

(** ** The claims about the locator *)

(** C3 at the input where [_get_prompt_input_element] fails it: the
    selector is in the main document and nowhere else, the driver is in
    the second iframe when the function is entered (where
    [switch_to_create_button_frame] leaves it when the button is in that
    iframe).  The first lookup of line 211 runs in that iframe, the iframe
    has no iframes of its own, and the function raises its not-found error
    although the main document holds the selector.
    [switch_to_prompt_frame], which starts with
    [switch_to.default_content()] (line 389), returns True in the main
    document on the same input. *)
Lemma C3_get_element_misses_main_document :
  holds plain_page DefaultContent = true
  /\ (forall c', holds plain_page c' = true -> c' = DefaultContent)
  /\ _get_prompt_input_element plain_page no_arrivals (InFrame 1)
     = (Raised, DefaultContent)
  /\ switch_to_prompt_frame plain_page (InFrame 1)
     = (Returned true, DefaultContent).
Proof.
  split; [reflexivity|]. split; [|split; reflexivity].
  intros [|[|[|i] ] ]; simpl; intros H; try discriminate. reflexivity.
Qed.

(** C4: when the selector is present in no context,
    [switch_to_prompt_frame] returns False with the main document current;
    when it does not show up in any context before a wait gives up,
    [_get_prompt_input_element] raises its not-found error with the main
    document current; and on every page, whatever the entry context, a
    False of the one and an exception of the other come with the main
    document current. *)
Theorem C4_locate_nowhere (p : page) (late : arrivals) :
  ((forall c, holds p c = false) ->
   forall entry,
     switch_to_prompt_frame p entry = (Returned false, DefaultContent))
  /\ ((forall c, shows p late c = false) ->
      forall entry,
        _get_prompt_input_element p late entry = (Raised, DefaultContent))
  /\ (forall entry c,
        switch_to_prompt_frame p entry = (Returned false, c) ->
        c = DefaultContent)
  /\ (forall entry c,
        _get_prompt_input_element p late entry = (Raised, c) ->
        c = DefaultContent).
Proof.
  split; [|split; [|split] ].
  - intros Hnone entry.
    rewrite switch_to_prompt_frame_unfold.
    rewrite (Hnone DefaultContent : main_has p = false).
    apply search_frames_absent. intros i _. apply Hnone.
  - intros Hnone entry. destruct entry as [|i].
    + rewrite _get_prompt_input_element_default, Hnone.
      apply search_frames_element_absent. intros i _. apply Hnone.
    + now rewrite _get_prompt_input_element_in_frame, Hnone.
  - intros entry c. rewrite switch_to_prompt_frame_unfold.
    destruct (main_has p); [discriminate|].
    destruct (search_frames_exits p (seq 0 (length (frames p))) DefaultContent)
      as [[j [-> _] ]| ->]; congruence.
  - intros entry c. destruct entry as [|i].
    + rewrite _get_prompt_input_element_default.
      destruct (shows p late DefaultContent); [discriminate|].
      destruct (search_frames_element_exits p late
                  (seq 0 (length (frames p))) DefaultContent)
        as [[j [-> _] ]| ->]; congruence.
    + rewrite _get_prompt_input_element_in_frame.
      destruct (shows p late (InFrame i)); congruence.
Qed.

Lemma C4_locate_nowhere_witness :
  (forall c, holds bare_page c = false)
  /\ (forall c, shows bare_page no_arrivals c = false)
  /\ (forall entry,
        switch_to_prompt_frame bare_page entry
        = (Returned false, DefaultContent))
  /\ (forall entry,
        _get_prompt_input_element bare_page no_arrivals entry
        = (Raised, DefaultContent)).
Proof.
  assert (Hnone : forall c, holds bare_page c = false).
  { intros [|[|[|[|i] ] ] ]; reflexivity. }
  assert (Hnever : forall c, shows bare_page no_arrivals c = false).
  { intros [|[|[|[|i] ] ] ]; reflexivity. }
  split; [exact Hnone|]. split; [exact Hnever|]. split.
  - exact (proj1 (C4_locate_nowhere bare_page no_arrivals) Hnone).
  - exact (proj1 (proj2 (C4_locate_nowhere bare_page no_arrivals)) Hnever).
Defined.

(** C5: an iframe on which the switch or the presence lookup raises does
    not end the search.  [switch_to_prompt_frame] still returns a boolean;
    the iframe counts as one without the selector, the run being the one
    with [Without] in its place; the search goes on behind it and stops in
    a later iframe that holds the selector when nothing before that one
    does; and it returns False in the main document when no context holds
    the selector. *)
Theorem C5_frame_exception_swallowed (p : page) (i : nat) (f : frame)
  (entry : context) :
  frames p !! i = Some f ->
  raises f = true ->
  (exists found c, switch_to_prompt_frame p entry = (Returned found, c))
  /\ switch_to_prompt_frame p entry
     = switch_to_prompt_frame
         {| main_has := main_has p; frames := <[i := Without]> (frames p) |}
         entry
  /\ (forall j,
        i < j ->
        main_has p = false ->
        (forall k, k < j -> holds p (InFrame k) = false) ->
        holds p (InFrame j) = true ->
        switch_to_prompt_frame p entry = (Returned true, InFrame j))
  /\ ((forall c, holds p c = false) ->
      switch_to_prompt_frame p entry = (Returned false, DefaultContent)).
Proof.
  intros Hi Hf. split; [|split; [|split] ].
  - rewrite switch_to_prompt_frame_unfold.
    destruct (main_has p); [eauto|].
    destruct (search_frames_exits p (seq 0 (length (frames p))) DefaultContent)
      as [[j [-> _] ]| ->]; eauto.
  - rewrite !switch_to_prompt_frame_unfold. cbn [main_has frames].
    destruct (main_has p); [reflexivity|].
    rewrite length_insert. apply search_frames_holds. intros k.
    symmetry. now apply holds_with_frame with f.
  - intros j _ Hmain Hbefore Hj.
    rewrite switch_to_prompt_frame_unfold, Hmain.
    rewrite (seq_split_at _ j (holds_frame_lt p j Hj)).
    apply search_frames_first; [|exact Hj].
    intros k Hk. apply in_seq in Hk. apply Hbefore. lia.
  - intros Hnone. rewrite switch_to_prompt_frame_unfold.
    rewrite (Hnone DefaultContent : main_has p = false).
    apply search_frames_absent. intros k _. apply Hnone.
Qed.

Lemma C5_frame_exception_swallowed_witness :
  frames framed_page !! 1 = Some LookupRaises
  /\ raises LookupRaises = true
  /\ (exists found c,
        switch_to_prompt_frame framed_page (InFrame 2) = (Returned found, c))
  /\ switch_to_prompt_frame framed_page (InFrame 2)
     = switch_to_prompt_frame
         {| main_has := false;
            frames := [Unreachable; Without; Without; With] |}
         (InFrame 2)
  /\ switch_to_prompt_frame framed_page (InFrame 2)
     = (Returned true, InFrame 3).
Proof.
  pose proof (C5_frame_exception_swallowed framed_page 1 LookupRaises
                (InFrame 2) eq_refl eq_refl) as [H1 [H2 [H3 _] ] ].
  split; [reflexivity|]. split; [reflexivity|]. split; [exact H1|].
  split; [exact H2|].
  apply (H3 3); [lia | reflexivity | | reflexivity].
  intros [|[|[|k] ] ] Hk; [reflexivity.. | lia].
Defined.

End LocatorFacts.

(** * Facts about the cookie loader *)

Module CookiesFacts.
Import Cookies.

Lemma filtered_lookup (c : gmap string value) (k : string) :
  filtered c !! k = if bool_decide (k ∈ allowed_keys) then c !! k else None.
Proof.
  unfold filtered. apply option_eq. intros v.
  rewrite map_lookup_filter_Some. simpl.
  case_bool_decide as Hk.
  - split; [intros [Hv _]; exact Hv | intros Hv; split; [exact Hv | exact Hk] ].
  - split; [intros [_ Hin]; contradiction | discriminate].
Qed.

Lemma rename_expires_lookup (c : gmap string value) (k : string) :
  rename_expires c !! k
  = if decide (k = "expiry") then
      match c !! "expires" with
      | Some v => Some v
      | None => c !! "expiry"
      end
    else if decide (k = "expires") then None
    else c !! k.
Proof.
  unfold rename_expires.
  destruct (c !! "expires") as [v|] eqn:E; repeat case_decide; subst;
    simplify_map_eq; done.
Qed.

Lemma adjust_domain_returned (c : gmap string value) :
  domain_is_text c ->
  exists c',
    adjust_domain c = Returned c'
    /\ forall k,
         c' !! k
         = if decide (k = "domain") then
             match c !! "domain" with
             | Some (VStr s) =>
                 Some (VStr (if String.prefix "." s then "www.bing.com"
                             else s))
             | other => other
             end
           else c !! k.
Proof.
  unfold domain_is_text, adjust_domain, domain_startswith_dot.
  destruct (c !! "domain") as [[| | |s]|] eqn:E; try contradiction; intros _.
  - cbn [bind]. eexists. split; [reflexivity|]. intros k.
    destruct (String.prefix "." s); case_decide; subst;
      simplify_map_eq; done.
  - cbn [bind]. change (String.prefix "." "") with false.
    eexists. split; [reflexivity|]. intros k.
    case_decide; subst; simplify_map_eq; done.
Qed.

(** A record whose domain is not a string makes the loop body raise. *)
Lemma process_cookie_raises (c : gmap string value) :
  ~ domain_is_text c -> process_cookie c = Raised.
Proof.
  unfold domain_is_text, process_cookie, adjust_domain, domain_startswith_dot.
  rewrite rename_expires_lookup. repeat case_decide; try discriminate.
  destruct (c !! "domain") as [[| | |s]|]; intros Hbad; try reflexivity;
    now destruct Hbad.
Qed.

Lemma allowed_keys_spec (k : string) :
  k ∈ allowed_keys
  <-> k = "name" \/ k = "value" \/ k = "path" \/ k = "domain"
      \/ k = "secure" \/ k = "expiry".
Proof.
  unfold allowed_keys. rewrite !elem_of_cons, elem_of_nil. tauto.
Qed.

Lemma process_cookie_normalised (c : gmap string value) :
  domain_is_text c ->
  exists c', process_cookie c = Returned c' /\ normalised c c'.
Proof.
  intros Hdom.
  assert (Hdom' : domain_is_text (rename_expires c)).
  { unfold domain_is_text in *. rewrite rename_expires_lookup.
    repeat case_decide; try discriminate. exact Hdom. }
  destruct (adjust_domain_returned _ Hdom') as [c2 [Hadj Hc2] ].
  unfold process_cookie. rewrite Hadj. cbn [bind].
  eexists. split; [reflexivity|].
  assert (Hlook : forall k,
    filtered c2 !! k
    = if bool_decide (k ∈ allowed_keys) then
        if decide (k = "domain") then
          match c !! "domain" with
          | Some (VStr s) =>
              Some (VStr (if String.prefix "." s then "www.bing.com" else s))
          | other => other
          end
        else if decide (k = "expiry") then
          match c !! "expires" with
          | Some v => Some v
          | None => c !! "expiry"
          end
        else c !! k
      else None).
  { intros k. rewrite filtered_lookup, Hc2, !rename_expires_lookup.
    case_bool_decide as Hk; [|reflexivity].
    apply allowed_keys_spec in Hk.
    repeat case_decide; subst; try reflexivity; try discriminate.
    decompose [or] Hk; congruence. }
  assert (Hexpires : bool_decide ("expires" ∈ allowed_keys) = false).
  { apply bool_decide_eq_false_2. rewrite allowed_keys_spec.
    intros Hk. decompose [or] Hk; discriminate. }
  assert (Hdomain : bool_decide ("domain" ∈ allowed_keys) = true).
  { apply bool_decide_eq_true_2, allowed_keys_spec. tauto. }
  assert (Hexpiry : bool_decide ("expiry" ∈ allowed_keys) = true).
  { apply bool_decide_eq_true_2, allowed_keys_spec. tauto. }
  unfold normalised. split; [|split; [|split; [|split; [|split] ] ] ].
  - intros s Hs. rewrite Hlook, Hdomain, Hs. now case_decide.
  - intros Hn. rewrite Hlook, Hdomain, Hn. now case_decide.
  - intros v Hv. rewrite !Hlook, Hexpires, Hexpiry, Hv.
    split; [reflexivity|]. repeat case_decide; congruence.
  - intros Hn. rewrite !Hlook, Hexpires, Hexpiry, Hn.
    split; [reflexivity|]. repeat case_decide; congruence.
  - intros k Hk Hd He. rewrite Hlook, bool_decide_eq_true_2 by exact Hk.
    repeat case_decide; congruence.
  - intros k Hk. rewrite Hlook. now rewrite bool_decide_eq_false_2.
Qed.

Lemma add_all_normalised (add_cookie : gmap string value -> outcome unit)
  (cs : list (gmap string value)) (handed : list (gmap string value * bool)) :
  Forall domain_is_text cs ->
  exists out,
    add_all add_cookie cs handed = (Returned tt, handed ++ out)
    /\ Forall2 (fun c h => normalised c h.1) cs out.
Proof.
  intros Hcs. revert handed.
  induction Hcs as [|c cs Hc Hcs IH]; intros handed.
  - exists []. split; [now rewrite app_nil_r | constructor].
  - destruct (process_cookie_normalised c Hc) as [c' [Hproc Hnorm] ].
    destruct (IH (handed ++ [(c', try_add add_cookie c')])) as [out [Hrun Hout] ].
    exists ((c', try_add add_cookie c') :: out). split.
    + cbn [add_all]. rewrite Hproc, Hrun. now rewrite <- app_assoc.
    + constructor; assumption.
Qed.

(** A record whose domain is not a string stops the loop: [load_cookies]
    answers False and the records after it are not handed over. *)
Lemma load_cookies_odd (add_cookie : gmap string value -> outcome unit)
  (cs : list (gmap string value)) :
  load_cookies add_cookie (Loaded (odd_cookie :: cs)) = (false, []).
Proof. reflexivity. Qed.

(** ** The claim about the cookie loader *)

(** C9: [load_cookies] hands to the browser, for every record of the file
    and in the order of the file, a record in which a domain that starts
    with "." is "www.bing.com", the value of an "expires" field is stored
    under "expiry" and "expires" is gone, every other allowed field has the
    value it had, and the fields outside the allowed set are dropped.  The
    domain of a record, when it has one, is a string. *)
Theorem C9_load_cookies_normalises
  (add_cookie : gmap string value -> outcome unit)
  (cs : list (gmap string value)) :
  Forall domain_is_text cs ->
  exists handed,
    load_cookies add_cookie (Loaded cs) = (true, handed)
    /\ Forall2 (fun c h => normalised c h.1) cs handed.
Proof.
  intros Hcs.
  destruct (add_all_normalised add_cookie cs [] Hcs) as [out [Hrun Hout] ].
  exists out. unfold load_cookies. rewrite Hrun. split; [reflexivity|exact Hout].
Qed.

Lemma C9_load_cookies_normalises_witness :
  Forall domain_is_text [exported_cookie]
  /\ exists handed,
       load_cookies (fun _ => Returned tt) (Loaded [exported_cookie])
       = (true, handed)
       /\ Forall2 (fun c h => normalised c h.1) [exported_cookie] handed.
Proof.
  assert (H : Forall domain_is_text [exported_cookie]).
  { constructor; [|constructor]. vm_compute. exact I. }
  split; [exact H|].
  exact (C9_load_cookies_normalises (fun _ => Returned tt) [exported_cookie] H).
Defined.

End CookiesFacts.

(** * Facts about the folder-name normaliser *)

Module KebabFacts.
Import Kebab.

(** ** What the tables say

    The facts about the tables are checked by evaluation, over the 1432
    entries of [lower_table] and over the code points of
    [space_ranges]. *)

Lemma in_ranges_points (c : N) (ranges : list (N * N)) :
  in_ranges c ranges = true -> In c (flat_map points ranges).
Proof.
  unfold in_ranges. rewrite existsb_exists. intros [r [Hr Hc] ].
  apply andb_prop in Hc as [Hlo Hhi].
  apply N.leb_le in Hlo. apply N.leb_le in Hhi.
  apply in_flat_map. exists r. split; [exact Hr|].
  unfold points. apply in_map_iff. exists (N.to_nat (c - fst r)).
  split; [lia|]. apply in_seq. lia.
Qed.

Lemma in_ranges_all (P : N -> bool) (ranges : list (N * N)) :
  forallb P (flat_map points ranges) = true ->
  forall c, in_ranges c ranges = true -> P c = true.
Proof.
  intros Hall c Hc. rewrite forallb_forall in Hall.
  apply Hall, in_ranges_points, Hc.
Qed.

Lemma assoc_In (c d : N) (table : list (N * N)) :
  assoc c table = Some d -> In (c, d) table.
Proof.
  induction table as [|[k v] table IH]; [discriminate|]. cbn [assoc].
  destruct (N.eqb_spec c k) as [->|Hne].
  - intros [= ->]. now left.
  - intros H. right. now apply IH.
Qed.

(** [str.lower] turns a code point of its table into a code point of the
    same class, which is no hyphen, no U+0130, no capital sigma and no
    combining dot above, and which it leaves as it is. *)
Lemma lower_table_ok : forallb entry_ok lower_table = true.
Proof. vm_compute. reflexivity. Qed.

(** No whitespace is a word character, a hyphen or U+0130. *)
Lemma space_no_word :
  forallb (fun c => negb (is_word c) && negb (c =? hyphen)%N
                    && negb (c =? 304)%N)
          (flat_map points space_ranges) = true.
Proof. vm_compute. reflexivity. Qed.

Lemma is_space_facts (c : N) :
  is_space c = true -> is_word c = false /\ c <> hyphen /\ c <> 304%N.
Proof.
  intros Hc. pose proof (in_ranges_all _ _ space_no_word c Hc) as H.
  apply andb_prop in H as [H H3]. apply andb_prop in H as [H1 H2].
  apply negb_true_iff in H1. apply negb_true_iff in H2.
  apply negb_true_iff in H3.
  apply N.eqb_neq in H2. apply N.eqb_neq in H3. auto.
Qed.

Lemma is_word_hyphen : is_word hyphen = false.
Proof. vm_compute. reflexivity. Qed.

Lemma is_space_hyphen : is_space hyphen = false.
Proof. vm_compute. reflexivity. Qed.

Lemma low_hyphen : low hyphen = hyphen.
Proof. vm_compute. reflexivity. Qed.

Lemma is_word_capital_i_dot : is_word 304 = true.
Proof. vm_compute. reflexivity. Qed.

Lemma is_space_capital_i_dot : is_space 304 = false.
Proof. vm_compute. reflexivity. Qed.

Lemma dot_above_dropped :
  is_word 775 = false /\ is_space 775 = false /\ 775%N <> hyphen.
Proof. repeat split; [vm_compute; reflexivity..|discriminate]. Qed.

(** [low] keeps the class of a code point and is idempotent. *)
Lemma low_facts (c : N) :
  c <> 304%N ->
  is_space (low c) = is_space c
  /\ is_word (low c) = is_word c
  /\ ((low c =? hyphen)%N = (c =? hyphen)%N)
  /\ low (low c) = low c
  /\ low c <> 304%N
  /\ (c <> 931%N -> low c <> 931%N)
  /\ (low c = 775%N -> c = 775%N).
Proof.
  intros Hc. destruct (assoc c lower_table) as [d|] eqn:Hd.
  - assert (Hlow : low c = d) by (unfold low; now rewrite Hd).
    rewrite !Hlow.
    pose proof lower_table_ok as Hok. rewrite forallb_forall in Hok.
    specialize (Hok _ (assoc_In _ _ _ Hd)). cbn [entry_ok] in Hok.
    repeat (apply andb_prop in Hok as [Hok ?]).
    repeat match goal with
    | H : negb _ = true |- _ => apply negb_true_iff in H
    | H : (_ =? _)%N = false |- _ => apply N.eqb_neq in H
    | H : Bool.eqb _ _ = true |- _ => apply Bool.eqb_prop in H
    end.
    destruct (assoc d lower_table) eqn:Hdd; [discriminate|].
    repeat split; try assumption; try congruence.
    + destruct (N.eqb_spec d hyphen), (N.eqb_spec c hyphen); congruence.
    + unfold low. now rewrite Hdd.
  - assert (Hlow : low c = c) by (unfold low; now rewrite Hd).
    rewrite !Hlow. repeat split; try reflexivity; try assumption; auto.
Qed.

Arguments is_space : simpl never.
Arguments is_word : simpl never.
Arguments is_alnum : simpl never.
Arguments is_cased : simpl never.
Arguments is_case_ignorable : simpl never.
Arguments low : simpl never.

(** ** [str.lower] *)

(** Apart from U+0130, a code point lower-cases to one code point of its
    class, which is not lower-cased further. *)
Lemma lower_at_one (before after : list N) (c : N) :
  c <> 304%N ->
  exists d,
    lower_at before after c = [d]
    /\ is_space d = is_space c
    /\ is_word d = is_word c
    /\ (d =? hyphen)%N = (c =? hyphen)%N
    /\ low d = d /\ d <> 304%N /\ d <> 931%N
    /\ (d = 775%N -> c = 775%N).
Proof.
  intros Hc. unfold lower_at.
  destruct (N.eqb_spec c 931) as [->|Hne]; cbn [andb].
  - assert (H2 : forall d, d = 962%N \/ d = 963%N ->
      is_space d = is_space 931 /\ is_word d = is_word 931
      /\ (d =? hyphen)%N = (931 =? hyphen)%N
      /\ low d = d /\ d <> 304%N /\ d <> 931%N /\ (d = 775%N -> 931%N = 775%N)).
    { intros d [-> | ->]; repeat split; try (vm_compute; reflexivity);
        discriminate. }
    destruct (final_sigma before after).
    + exists 962%N. split; [reflexivity | apply H2; now left].
    + exists 963%N. split; [now vm_compute | apply H2; now right].
  - unfold lower_char. destruct (N.eqb_spec c 304); [contradiction|].
    exists (low c). split; [reflexivity|].
    destruct (low_facts c Hc) as [H1 [H2 [H3 [H4 [H5 [H6 H7] ] ] ] ] ].
    repeat split; auto.
Qed.

Lemma lower_at_stable (before after : list N) (c : N) :
  stable c = true -> lower_at before after c = [c].
Proof.
  unfold stable. intros H.
  apply andb_prop in H as [H H4]. apply andb_prop in H as [H H3].
  apply andb_prop in H as [_ H2].
  apply negb_true_iff in H3. apply negb_true_iff in H4.
  apply N.eqb_eq in H2.
  unfold lower_at, lower_char. rewrite H3, H4, H2. reflexivity.
Qed.

Lemma lower_at_hyphen (before after : list N) :
  lower_at before after hyphen = [hyphen].
Proof. now vm_compute. Qed.

Lemma lower_at_nonempty (before after : list N) (c : N) :
  lower_at before after c <> [].
Proof.
  unfold lower_at, lower_char.
  destruct ((c =? 931)%N && final_sigma before after); [discriminate|].
  destruct (c =? 304)%N; discriminate.
Qed.

Lemma lower_at_capital_i_dot (before after : list N) :
  lower_at before after 304%N = [105; 775]%N.
Proof. reflexivity. Qed.

(** No text lower-cases to a text with U+0130. *)
Lemma lower_at_no_capital_i_dot (before after : list N) (c : N) :
  ~ In 304%N (lower_at before after c).
Proof.
  destruct (N.eq_dec c 304%N) as [->|Hc].
  - rewrite lower_at_capital_i_dot. intros [H|[H|[] ] ]; discriminate.
  - destruct (lower_at_one before after c Hc)
      as [d [-> [_ [_ [_ [_ [Hd _] ] ] ] ] ] ].
    intros [H|[] ]. congruence.
Qed.

Lemma lower_from_In (d : N) (before s : list N) :
  In d (lower_from before s) ->
  exists b a c, In c s /\ In d (lower_at b a c).
Proof.
  revert before. induction s as [|c s IH]; intros before; [intros [] |].
  cbn [lower_from]. rewrite in_app_iff. intros [H|H].
  - exists before, s, c. split; [now left | exact H].
  - destruct (IH _ H) as [b [a [c' [Hin Hd] ] ] ].
    exists b, a, c'. split; [now right | exact Hd].
Qed.

Lemma lower_from_length (before s : list N) :
  ~ In 304%N s -> length (lower_from before s) = length s.
Proof.
  revert before. induction s as [|c s IH]; intros before Hs; [reflexivity|].
  cbn [lower_from]. rewrite length_app, IH by (intros H; apply Hs; now right).
  destruct (lower_at_one before s c) as [d [-> _] ]; [|reflexivity].
  intros ->. apply Hs. now left.
Qed.

Lemma lower_from_nil (before s : list N) : lower_from before s = [] -> s = [].
Proof.
  destruct s as [|c s]; [reflexivity|]. cbn [lower_from]. intros H.
  apply app_eq_nil in H as [H _]. now apply lower_at_nonempty in H.
Qed.

(** ** The four passes on their own *)

Lemma lstrip_keeps (P : N -> Prop) (s : list N) :
  Forall P s -> Forall P (lstrip s).
Proof.
  induction 1 as [|c t Hc Ht IH]; simpl; [constructor|].
  destruct (is_space c); [exact IH | now constructor].
Qed.

Lemma strip_keeps (P : N -> Prop) (s : list N) :
  Forall P s -> Forall P (strip s).
Proof.
  intros H. unfold strip, rstrip.
  apply List.Forall_rev, lstrip_keeps, List.Forall_rev, lstrip_keeps, H.
Qed.

Lemma lstrip_id (s : list N) :
  Forall (fun c => is_space c = false) s -> lstrip s = s.
Proof. destruct 1 as [|c t Hc Ht]; simpl; [reflexivity | now rewrite Hc]. Qed.

Lemma strip_id (s : list N) :
  Forall (fun c => is_space c = false) s -> strip s = s.
Proof.
  intros H. unfold strip, rstrip. rewrite (lstrip_id s H).
  rewrite lstrip_id by now apply List.Forall_rev.
  apply rev_involutive.
Qed.

Lemma drop_punctuation_id (s : list N) :
  Forall (fun c => is_word c = true \/ c = hyphen) s ->
  drop_punctuation s = s.
Proof.
  induction 1 as [|c t Hc Ht IH]; [reflexivity|].
  unfold drop_punctuation in *. cbn [List.filter]. rewrite IH.
  destruct Hc as [-> | ->]; [reflexivity|].
  now rewrite N.eqb_refl, orb_true_r.
Qed.

Lemma drop_punctuation_kept (s : list N) :
  Forall (fun c => kept c = true) (drop_punctuation s).
Proof.
  apply List.Forall_forall. intros c Hc. now apply filter_In in Hc as [_ H].
Qed.

Lemma kept_word (c : N) :
  kept c = true -> is_separator c = false -> is_word c = true.
Proof.
  unfold kept, is_separator. intros Hk Hs.
  apply orb_false_elim in Hs as [H1 H2].
  rewrite H1, H2, !orb_false_r in Hk. exact Hk.
Qed.

Lemma stable_facts (c : N) :
  stable c = true ->
  is_word c = true /\ is_space c = false /\ is_separator c = false
  /\ c <> 304%N.
Proof.
  intros H. pose proof H as H'. unfold stable in H.
  repeat (apply andb_prop in H as [H ?]).
  assert (Hs : is_space c = false).
  { destruct (is_space c) eqn:Hs; [|reflexivity].
    destruct (is_space_facts c Hs). congruence. }
  assert (Hh : (c =? hyphen)%N = false).
  { apply N.eqb_neq. intros ->. rewrite is_word_hyphen in H. discriminate. }
  split; [exact H|]. split; [exact Hs|]. split.
  - unfold is_separator. now rewrite Hh, Hs.
  - apply negb_true_iff in H1. now apply N.eqb_neq in H1.
Qed.

(** After the last two passes the text is settled. *)
Lemma lower_collapse_settled (in_run : bool) (before s : list N) :
  ~ In 304%N s ->
  Forall (fun c => kept c = true) s ->
  settled in_run (lower_from before (collapse in_run s)) = true.
Proof.
  intros Hplain H. revert in_run before.
  induction H as [|c t Hc Ht IH]; intros in_run before; [reflexivity|].
  assert (Ht' : ~ In 304%N t) by (intros Hin; apply Hplain; now right).
  assert (Hc' : c <> 304%N) by (intros ->; apply Hplain; now left).
  specialize (IH Ht').
  cbn [collapse]. destruct (is_separator c) eqn:Hsep.
  - destruct in_run; [apply IH|].
    cbn [lower_from]. rewrite lower_at_hyphen.
    cbn [app settled]. rewrite N.eqb_refl. apply IH.
  - cbn [lower_from].
    destruct (lower_at_one before (collapse false t) c Hc')
      as [d [-> [_ [Hw [Hh [Hl [H304 [H931 _] ] ] ] ] ] ] ].
    cbn [app settled].
    pose proof (kept_word c Hc Hsep) as Hword.
    unfold is_separator in Hsep. apply orb_false_elim in Hsep as [Hhy _].
    rewrite Hh, Hhy. unfold stable. rewrite Hw, Hword, Hl, N.eqb_refl.
    apply N.eqb_neq in H304. apply N.eqb_neq in H931.
    rewrite H304, H931. cbn [andb negb]. apply IH.
Qed.

Lemma settled_chars (after_hyphen : bool) (s : list N) :
  settled after_hyphen s = true ->
  Forall (fun c => stable c = true \/ c = hyphen) s.
Proof.
  revert after_hyphen. induction s as [|c t IH]; intros b H; [constructor|].
  cbn [settled] in H. destruct (N.eqb_spec c hyphen) as [->|Hne].
  - apply andb_prop in H as [_ H]. constructor; [now right | eauto].
  - apply andb_prop in H as [Hc H]. constructor; [now left | eauto].
Qed.

Lemma collapse_id (in_run : bool) (s : list N) :
  settled in_run s = true -> collapse in_run s = s.
Proof.
  revert in_run. induction s as [|c t IH]; intros b H; [reflexivity|].
  cbn [settled] in H. cbn [collapse].
  destruct (N.eqb_spec c hyphen) as [->|Hne].
  - apply andb_prop in H as [Hb H].
    assert (Hsep : is_separator hyphen = true) by reflexivity.
    rewrite Hsep. destruct b; [discriminate|]. now rewrite IH.
  - apply andb_prop in H as [Hc H].
    destruct (stable_facts c Hc) as [_ [_ [-> _] ] ].
    now rewrite IH.
Qed.

Lemma lower_from_id (before s : list N) :
  Forall (fun c => stable c = true \/ c = hyphen) s ->
  lower_from before s = s.
Proof.
  intros H. revert before.
  induction H as [|c t Hc Ht IH]; intros before; [reflexivity|].
  cbn [lower_from]. rewrite IH. destruct Hc as [Hc| ->].
  - now rewrite lower_at_stable.
  - now rewrite lower_at_hyphen.
Qed.

(** [to_kebab_case] leaves a settled text as it is. *)
Lemma to_kebab_case_settled (r : list N) :
  settled false r = true -> to_kebab_case r = r.
Proof.
  intros Hr. pose proof (settled_chars _ _ Hr) as Hchars.
  assert (Hnospace : Forall (fun c => is_space c = false) r).
  { eapply List.Forall_impl; [|exact Hchars].
    intros c [Hw| ->]; [|exact is_space_hyphen].
    now destruct (stable_facts c Hw) as [_ [? _] ]. }
  assert (Hword : Forall (fun c => is_word c = true \/ c = hyphen) r).
  { eapply List.Forall_impl; [|exact Hchars]. intros c [Hw| ->]; [|now right].
    left. now destruct (stable_facts c Hw). }
  unfold to_kebab_case, lower.
  rewrite (strip_id r Hnospace), (drop_punctuation_id r Hword).
  rewrite (collapse_id false r Hr). apply lower_from_id, Hchars.
Qed.

(** The passes before [lower] bring no code point of their own but the
    hyphen. *)
Lemma lstrip_In (c : N) (s : list N) : In c (lstrip s) -> In c s.
Proof.
  induction s as [|d s IH]; [intros [] |]. cbn [lstrip].
  destruct (is_space d); [right; now apply IH | trivial].
Qed.

Lemma strip_In (c : N) (s : list N) : In c (strip s) -> In c s.
Proof.
  unfold strip, rstrip. intros H.
  apply in_rev, lstrip_In, in_rev, lstrip_In in H. exact H.
Qed.

Lemma collapse_In (c : N) (in_run : bool) (s : list N) :
  In c (collapse in_run s) ->
  c = hyphen \/ (In c s /\ is_separator c = false).
Proof.
  revert in_run. induction s as [|d s IH]; intros in_run; [intros [] |].
  assert (Hrest : forall b, In c (collapse b s) ->
            c = hyphen \/ (In c (d :: s) /\ is_separator c = false)).
  { intros b H. destruct (IH _ H) as [?|[? ?] ]; [now left|].
    right. split; [now right | assumption]. }
  cbn [collapse]. destruct (is_separator d) eqn:Hd.
  - destruct in_run; [apply Hrest|].
    intros [H|H]; [now left | now apply Hrest in H].
  - intros [->|H]; [|now apply Hrest in H].
    right. split; [now left | exact Hd].
Qed.

Lemma skeleton_In (c : N) (s : list N) :
  In c (collapse false (drop_punctuation (strip s))) ->
  c = hyphen \/ (In c s /\ is_word c = true).
Proof.
  intros H. apply collapse_In in H as [H|[H Hsep] ]; [now left|].
  right. apply filter_In in H as [H Hk]. split; [now apply strip_In|].
  now apply kept_word.
Qed.

(** The passes before [lower] keep a word character that is there. *)
Lemma lstrip_keeps_word (c : N) (s : list N) :
  In c s -> is_space c = false -> In c (lstrip s).
Proof.
  intros Hin Hc. induction s as [|d s IH]; [destruct Hin|].
  cbn [lstrip]. destruct (is_space d) eqn:Hd; [|exact Hin].
  destruct Hin as [->|Hin]; [congruence | now apply IH].
Qed.

Lemma strip_keeps_word (c : N) (s : list N) :
  In c s -> is_space c = false -> In c (strip s).
Proof.
  intros Hin Hc. unfold strip, rstrip.
  apply in_rev. rewrite rev_involutive.
  apply lstrip_keeps_word; [|exact Hc].
  apply -> in_rev. now apply lstrip_keeps_word.
Qed.

Lemma collapse_keeps_word (c : N) (in_run : bool) (s : list N) :
  In c s -> is_separator c = false -> In c (collapse in_run s).
Proof.
  intros Hin Hc. revert in_run.
  induction s as [|d s IH]; intros in_run; [destruct Hin|].
  cbn [collapse]. destruct Hin as [->|Hin].
  - rewrite Hc. now left.
  - destruct (is_separator d); [destruct in_run|]; try right; now apply IH.
Qed.

Lemma lower_from_capital_i_dot (before s : list N) :
  In 304%N s -> In 775%N (lower_from before s).
Proof.
  revert before. induction s as [|c s IH]; intros before; [intros [] |].
  cbn [lower_from]. rewrite in_app_iff. intros [->|H].
  - left. rewrite lower_at_capital_i_dot. right. now left.
  - right. now apply IH.
Qed.

(** A combining dot above (U+0307) in a name comes from a U+0130 of the
    prompt. *)
Lemma to_kebab_case_dot_above (s : list N) :
  In 775%N (to_kebab_case s) <-> In 304%N s.
Proof.
  unfold to_kebab_case, lower. split.
  - intros H. apply lower_from_In in H as [b [a [c [Hc Hd] ] ] ].
    destruct (N.eq_dec c 304%N) as [->|Hne].
    + apply skeleton_In in Hc as [Hc|[Hc _] ]; [discriminate | exact Hc].
    + exfalso.
      destruct (lower_at_one b a c Hne)
        as [d [Hat [_ [_ [_ [_ [_ [_ H775] ] ] ] ] ] ] ].
      rewrite Hat in Hd. destruct Hd as [Hd|[] ].
      specialize (H775 Hd). subst c.
      destruct dot_above_dropped as [Hw _].
      apply skeleton_In in Hc as [Hc|[_ Hc] ]; [discriminate | congruence].
  - intros H. apply lower_from_capital_i_dot, collapse_keeps_word.
    + apply filter_In. split.
      * apply strip_keeps_word; [exact H | exact is_space_capital_i_dot].
      * now rewrite is_word_capital_i_dot.
    + unfold is_separator. now rewrite is_space_capital_i_dot.
Qed.

Lemma to_kebab_case_no_capital_i_dot (s : list N) :
  ~ In 304%N (to_kebab_case s).
Proof.
  unfold to_kebab_case, lower. intros H.
  apply lower_from_In in H as [b [a [c [_ Hd] ] ] ].
  exact (lower_at_no_capital_i_dot b a c Hd).
Qed.

Lemma skeleton_plain (s : list N) :
  ~ In 304%N s -> ~ In 304%N (collapse false (drop_punctuation (strip s))).
Proof.
  intros Hs H. apply skeleton_In in H as [H|[H _] ]; [discriminate | auto].
Qed.

Lemma to_kebab_case_is_settled (s : list N) :
  ~ In 304%N s -> settled false (to_kebab_case s) = true.
Proof.
  intros Hs. unfold to_kebab_case, lower.
  apply lower_collapse_settled; [|apply drop_punctuation_kept].
  intros H. apply filter_In in H as [H _]. now apply strip_In in H.
Qed.

(** ** The claim about the normaliser *)

(** C10, as the code has it: [to_kebab_case] is idempotent exactly on the
    texts without U+0130 (capital I with dot above).  On such a text it
    gives a text of single hyphens and of word characters that
    [str.lower] leaves alone, which a second pass leaves as it is; a
    U+0130 leaves a combining dot above (U+0307) in the name, and a
    second pass drops that dot. *)
Theorem C10_to_kebab_case_idempotent (s : list N) :
  (to_kebab_case (to_kebab_case s) = to_kebab_case s <-> ~ In 304%N s)
  /\ (~ In 304%N s -> settled false (to_kebab_case s) = true).
Proof.
  split; [split|].
  - intros Hidem Hin.
    apply (to_kebab_case_no_capital_i_dot s).
    apply to_kebab_case_dot_above. rewrite Hidem.
    now apply to_kebab_case_dot_above.
  - intros Hs. apply to_kebab_case_settled, to_kebab_case_is_settled, Hs.
  - apply to_kebab_case_is_settled.
Qed.

(** C10, as stated, fails on "İ" (U+0130): the first pass gives "i"
    followed by a combining dot above, which is no word character, and the
    second pass drops that dot. *)
Lemma C10_capital_i_dot_not_idempotent :
  to_kebab_case capital_i_dot = [105%N; 775%N]
  /\ to_kebab_case [105%N; 775%N] = [105%N]
  /\ ~ (forall s, to_kebab_case (to_kebab_case s) = to_kebab_case s).
Proof.
  assert (H1 : to_kebab_case capital_i_dot = [105%N; 775%N])
    by (vm_compute; reflexivity).
  assert (H2 : to_kebab_case [105%N; 775%N] = [105%N])
    by (vm_compute; reflexivity).
  split; [exact H1|]. split; [exact H2|].
  intros Hidem. specialize (Hidem capital_i_dot).
  rewrite H1, H2 in Hidem. discriminate Hidem.
Qed.

(** "Café Été" gives "café-été", and "ΟΔΟΣ ΣΟΦΙΑΣ!" gives "οδος-σοφιας",
    each capital sigma that ends a word becoming a final sigma. *)
Example to_kebab_case_accents :
  to_kebab_case cafe_prompt = [99; 97; 102; 233; 45; 233; 116; 233]%N
  /\ to_kebab_case greek_prompt
     = [959; 948; 959; 962; 45; 963; 959; 966; 953; 945; 962]%N
  /\ to_kebab_case spaced_prompt
     = [97; 45; 99; 97; 116; 45; 111; 110; 95; 109; 97; 114; 115]%N.
Proof. repeat split; vm_compute; reflexivity. Qed.

End KebabFacts.

(** * More about the poller *)

Module PollerMore.
Import Poller Rounds PollerFacts.

(** The list of the last round played is the one returned, whether the
    loop left by [break] or by the loop test after a last sleep. *)
Lemma polled_last (w : world) (i : nat) (urls : list string)
  (o : outcome (list string)) (tr : list event) :
  polled w i urls (o, tr) ->
  forall u, o = Returned u -> tr <> [] ->
  exists j pre,
    scan_round w j = Returned u
    /\ (tr = pre ++ [EvFind j]
        \/ tr = pre ++ [EvFind j; EvSleep poll_interval]).
Proof.
  intros H. polled_induction H; intros u Ho Hne; try discriminate.
  - contradiction.
  - injection Ho as <-. exists i, []. split; [exact Hs | now left].
  - destruct tr0 as [|e tr0].
    + destruct (polled_returned _ _ _ _ _ Hrec u Ho) as [[_ ->]|[j [[] _] ] ].
      exists i, []. split; [exact Hs | now right].
    + destruct (IH _ _ eq_refl u Ho) as [j [pre [Hj Htr] ] ]; [discriminate|].
      exists j, (EvFind i :: EvSleep poll_interval :: pre).
      split; [exact Hj|]. cbn [app].
      destruct Htr as [-> | ->]; [now left | now right].
Qed.

(** X1: the sequence returned is made from the last round played alone:
    the trace ends with the extraction of a round, followed by one sleep
    at most, and the result is the padded and cut list of that round.
    What earlier rounds found is not kept. *)
Theorem X1_last_round_decides (w : world) (l : list string)
  (tr : list event) :
  get_image_urls w = Some (Returned l, tr) ->
  exists j pre urls,
    scan_round w j = Returned urls
    /\ l = finish urls
    /\ (tr = pre ++ [EvFind j]
        \/ tr = pre ++ [EvFind j; EvSleep poll_interval]).
Proof.
  intros Hrun.
  destruct (get_image_urls_polled _ _ _ Hrun) as [o' [tr' [Hp [-> Ho] ] ] ].
  destruct o' as [urls|]; [|discriminate]. injection Ho as ->.
  destruct (polled_last _ _ _ _ _ Hp urls eq_refl) as [j [pre [Hj Htr] ] ];
    [discriminate|].
  exists j, (EvSleep initial_delay :: pre), urls.
  split; [exact Hj|]. split; [reflexivity|]. cbn [app].
  destruct Htr as [-> | ->]; [now left | now right].
Qed.

Lemma X1_last_round_decides_witness :
  get_image_urls shrinking_world
  = Some (Returned ["blob:9"; ""; ""; ""],
          [EvSleep initial_delay; EvFind 0; EvSleep poll_interval;
           EvFind 1; EvSleep poll_interval; EvFind 2;
           EvSleep poll_interval])
  /\ exists j pre urls,
       scan_round shrinking_world j = Returned urls
       /\ ["blob:9"; ""; ""; ""] = finish urls
       /\ ([EvSleep initial_delay; EvFind 0; EvSleep poll_interval;
            EvFind 1; EvSleep poll_interval; EvFind 2;
            EvSleep poll_interval] = pre ++ [EvFind j]
           \/ [EvSleep initial_delay; EvFind 0; EvSleep poll_interval;
               EvFind 1; EvSleep poll_interval; EvFind 2;
               EvSleep poll_interval]
              = pre ++ [EvFind j; EvSleep poll_interval]).
Proof.
  assert (H : get_image_urls shrinking_world
    = Some (Returned ["blob:9"; ""; ""; ""],
            [EvSleep initial_delay; EvFind 0; EvSleep poll_interval;
             EvFind 1; EvSleep poll_interval; EvFind 2;
             EvSleep poll_interval]))
    by (vm_compute; reflexivity).
  split; [exact H | exact (X1_last_round_decides shrinking_world _ _ H)].
Defined.

(** A run of the loop that ends with fewer than four URLs played its
    rounds one after the other, each within the budget and each short of
    four URLs, slept after each, and stopped at a loop test that failed. *)
Lemma poll_short (fuel : nat) (w : world) (i : nat) (start_time : float)
  (urls u : list string) (tr : list event) :
  poll fuel w i start_time urls = Some (Returned u, tr) ->
  length u < 4 ->
  exists n,
    tr = flat_map (fun k => [EvFind k; EvSleep poll_interval]) (seq i n)
    /\ (forall k, i <= k < i + n ->
          in_time start_time (now (rounds w k)) = true
          /\ exists v, scan_round w k = Returned v /\ length v < 4)
    /\ in_time start_time (now (rounds w (i + n))) = false.
Proof.
  revert i urls u tr.
  induction fuel as [|fuel IH]; intros i urls u tr; [discriminate|].
  rewrite poll_unfold.
  destruct (in_time start_time (now (rounds w i))) eqn:Htest.
  - destruct (scan_round w i) as [urls'|] eqn:Hscan; [|discriminate].
    destruct (Nat.leb_spec 4 (length urls')) as [Hge|Hlt].
    + intros [= <- <-] Hu. lia.
    + destruct (poll fuel w (S i) start_time urls') as [ [o2 tr2]|] eqn:Hrec;
        [|discriminate].
      cbn [after]. intros [= -> <-] Hu.
      destruct (IH _ _ _ _ Hrec Hu) as [n [Htr [Hin Hout] ] ].
      exists (S n). split; [cbn [seq flat_map app]; now rewrite Htr|].
      split.
      * intros k Hk. destruct (Nat.eq_dec k i) as [->|Hne].
        -- split; [exact Htest|]. now exists urls'.
        -- apply Hin. lia.
      * now replace (i + S n) with (S i + n) by lia.
  - intros [= <- <-] _. exists 0. split; [reflexivity|].
    split; [intros k Hk; lia|]. now rewrite Nat.add_0_r.
Qed.

Lemma finish_empty_entry (urls : list string) :
  Forall (fun u => u <> "") urls -> In "" (finish urls) -> length urls < 4.
Proof.
  intros Hne Hin.
  destruct (Nat.lt_ge_cases (length urls) 4) as [Hlt|Hge]; [exact Hlt|exfalso].
  rewrite finish_long in Hin by exact Hge.
  pose proof (Forall_take _ 4 _ Hne) as Htake.
  rewrite List.Forall_forall in Htake. now apply (Htake "" Hin).
Qed.

(** X27: an empty string in the returned sequence means that the budget
    ran out.  The call then played its rounds one after the other: each
    passed the loop test, gave fewer than four valid URLs and was followed
    by a sleep of [poll_interval]; the loop test after the last of them
    failed; no round was left by [break]. *)
Theorem X27_padding_means_timeout (w : world) (l : list string)
  (tr : list event) :
  get_image_urls w = Some (Returned l, tr) ->
  In "" l ->
  exists n,
    0 < n
    /\ tr = EvSleep initial_delay
            :: flat_map (fun k => [EvFind k; EvSleep poll_interval])
                 (seq 0 n)
    /\ (forall k, k < n ->
          in_time (start_clock w) (now (rounds w k)) = true
          /\ exists v, scan_round w k = Returned v /\ length v < 4)
    /\ in_time (start_clock w) (now (rounds w n)) = false.
Proof.
  intros Hrun Hempty.
  unfold get_image_urls in Hrun.
  destruct (poll (poll_fuel w) w 0 _ []) as [ [ [u|] tr0]|] eqn:Hpoll;
    try discriminate.
  cbn [after] in Hrun. injection Hrun as Hl <-.
  assert (Hu : length u < 4).
  { pose proof (poll_polled _ _ _ _ _ _ Hpoll) as Hp.
    destruct (polled_returned _ _ _ _ _ Hp u eq_refl)
      as [ [_ ->]|[j [_ Hj] ] ]; [cbn; lia|].
    destruct (scan_round_returned _ _ _ Hj) as [vals [_ ->] ].
    apply finish_empty_entry; [apply spec_round_nonempty|].
    now rewrite Hl. }
  destruct (poll_short _ _ _ _ _ _ _ Hpoll Hu) as [n [-> [Hin Hout] ] ].
  exists n. split; [|split; [reflexivity|split] ].
  - destruct n; [|lia]. change (0 + 0) with 0 in Hout.
    rewrite (first_test w) in Hout. discriminate.
  - intros k Hk. apply Hin. lia.
  - exact Hout.
Qed.

Lemma X27_padding_means_timeout_witness :
  get_image_urls steady_world
  = Some (Returned ["http://a"; "blob:b"; "http://c"; ""],
          EvSleep initial_delay
          :: flat_map (fun k => [EvFind k; EvSleep poll_interval]) (seq 0 30))
  /\ In "" ["http://a"; "blob:b"; "http://c"; ""]
  /\ exists n,
       0 < n
       /\ EvSleep initial_delay
          :: flat_map (fun k => [EvFind k; EvSleep poll_interval]) (seq 0 30)
          = EvSleep initial_delay
            :: flat_map (fun k => [EvFind k; EvSleep poll_interval])
                 (seq 0 n)
       /\ (forall k, k < n ->
             in_time (start_clock steady_world)
                     (now (rounds steady_world k)) = true
             /\ exists v, scan_round steady_world k = Returned v
                          /\ length v < 4)
       /\ in_time (start_clock steady_world) (now (rounds steady_world n))
          = false.
Proof.
  assert (H : get_image_urls steady_world
    = Some (Returned ["http://a"; "blob:b"; "http://c"; ""],
            EvSleep initial_delay
            :: flat_map (fun k => [EvFind k; EvSleep poll_interval])
                 (seq 0 30)))
    by (vm_compute; reflexivity).
  assert (Hin : In "" ["http://a"; "blob:b"; "http://c"; ""])
    by (do 3 right; now left).
  split; [exact H|]. split; [exact Hin|].
  exact (X27_padding_means_timeout steady_world _ _ H Hin).
Defined.

(** On a clock that reads [10.002 + 2 * i] at the loop test of round [i]
    the test of round 30 passes, since [70.002 - 10.002] is less than 60 in
    binary64: the call extracts 31 times before it gives up. *)
Example drifting_clock_round_thirty :
  in_time (start_clock drifting_world) (now (rounds drifting_world 30)) = true
  /\ in_time (start_clock drifting_world) (now (rounds drifting_world 31))
     = false
  /\ exists tr,
       get_image_urls drifting_world = Some (Returned [""; ""; ""; ""], tr)
       /\ In (EvFind 30) tr
       /\ finds tr = 31.
Proof.
  split; [reflexivity|]. split; [reflexivity|].
  eexists. split; [vm_compute; reflexivity|].
  split; [|reflexivity]. repeat (first [now left | right]).
Qed.

Lemma take_app_replicate (urls : list string) :
  finish urls
  = take 4 urls ++ replicate (4 - length (take 4 urls)) "".
Proof.
  rewrite finish_closed_form, length_take.
  destruct (Nat.le_gt_cases 4 (length urls)) as [Hge|Hlt].
  - replace (4 - length urls) with 0 by lia.
    replace (4 - 4 `min` length urls) with 0 by lia.
    simpl. now rewrite !app_nil_r.
  - rewrite !take_ge by (rewrite ?length_app, ?length_replicate; lia).
    do 2 f_equal. lia.
Qed.

(** X3: the returned sequence is a run of at most four distinct valid URLs
    (non-empty, starting with "http" or "blob:") followed by empty strings
    only: no URL comes after an empty entry, and [any(image_urls)] is
    False exactly when that run is empty. *)
Theorem X3_urls_before_padding (w : world) (l : list string)
  (tr : list event) :
  get_image_urls w = Some (Returned l, tr) ->
  exists kept,
    l = kept ++ replicate (4 - length kept) ""
    /\ length kept <= 4
    /\ NoDup kept
    /\ Forall (fun u => spec_valid u = true) kept
    /\ truthy l = kept
    /\ (any l = false <-> kept = []).
Proof.
  intros Hrun.
  destruct (get_image_urls_polled _ _ _ Hrun) as [o' [tr' [Hp [_ Ho] ] ] ].
  destruct o' as [urls0|]; [|discriminate]. injection Ho as ->.
  destruct (polled_last _ _ _ _ _ Hp urls0 eq_refl) as [j [_ [Hj _] ] ];
    [discriminate|].
  destruct (scan_round_returned _ _ _ Hj) as [vals [_ ->] ].
  set (urls := spec_round vals).
  assert (Hnd : NoDup (take 4 urls)).
  { eapply sublist_NoDup; [apply dedup_first_NoDup | apply sublist_take]. }
  assert (Hvalid : Forall (fun u => spec_valid u = true) (take 4 urls)).
  { apply Forall_take, List.Forall_forall. intros u Hu.
    now apply spec_round_In in Hu. }
  assert (Htruthy : truthy (take 4 urls ++ replicate (4 - length (take 4 urls)) "")
                    = take 4 urls).
  { unfold truthy. rewrite List.filter_app.
    replace (List.filter _ (replicate _ "")) with (@nil string).
    - rewrite app_nil_r. apply forallb_filter_id, forallb_forall.
      intros u Hu. rewrite List.Forall_forall in Hvalid.
      specialize (Hvalid u Hu). unfold spec_valid in Hvalid.
      now apply andb_prop in Hvalid as [-> _].
    - generalize (4 - length (take 4 urls)). intros n.
      induction n as [|n IH]; [reflexivity | exact IH]. }
  exists (take 4 urls). rewrite take_app_replicate.
  split; [reflexivity|]. split; [rewrite length_take; lia|].
  split; [exact Hnd|]. split; [exact Hvalid|]. split; [exact Htruthy|].
  unfold any, truthy in *. split.
  - intros Hany. rewrite <- Htruthy.
    generalize dependent (take 4 urls ++ replicate (4 - length (take 4 urls)) "").
    intros m _ Hany. induction m as [|x m IH]; [reflexivity|].
    cbn in *. apply orb_false_elim in Hany as [-> Hany]. now apply IH.
  - intros Hnil. rewrite Hnil in *. reflexivity.
Qed.

Lemma X3_urls_before_padding_witness :
  get_image_urls steady_world
  = Some (Returned ["http://a"; "blob:b"; "http://c"; ""],
          EvSleep initial_delay
          :: flat_map (fun k => [EvFind k; EvSleep poll_interval]) (seq 0 30))
  /\ exists kept,
       ["http://a"; "blob:b"; "http://c"; ""]
       = kept ++ replicate (4 - length kept) ""
       /\ length kept <= 4
       /\ NoDup kept
       /\ Forall (fun u => spec_valid u = true) kept
       /\ truthy ["http://a"; "blob:b"; "http://c"; ""] = kept
       /\ (any ["http://a"; "blob:b"; "http://c"; ""] = false <-> kept = []).
Proof.
  assert (H : get_image_urls steady_world
    = Some (Returned ["http://a"; "blob:b"; "http://c"; ""],
            EvSleep initial_delay
            :: flat_map (fun k => [EvFind k; EvSleep poll_interval])
                 (seq 0 30)))
    by (vm_compute; reflexivity).
  split; [exact H | exact (X3_urls_before_padding steady_world _ _ H)].
Defined.

End PollerMore.

(** * More about the locator *)

Module LocatorMore.
Import Locator Pages LocatorFacts.

(** The search over the iframes of index [k] to [k + n - 1]: it stops in
    the first of them that holds the selector, or gives up in the main
    document when none does. *)
Lemma search_frames_seq (p : page) (k n : nat) (c : context) :
  (exists j,
      k <= j < k + n
      /\ holds p (InFrame j) = true
      /\ (forall i, k <= i < j -> holds p (InFrame i) = false)
      /\ search_frames p (seq k n) c = (Returned true, InFrame j))
  \/ ((forall i, k <= i < k + n -> holds p (InFrame i) = false)
      /\ search_frames p (seq k n) c = (Returned false, DefaultContent)).
Proof.
  revert k c. induction n as [|n IH]; intros k c.
  - right. split; [intros i Hi; lia | reflexivity].
  - cbn [seq]. rewrite search_frames_step.
    destruct (holds p (InFrame k)) eqn:Hk.
    + left. exists k. split; [lia|]. split; [exact Hk|].
      split; [intros i Hi; lia | reflexivity].
    + destruct (IH (S k) DefaultContent)
        as [[j [Hj [Hh [Hbefore Hrun] ] ] ]|[Hnone Hrun] ].
      * left. exists j. split; [lia|]. split; [exact Hh|].
        split; [|exact Hrun]. intros i Hi.
        destruct (Nat.eq_dec i k) as [->|Hne]; [exact Hk|].
        apply Hbefore. lia.
      * right. split; [|exact Hrun]. intros i Hi.
        destruct (Nat.eq_dec i k) as [->|Hne]; [exact Hk|].
        apply Hnone. lia.
Qed.

Lemma holds_beyond (p : page) (i : nat) :
  length (frames p) <= i -> holds p (InFrame i) = false.
Proof.
  intros Hi. cbn [holds]. now rewrite (lookup_ge_None_2 (frames p) i Hi).
Qed.

(** The two locators search alike. *)
Lemma search_frames_element_agrees (p : page) (late : arrivals)
  (l : list nat) (c0 : context) :
  (forall c, shows p late c = holds p c) ->
  search_frames_element p late l c0
  = match search_frames p l c0 with
    | (Returned true, c) => (Returned (PromptInput c), c)
    | (_, c) => (Raised, c)
    end.
Proof.
  intros Hsame. revert c0. induction l as [|i l IH]; intros c0; [reflexivity|].
  rewrite search_frames_step, search_frames_element_step, Hsame.
  destruct (holds p (InFrame i)); [reflexivity | apply IH].
Qed.

(** X4: the verdict of [switch_to_prompt_frame] is right on every page
    and from every entry context: True comes with a current context that
    holds the selector, False comes with the main document current and
    only when no context holds the selector. *)
Theorem X4_locator_verdict (p : page) (entry : context) :
  exists found c,
    switch_to_prompt_frame p entry = (Returned found, c)
    /\ (found = true -> holds p c = true)
    /\ (found = false ->
        c = DefaultContent /\ forall c', holds p c' = false).
Proof.
  rewrite switch_to_prompt_frame_unfold.
  destruct (main_has p) eqn:Hmain.
  - exists true, DefaultContent. split; [reflexivity|].
    split; [intros _; exact Hmain | discriminate].
  - destruct (search_frames_seq p 0 (length (frames p)) DefaultContent)
      as [[j [_ [Hh [_ ->] ] ] ]|[Hnone ->] ].
    + exists true, (InFrame j). split; [reflexivity|].
      split; [intros _; exact Hh | discriminate].
    + exists false, DefaultContent. split; [reflexivity|].
      split; [discriminate|]. intros _. split; [reflexivity|].
      intros [|i]; [exact Hmain|].
      destruct (Nat.lt_ge_cases i (length (frames p))) as [Hlt|Hge].
      * apply Hnone. lia.
      * now apply holds_beyond.
Qed.

(** X5: when several contexts hold the selector the first one wins: the
    main document before every iframe, and among the iframes the one of
    lowest index. *)
Theorem X5_first_context_wins (p : page) (entry : context) (j : nat) :
  switch_to_prompt_frame p entry = (Returned true, InFrame j) ->
  main_has p = false
  /\ holds p (InFrame j) = true
  /\ forall i, i < j -> holds p (InFrame i) = false.
Proof.
  rewrite switch_to_prompt_frame_unfold.
  destruct (main_has p); [discriminate|]. intros Hrun.
  split; [reflexivity|].
  destruct (search_frames_seq p 0 (length (frames p)) DefaultContent)
    as [[k [_ [Hh [Hbefore Hk] ] ] ]|[_ Hk] ];
    rewrite Hk in Hrun; [|discriminate].
  injection Hrun as <-. split; [exact Hh|].
  intros i Hi. apply Hbefore. lia.
Qed.

Lemma X5_first_context_wins_witness :
  switch_to_prompt_frame twice_page (InFrame 2) = (Returned true, InFrame 1)
  /\ main_has twice_page = false
  /\ holds twice_page (InFrame 1) = true
  /\ forall i, i < 1 -> holds twice_page (InFrame i) = false.
Proof.
  split; [reflexivity|].
  exact (X5_first_context_wins twice_page (InFrame 2) 1 eq_refl).
Defined.

(** X6: [_get_prompt_input_element] does not go back to the main document
    before its first lookup.  Entered in an iframe in which the selector
    does not show up it raises its not-found error, wherever else the
    selector is, while [switch_to_prompt_frame] runs from an iframe as it
    runs from the main document. *)
Theorem X6_get_element_skips_reset (p : page) (late : arrivals) (i : nat) :
  shows p late (InFrame i) = false ->
  _get_prompt_input_element p late (InFrame i) = (Raised, DefaultContent)
  /\ switch_to_prompt_frame p (InFrame i)
     = switch_to_prompt_frame p DefaultContent.
Proof.
  intros Hi. split.
  - now rewrite _get_prompt_input_element_in_frame, Hi.
  - now rewrite !switch_to_prompt_frame_unfold.
Qed.

Lemma X6_get_element_skips_reset_witness :
  shows twice_page slow_arrivals (InFrame 0) = false
  /\ _get_prompt_input_element twice_page slow_arrivals (InFrame 0)
     = (Raised, DefaultContent)
  /\ switch_to_prompt_frame twice_page (InFrame 0)
     = switch_to_prompt_frame twice_page DefaultContent.
Proof.
  split; [reflexivity|].
  exact (X6_get_element_skips_reset twice_page slow_arrivals 0 eq_refl).
Defined.

(** X7: entered in the main document of a page on which nothing shows up
    late (a wait finds the selector in a context exactly when one look
    finds it there), the two locators agree:
    [_get_prompt_input_element] returns the element of a context exactly
    when [switch_to_prompt_frame] returns True with that context current,
    and it raises exactly when [switch_to_prompt_frame] returns False. *)
Theorem X7_locators_agree (p : page) (late : arrivals) :
  (forall c, shows p late c = holds p c) ->
  _get_prompt_input_element p late DefaultContent
  = match switch_to_prompt_frame p DefaultContent with
    | (Returned true, c) => (Returned (PromptInput c), c)
    | (_, c) => (Raised, c)
    end.
Proof.
  intros Hsame.
  rewrite _get_prompt_input_element_default, switch_to_prompt_frame_unfold.
  rewrite (Hsame DefaultContent). cbn [holds].
  destruct (main_has p); [reflexivity|].
  now apply search_frames_element_agrees.
Qed.

Lemma X7_locators_agree_witness :
  (forall c, shows framed_page no_arrivals c = holds framed_page c)
  /\ _get_prompt_input_element framed_page no_arrivals DefaultContent
     = (Returned (PromptInput (InFrame 3)), InFrame 3)
  /\ switch_to_prompt_frame framed_page DefaultContent
     = (Returned true, InFrame 3).
Proof.
  assert (H : forall c, shows framed_page no_arrivals c = holds framed_page c).
  { intros [|[|[|[|[|i] ] ] ] ]; reflexivity. }
  split; [exact H|].
  pose proof (X7_locators_agree framed_page no_arrivals H) as Hagree.
  assert (Hs : switch_to_prompt_frame framed_page DefaultContent
               = (Returned true, InFrame 3)) by reflexivity.
  rewrite Hs in Hagree. split; [exact Hagree | exact Hs].
Defined.

(** Where the selector shows up late the two locators part: on
    [slow_page] the wait of [_get_prompt_input_element] finds it in the
    main document, and the one look of [switch_to_prompt_frame] does
    not. *)
Example late_arrival_parts_the_locators :
  _get_prompt_input_element slow_page slow_arrivals DefaultContent
  = (Returned (PromptInput DefaultContent), DefaultContent)
  /\ switch_to_prompt_frame slow_page DefaultContent
     = (Returned false, DefaultContent).
Proof. split; reflexivity. Qed.

(** X26: when the selector is present in exactly one context, and shows
    up late in no other, [switch_to_prompt_frame] returns True with that
    context current, whatever context was current on entry; and
    [_get_prompt_input_element], entered in the main document, returns the
    element of that context and leaves that context current. *)
Theorem X26_locate_unique (p : page) (late : arrivals) (c : context) :
  holds p c = true ->
  (forall c', shows p late c' = true -> c' = c) ->
  (forall entry, switch_to_prompt_frame p entry = (Returned true, c))
  /\ _get_prompt_input_element p late DefaultContent
     = (Returned (PromptInput c), c).
Proof.
  intros Hc Honly.
  pose proof (holds_shows p late c Hc) as Hshow.
  rewrite _get_prompt_input_element_default.
  setoid_rewrite switch_to_prompt_frame_unfold.
  destruct c as [|j].
  - rewrite Hshow. cbn [holds] in Hc. rewrite Hc.
    split; [intros _|]; reflexivity.
  - assert (Hmain : shows p late DefaultContent = false).
    { destruct (shows p late DefaultContent) eqn:Hm; [|reflexivity].
      now specialize (Honly DefaultContent Hm). }
    rewrite Hmain.
    assert (Hmain' : main_has p = false).
    { cbn [shows] in Hmain. now apply orb_false_elim in Hmain as [? _]. }
    rewrite Hmain'.
    assert (Hbefore : forall i, In i (seq 0 j) ->
                                shows p late (InFrame i) = false).
    { intros i Hi. apply in_seq in Hi.
      destruct (shows p late (InFrame i)) eqn:Hh; [|reflexivity].
      apply Honly in Hh. injection Hh as ->. lia. }
    rewrite (seq_split_at _ j (holds_frame_lt p j Hc)).
    split; [intros _|].
    + apply search_frames_first; [|exact Hc].
      intros i Hi. specialize (Hbefore i Hi).
      destruct (holds p (InFrame i)) eqn:Hh; [|reflexivity].
      apply (holds_shows p late) in Hh. congruence.
    + now apply search_frames_element_first.
Qed.

Lemma X26_locate_unique_witness :
  holds framed_page (InFrame 3) = true
  /\ (forall c', shows framed_page no_arrivals c' = true -> c' = InFrame 3)
  /\ (forall entry,
        switch_to_prompt_frame framed_page entry = (Returned true, InFrame 3))
  /\ _get_prompt_input_element framed_page no_arrivals DefaultContent
     = (Returned (PromptInput (InFrame 3)), InFrame 3).
Proof.
  assert (Honly : forall c',
            shows framed_page no_arrivals c' = true -> c' = InFrame 3).
  { intros [|[|[|[|[|i] ] ] ] ]; simpl; intros H; try discriminate.
    reflexivity. }
  split; [reflexivity|]. split; [exact Honly|].
  exact (X26_locate_unique framed_page no_arrivals (InFrame 3) eq_refl Honly).
Defined.

End LocatorMore.

(** * Facts about [generate_image] *)

Module GeneratorFacts.
Import Locator Generator LocatorFacts LocatorMore.

(** What the locator answers, by [somewhere]. *)
Lemma switch_to_prompt_frame_somewhere (p : page) (entry : context) :
  exists c,
    switch_to_prompt_frame p entry = (Returned (somewhere p), c)
    /\ (somewhere p = true -> holds p c = true)
    /\ (somewhere p = false -> c = DefaultContent).
Proof.
  rewrite switch_to_prompt_frame_unfold. unfold somewhere.
  destruct (main_has p) eqn:Hmain.
  - exists DefaultContent. split; [reflexivity|].
    split; [intros _; exact Hmain | discriminate].
  - cbn [orb].
    destruct (search_frames_seq p 0 (length (frames p)) DefaultContent)
      as [[j [Hj [Hh [_ ->] ] ] ]|[Hnone ->] ].
    + assert (Hex : existsb (fun i => holds p (InFrame i))
                      (seq 0 (length (frames p))) = true).
      { apply existsb_exists. exists j. split; [apply in_seq; lia | exact Hh]. }
      rewrite Hex. exists (InFrame j). split; [reflexivity|].
      split; [intros _; exact Hh | discriminate].
    + assert (Hex : existsb (fun i => holds p (InFrame i))
                      (seq 0 (length (frames p))) = false).
      { destruct (existsb _ _) eqn:Hex; [|reflexivity].
        apply existsb_exists in Hex as [i [Hi Hh] ]. apply in_seq in Hi.
        rewrite Hnone in Hh by lia. discriminate. }
      rewrite Hex. exists DefaultContent. split; [reflexivity|].
      split; [discriminate | reflexivity].
Qed.

Lemma await_completion_run (s : site) (st : state) :
  await_completion s completion_selectors st
  = (Returned (appears s 0 || appears s 1 || appears s 2 || appears s 3),
     {| ctx := ctx st; log := log st ++ completion_tail s |}).
Proof.
  unfold completion_tail, completion_selectors.
  cbn [await_completion]. unfold and_then, attempt, wait_for, perform, pure.
  destruct st as [c l].
  destruct (appears s 0); cbn; [now rewrite <- app_assoc|].
  destruct (appears s 1); cbn; [now rewrite <- app_assoc|].
  destruct (appears s 2); cbn; [now rewrite <- app_assoc|].
  destruct (appears s 3); cbn; [reflexivity | now rewrite app_nil_r].
Qed.

(** The runs of [generate_image], by the answers of the site. *)
Lemma generate_image_run (s : site) (st : state) (fp fb : bool)
  (cp cb : context) :
  switch_to_prompt_frame (prompt_page s) (ctx st) = (Returned fp, cp) ->
  switch_to_prompt_frame (button_page s) cp = (Returned fb, cb) ->
  generate_image s st
  = if open_raises s then (Returned false, st)
    else if negb fp || clear_raises s then
      (Returned false,
       {| ctx := cp; log := log st ++ [EvOpen; EvSleep 3000] |})
    else if type_raises s then
      (Returned false,
       {| ctx := cp; log := log st ++ [EvOpen; EvSleep 3000; EvClear cp] |})
    else if negb fb || click_raises s then
      (Returned false,
       {| ctx := cb;
          log := log st ++ [EvOpen; EvSleep 3000; EvClear cp; EvType cp] |})
    else
      (Returned (appears s 0 || appears s 1 || appears s 2 || appears s 3),
       {| ctx := cb;
          log := log st ++ submission cp cb ++ completion_tail s |}).
Proof.
  intros Hp Hb. destruct st as [c l]. cbn [ctx log] in *.
  unfold generate_image, attempt, and_then, perform, locate, pure, submission.
  destruct (open_raises s); [reflexivity|]. cbn [ctx log].
  rewrite Hp. destruct fp; cbn [negb orb ctx log]; [|now rewrite <- app_assoc].
  destruct (clear_raises s); [now rewrite <- app_assoc|]. cbn [ctx log].
  destruct (type_raises s); [now rewrite <- !app_assoc|]. cbn [ctx log].
  rewrite Hb. destruct fb; cbn [negb orb ctx log]; [|now rewrite <- !app_assoc].
  destruct (click_raises s); [now rewrite <- !app_assoc|]. cbn [ctx log].
  rewrite await_completion_run. cbn [ctx log].
  now rewrite <- !app_assoc.
Qed.

(** A click splits a log in one way when no other click is around. *)
Lemma click_position (before after pre post : list event) (x y : event) :
  Forall (fun e => is_click e = false) before ->
  is_click y = true ->
  before ++ x :: after = pre ++ y :: post ->
  is_click x = true ->
  Forall (fun e => is_click e = false) after ->
  pre = before /\ y = x /\ post = after.
Proof.
  intros Hbefore Hy. revert pre.
  induction Hbefore as [|e before He Hbefore IH]; intros pre Heq Hx Hafter.
  - destruct pre as [|e pre]; cbn in Heq.
    + now injection Heq as -> ->.
    + injection Heq as -> Heq. rewrite Heq in Hafter.
      apply Forall_app in Hafter as [_ Hafter].
      apply Forall_cons in Hafter as [Hy' _]. congruence.
  - destruct pre as [|e' pre]; cbn in Heq.
    + injection Heq as -> _. congruence.
    + injection Heq as -> Heq.
      destruct (IH pre Heq Hx Hafter) as [-> [-> ->] ]. auto.
Qed.

Lemma no_click_in (l pre post : list event) (y : event) :
  forallb (fun e => negb (is_click e)) l = true ->
  is_click y = true ->
  l <> pre ++ y :: post.
Proof.
  intros Hl Hy ->. rewrite forallb_app in Hl.
  apply andb_prop in Hl as [_ Hl]. cbn in Hl. rewrite Hy in Hl. discriminate.
Qed.

Lemma completion_tail_no_click (s : site) :
  Forall (fun e => is_click e = false) (completion_tail s).
Proof.
  unfold completion_tail.
  destruct (appears s 0), (appears s 1), (appears s 2), (appears s 3);
    repeat constructor.
Qed.

(** ** Properties of [generate_image] *)

(** X8: when [generate_image] returns True, it has opened the page,
    cleared and typed the prompt in a context that holds the prompt input,
    clicked in a context that holds the create button, which is current on
    return, and seen a completion selector; the sleep of ten seconds
    follows one of the three selectors of the loop, not the XPath tried
    after them. *)
Theorem X8_generate_image_success (s : site) (st st' : state) :
  generate_image s st = (Returned true, st') ->
  exists cp cb,
    log st' = log st ++ submission cp cb ++ completion_tail s
    /\ holds (prompt_page s) cp = true
    /\ holds (button_page s) cb = true
    /\ ctx st' = cb
    /\ (appears s 0 || appears s 1 || appears s 2 || appears s 3) = true.
Proof.
  destruct (switch_to_prompt_frame_somewhere (prompt_page s) (ctx st))
    as [cp [Hp [Hcp _] ] ].
  destruct (switch_to_prompt_frame_somewhere (button_page s) cp)
    as [cb [Hb [Hcb _] ] ].
  rewrite (generate_image_run s st _ _ _ _ Hp Hb).
  destruct (open_raises s); [discriminate|].
  destruct (somewhere (prompt_page s)); cbn [negb orb]; [|discriminate].
  destruct (clear_raises s); [discriminate|].
  destruct (type_raises s); [discriminate|].
  destruct (somewhere (button_page s)); cbn [negb orb]; [|discriminate].
  destruct (click_raises s); [discriminate|].
  intros [= Hseen <-]. exists cp, cb. cbn [ctx log]. auto.
Qed.

Lemma X8_generate_image_success_witness :
  generate_image framed_site fresh_session
  = (Returned true,
     {| ctx := DefaultContent;
        log := [EvOpen; EvSleep 3000; EvClear (InFrame 3);
                EvType (InFrame 3); EvClick DefaultContent; EvSeen 3] |})
  /\ exists cp cb,
       [EvOpen; EvSleep 3000; EvClear (InFrame 3); EvType (InFrame 3);
        EvClick DefaultContent; EvSeen 3]
       = log fresh_session ++ submission cp cb ++ completion_tail framed_site
       /\ holds (prompt_page framed_site) cp = true
       /\ holds (button_page framed_site) cb = true
       /\ DefaultContent = cb
       /\ (appears framed_site 0 || appears framed_site 1
           || appears framed_site 2 || appears framed_site 3) = true.
Proof.
  split; [reflexivity|].
  exact (X8_generate_image_success framed_site fresh_session _ eq_refl).
Defined.

(** X9: in every run of [generate_image], those that end in False
    included, a click on the create button comes right after the prompt
    was cleared and typed, in a context that holds the prompt input, and
    hits a context that holds the button: the form is never submitted
    without the prompt. *)
Theorem X9_click_after_prompt (s : site) (st st' : state)
  (o : outcome bool) (pre post : list event) (cb : context) :
  generate_image s st = (o, st') ->
  log st' = log st ++ pre ++ EvClick cb :: post ->
  exists cp,
    pre = [EvOpen; EvSleep 3000; EvClear cp; EvType cp]
    /\ holds (prompt_page s) cp = true
    /\ holds (button_page s) cb = true.
Proof.
  destruct (switch_to_prompt_frame_somewhere (prompt_page s) (ctx st))
    as [cp [Hp [Hcp _] ] ].
  destruct (switch_to_prompt_frame_somewhere (button_page s) cp)
    as [cb' [Hb [Hcb _] ] ].
  rewrite (generate_image_run s st _ _ _ _ Hp Hb).
  destruct (open_raises s).
  { intros [= _ <-] Hlog. exfalso.
    rewrite <- (app_nil_r (log st)) in Hlog at 1.
    apply app_inv_head in Hlog. now destruct pre. }
  destruct (negb (somewhere (prompt_page s)) || clear_raises s) eqn:H1.
  { intros [= _ <-] Hlog. cbn [log] in Hlog. apply app_inv_head in Hlog.
    exfalso. revert Hlog. now apply no_click_in. }
  destruct (type_raises s).
  { intros [= _ <-] Hlog. cbn [log] in Hlog. apply app_inv_head in Hlog.
    exfalso. revert Hlog. now apply no_click_in. }
  destruct (negb (somewhere (button_page s)) || click_raises s) eqn:H2.
  { intros [= _ <-] Hlog. cbn [log] in Hlog. apply app_inv_head in Hlog.
    exfalso. revert Hlog. now apply no_click_in. }
  intros [= _ <-] Hlog. cbn [log] in Hlog. apply app_inv_head in Hlog.
  apply orb_false_elim in H1 as [H1 _]. apply negb_false_iff in H1.
  apply orb_false_elim in H2 as [H2 _]. apply negb_false_iff in H2.
  destruct (click_position [EvOpen; EvSleep 3000; EvClear cp; EvType cp]
              (completion_tail s) pre post (EvClick cb') (EvClick cb))
    as [-> [Hc _] ];
    [repeat constructor|reflexivity|exact Hlog|reflexivity
    |apply completion_tail_no_click|].
  injection Hc as ->. exists cp. auto.
Qed.

Lemma X9_click_after_prompt_witness :
  generate_image framed_site fresh_session
  = (Returned true,
     {| ctx := DefaultContent;
        log := [EvOpen; EvSleep 3000; EvClear (InFrame 3);
                EvType (InFrame 3); EvClick DefaultContent; EvSeen 3] |})
  /\ exists cp,
       [EvOpen; EvSleep 3000; EvClear (InFrame 3); EvType (InFrame 3)]
       = [EvOpen; EvSleep 3000; EvClear cp; EvType cp]
       /\ holds (prompt_page framed_site) cp = true
       /\ holds (button_page framed_site) DefaultContent = true.
Proof.
  split; [reflexivity|].
  exact (X9_click_after_prompt framed_site fresh_session _ _
           [EvOpen; EvSleep 3000; EvClear (InFrame 3); EvType (InFrame 3)]
           [EvSeen 3] DefaultContent eq_refl eq_refl).
Defined.

(** X10: [generate_image] never raises, and it returns True exactly when
    the page opens, both locators find their element, the three actions on
    the form go through and one of the four completion selectors shows
    up. *)
Theorem X10_generate_image_verdict (s : site) (st : state) :
  fst (generate_image s st)
  = Returned (negb (open_raises s)
              && somewhere (prompt_page s)
              && negb (clear_raises s)
              && negb (type_raises s)
              && somewhere (button_page s)
              && negb (click_raises s)
              && (appears s 0 || appears s 1 || appears s 2 || appears s 3)).
Proof.
  destruct (switch_to_prompt_frame_somewhere (prompt_page s) (ctx st))
    as [cp [Hp _] ].
  destruct (switch_to_prompt_frame_somewhere (button_page s) cp)
    as [cb [Hb _] ].
  rewrite (generate_image_run s st _ _ _ _ Hp Hb).
  destruct (open_raises s); [reflexivity|].
  destruct (somewhere (prompt_page s)); [|reflexivity].
  destruct (clear_raises s); [reflexivity|].
  destruct (type_raises s); [reflexivity|].
  destruct (somewhere (button_page s)); [|reflexivity].
  destruct (click_raises s); reflexivity.
Qed.

End GeneratorFacts.

(** * Facts about the downloads *)

Module DownloadFacts.
Import Kebab Download Rounds.

(** ** Splitting *)

Lemma split_without (sep : N) (a : list N) :
  Forall (fun c => c <> sep) a -> split sep a = [a].
Proof.
  induction 1 as [|c a Hc Ha IH]; [reflexivity|].
  cbn [split]. destruct (N.eqb_spec c sep); [contradiction|].
  now rewrite IH.
Qed.

Lemma split_at_first (sep : N) (a b : list N) :
  Forall (fun c => c <> sep) a ->
  split sep (a ++ sep :: b) = a :: split sep b.
Proof.
  induction 1 as [|c a Hc Ha IH]; cbn [app split].
  - now rewrite N.eqb_refl.
  - destruct (N.eqb_spec c sep); [contradiction|]. now rewrite IH.
Qed.

Lemma split_once_at_first (sep : N) (a b : list N) :
  Forall (fun c => c <> sep) a ->
  split_once sep (a ++ sep :: b) = [a; b].
Proof.
  induction 1 as [|c a Hc Ha IH]; cbn [app split_once].
  - now rewrite N.eqb_refl.
  - destruct (N.eqb_spec c sep); [contradiction|]. now rewrite IH.
Qed.

Lemma split_once_without (sep : N) (a : list N) :
  Forall (fun c => c <> sep) a -> split_once sep a = [a].
Proof.
  induction 1 as [|c a Hc Ha IH]; [reflexivity|].
  cbn [split_once]. destruct (N.eqb_spec c sep); [contradiction|].
  now rewrite IH.
Qed.

(** ** Data URLs *)

(** X11: a data URL "data:<type>;base64,<payload>" is taken apart into its
    type and its payload, whatever the payload holds, commas included
    (the URL is cut at its first comma only); the type holds no comma,
    semicolon or colon. *)
Theorem X11_data_url_round_trip (mime_type payload : list N) :
  Forall (fun c => c <> comma /\ c <> semicolon /\ c <> colon) mime_type ->
  split_header (data_url_of mime_type payload)
  = Returned (text_of_string "data:" ++ mime_type ++ text_of_string ";base64",
              payload)
  /\ mime_type_of (text_of_string "data:" ++ mime_type
                   ++ text_of_string ";base64")
     = Returned mime_type
  /\ parse_data_url (data_url_of mime_type payload)
     = Returned (ext_of mime_type, payload).
Proof.
  intros Hmime.
  assert (Hcomma : Forall (fun c => c <> comma) mime_type)
    by (eapply List.Forall_impl; [|exact Hmime]; cbn; tauto).
  assert (Hsemi : Forall (fun c => c <> semicolon) mime_type)
    by (eapply List.Forall_impl; [|exact Hmime]; cbn; tauto).
  assert (Hcolon : Forall (fun c => c <> colon) mime_type)
    by (eapply List.Forall_impl; [|exact Hmime]; cbn; tauto).
  assert (Hhead : split_header (data_url_of mime_type payload)
    = Returned (text_of_string "data:" ++ mime_type
                ++ text_of_string ";base64", payload)).
  { unfold split_header, data_url_of.
    change (text_of_string ";base64,")
      with (text_of_string ";base64" ++ [comma]).
    replace (text_of_string "data:" ++ mime_type
             ++ (text_of_string ";base64" ++ [comma]) ++ payload)
      with ((text_of_string "data:" ++ mime_type ++ text_of_string ";base64")
            ++ comma :: payload)
      by (now rewrite <- !app_assoc).
    rewrite split_once_at_first; [reflexivity|].
    apply Forall_app. split; [repeat constructor; discriminate|].
    apply Forall_app. split; [exact Hcomma|repeat constructor; discriminate]. }
  assert (Hmt : mime_type_of (text_of_string "data:" ++ mime_type
                              ++ text_of_string ";base64")
                = Returned mime_type).
  { unfold mime_type_of.
    change (text_of_string ";base64")
      with (semicolon :: text_of_string "base64").
    rewrite app_assoc, split_at_first.
    - change (text_of_string "data:")
        with (text_of_string "data" ++ [colon]).
      rewrite <- app_assoc. cbn [app].
      rewrite split_at_first by (repeat constructor; discriminate).
      now rewrite split_without.
    - apply Forall_app. split; [repeat constructor; discriminate|exact Hsemi]. }
  split; [exact Hhead|]. split; [exact Hmt|].
  unfold parse_data_url. rewrite Hhead. cbn [bind fst snd]. now rewrite Hmt.
Qed.

Lemma X11_data_url_round_trip_witness :
  Forall (fun c => c <> comma /\ c <> semicolon /\ c <> colon)
    (text_of_string "image/jpeg")
  /\ parse_data_url
       (data_url_of (text_of_string "image/jpeg") [47; 57; 44; 61]%N)
     = Returned (text_of_string "jpg", [47; 57; 44; 61]%N).
Proof.
  assert (H : Forall (fun c => c <> comma /\ c <> semicolon /\ c <> colon)
                (text_of_string "image/jpeg")).
  { repeat constructor; discriminate. }
  split; [exact H|].
  exact (proj2 (proj2 (X11_data_url_round_trip (text_of_string "image/jpeg")
                         [47; 57; 44; 61]%N H))).
Defined.

(** ** File names *)

Lemma pretty_N_char_digit (x : N) :
  (48 <= N_of_ascii (pretty_N_char x) <= 57)%N.
Proof. unfold pretty_N_char. repeat case_match; vm_compute; split; discriminate. Qed.

Lemma pretty_N_go_digits (x : N) (s : string) :
  Forall (fun c => (48 <= c <= 57)%N) (text_of_string s) ->
  Forall (fun c => (48 <= c <= 57)%N) (text_of_string (pretty_N_go x s)).
Proof.
  revert s. induction (N.lt_wf_0 x) as [x _ IH]. intros s Hs.
  destruct (N.eq_dec x 0%N) as [->|Hx]; [now rewrite pretty_N_go_0|].
  rewrite pretty_N_go_step by lia. apply IH.
  - apply N.div_lt; lia.
  - constructor; [apply pretty_N_char_digit | exact Hs].
Qed.

Lemma decimal_digits (n : nat) :
  Forall (fun c => (48 <= c <= 57)%N) (decimal n).
Proof.
  unfold decimal, pretty, pretty_nat, pretty, pretty_N.
  case_decide; [repeat constructor; discriminate|].
  apply pretty_N_go_digits. constructor.
Qed.

Lemma text_of_string_inj (a b : string) :
  text_of_string a = text_of_string b -> a = b.
Proof.
  unfold text_of_string. intros H.
  rewrite <- (string_of_list_ascii_of_string a),
          <- (string_of_list_ascii_of_string b).
  f_equal. revert H.
  generalize (list_ascii_of_string a) (list_ascii_of_string b).
  induction l as [|x l IH]; intros [|y m] H; try discriminate; [reflexivity|].
  cbn in H. injection H as Hxy Hlm. f_equal; [|now apply IH].
  rewrite <- (ascii_N_embedding x), <- (ascii_N_embedding y). now rewrite Hxy.
Qed.

Lemma decimal_inj (a b : nat) : decimal a = decimal b -> a = b.
Proof.
  intros H. apply text_of_string_inj in H. exact (pretty_nat_inj _ _ H).
Qed.

(** The first dot of a text ends its leading digits. *)
Lemma cut_at_dot (a b e e' : list N) :
  Forall (fun c => (48 <= c <= 57)%N) a ->
  Forall (fun c => (48 <= c <= 57)%N) b ->
  a ++ dot :: e = b ++ dot :: e' ->
  a = b /\ e = e'.
Proof.
  intros Ha. revert b. induction Ha as [|x a Hx Ha IH]; intros b Hb Heq.
  - destruct Hb as [|y b Hy Hb]; cbn in Heq.
    + now injection Heq as ->.
    + injection Heq as <- _. unfold dot in Hy. lia.
  - destruct Hb as [|y b Hy Hb]; cbn in Heq.
    + injection Heq as -> _. unfold dot in Hx. lia.
    + injection Heq as -> Heq. destruct (IH b Hb Heq) as [-> ->]. auto.
Qed.

Lemma filename_inj (name : list N) (i j : nat) (e e' : list N) :
  filename name i e = filename name j e' -> i = j /\ e = e'.
Proof.
  unfold filename. intros H. apply app_inv_head in H. cbn [app] in H.
  injection H as H.
  apply cut_at_dot in H as [H ->]; [|apply decimal_digits..].
  apply decimal_inj in H. split; [lia | reflexivity].
Qed.

Lemma file_path_unfold (output_dir : list (list N)) (name : list N)
  (i : nat) (e : list N) :
  file_path output_dir name i e
  = join output_dir name ++ [filename name i e].
Proof.
  unfold file_path, join at 1.
  destruct (filename name i e) eqn:Hf; [|reflexivity].
  unfold filename in Hf. now destruct name.
Qed.

(** The images of two positions have two paths. *)
Lemma file_path_inj (output_dir : list (list N)) (name : list N)
  (i j : nat) (e e' : list N) :
  file_path output_dir name i e = file_path output_dir name j e' ->
  i = j /\ e = e'.
Proof.
  rewrite !file_path_unfold. intros H. apply app_inv_head in H.
  injection H as H. exact (filename_inj name i j e e' H).
Qed.

(** ** One image, then all of them *)

Section Batches.

Variable execute_script : string -> outcome (list N).
Variable b64decode : list N -> outcome (list N).
Variable mkdir_raises : list (list N) -> bool.
Variable open_raises : list (list N) -> bool.
Variable output_dir : list (list N).

Let download_image :=
  download_image execute_script b64decode mkdir_raises open_raises output_dir.
Let download_from :=
  download_from execute_script b64decode mkdir_raises open_raises output_dir.
Let download_all_images :=
  download_all_images execute_script b64decode mkdir_raises open_raises
    output_dir.

(** The three ways [download_image] ends: nothing written, an empty file
    left behind by a payload that does not decode, or the image saved. *)
Lemma download_image_cases (image_url : string) (name : list N)
  (index : nat) (fs : gmap (list (list N)) (list N)) :
  download_image image_url name index fs = (Returned None, fs)
  \/ (exists data_url ext payload,
        execute_script image_url = Returned data_url
        /\ parse_data_url data_url = Returned (ext, payload)
        /\ b64decode payload = Raised
        /\ download_image image_url name index fs
           = (Returned None,
              <[file_path output_dir name index ext := []]> fs))
  \/ (exists data_url ext payload data,
        image_url <> ""
        /\ execute_script image_url = Returned data_url
        /\ parse_data_url data_url = Returned (ext, payload)
        /\ b64decode payload = Returned data
        /\ download_image image_url name index fs
           = (Returned (Some (file_path output_dir name index ext)),
              <[file_path output_dir name index ext := data]> fs)).
Proof.
  unfold download_image, Download.download_image.
  destruct (String.eqb_spec image_url "") as [Hu|Hu]; [now left|].
  unfold io_try, io_bind, call, io_ret, prepare_prompt_folder, open_wb, write.
  destruct (execute_script image_url) as [data_url|] eqn:Hs; [|now left].
  destruct data_url as [|c data_url]; [now left|].
  destruct (parse_data_url (c :: data_url)) as [[ext payload]|] eqn:Hparse;
    [|now left].
  cbn [fst snd].
  destruct (mkdir_raises (join output_dir name)); [now left|].
  fold (file_path output_dir name index ext).
  destruct (open_raises (file_path output_dir name index ext)); [now left|].
  destruct (b64decode payload) as [data|] eqn:Hdec.
  - right. right. exists (c :: data_url), ext, payload, data.
    rewrite insert_insert_eq. auto.
  - right. left. exists (c :: data_url), ext, payload. auto.
Qed.

(** [download_image] touches the file of its own position at most. *)
Lemma download_image_frame (image_url : string) (name : list N)
  (index : nat) (fs fs' : gmap (list (list N)) (list N))
  (o : outcome (option (list (list N)))) (q : list (list N)) :
  download_image image_url name index fs = (o, fs') ->
  (forall ext, q <> file_path output_dir name index ext) ->
  fs' !! q = fs !! q.
Proof.
  intros Hrun Hq.
  destruct (download_image_cases image_url name index fs)
    as [H|[[d [ext [pl [_ [_ [_ H] ] ] ] ] ]
          |[d [ext [pl [data [_ [_ [_ [_ H] ] ] ] ] ] ] ] ] ];
    rewrite H in Hrun; injection Hrun as _ <-; [reflexivity|..];
    apply lookup_insert_ne; intros Heq; exact (Hq ext (eq_sym Heq)).
Qed.

(** The loop of [download_all_images] from position [i] on. *)
Lemma download_from_spec (image_urls : list string) (name : list N) :
  forall (i : nat) (done b : batch) (fs fs' : gmap (list (list N)) (list N)),
  download_from i image_urls name done fs = (b, fs') ->
  naps b = naps done + length (truthy image_urls)
  /\ (forall q, (forall k ext, i <= k ->
                   q <> file_path output_dir name k ext) ->
                fs' !! q = fs !! q)
  /\ exists saved,
       downloaded_files b = downloaded_files done ++ saved
       /\ length saved <= length (truthy image_urls)
       /\ NoDup saved
       /\ forall path, In path saved ->
            exists k url data_url ext payload data,
              i <= k
              /\ image_urls !! (k - i) = Some url
              /\ url <> ""
              /\ execute_script url = Returned data_url
              /\ parse_data_url data_url = Returned (ext, payload)
              /\ b64decode payload = Returned data
              /\ path = file_path output_dir name k ext
              /\ fs' !! path = Some data.
Proof.
  induction image_urls as [|url rest IH]; intros i done b fs fs' Hrun.
  - cbn in Hrun. injection Hrun as <- <-. split; [cbn; lia|].
    split; [reflexivity|]. exists []. rewrite app_nil_r.
    split; [reflexivity|]. split; [cbn; lia|]. split; [constructor|].
    intros path [].
  - unfold download_from in Hrun. cbn [Download.download_from] in Hrun.
    fold download_from in Hrun. unfold truthy. cbn [List.filter].
    fold (truthy rest).
    destruct (String.eqb_spec url "") as [Hu|Hu]; cbn [negb].
    + destruct (IH (S i) done b fs fs' Hrun)
        as [Hnaps [Hframe [saved [Hfiles [Hlen [Hnd Hsaved] ] ] ] ] ].
      split; [exact Hnaps|]. split.
      { intros q Hq. apply Hframe. intros k ext Hk. apply Hq. lia. }
      exists saved. split; [exact Hfiles|]. split; [exact Hlen|].
      split; [exact Hnd|]. intros path Hpath.
      destruct (Hsaved path Hpath)
        as [k [u [d [ext [pl [data [Hk [Hlook Hrest] ] ] ] ] ] ] ].
      exists k, u, d, ext, pl, data. split; [lia|]. split; [|exact Hrest].
      replace (k - i) with (S (k - S i)) by lia. exact Hlook.
    + fold download_image in Hrun.
      destruct (download_image url name i fs) as [o fs1] eqn:Himg.
      pose proof (fun q => download_image_frame _ _ _ _ _ _ q Himg) as Hframe1.
      destruct (download_image_cases url name i fs)
        as [H|[[d [ext [pl [_ [_ [_ H] ] ] ] ] ]
              |[d [ext [pl [data [_ [Hs [Hp [Hd H] ] ] ] ] ] ] ] ] ];
        fold download_image in H; rewrite H in Himg;
        injection Himg as <- <-.
      * apply IH in Hrun
          as [Hnaps [Hframe [saved [Hfiles [Hlen [Hnd Hsaved] ] ] ] ] ].
        cbn [naps downloaded_files] in *.
        split; [cbn; lia|]. split.
        { intros q Hq. apply Hframe. intros k e Hk. apply Hq. lia. }
        exists saved. split; [exact Hfiles|]. split; [cbn; lia|].
        split; [exact Hnd|]. intros path Hpath.
        destruct (Hsaved path Hpath)
          as [k [u [d' [e [pl [data [Hk [Hlook Hrest] ] ] ] ] ] ] ].
        exists k, u, d', e, pl, data. split; [lia|]. split; [|exact Hrest].
        replace (k - i) with (S (k - S i)) by lia. exact Hlook.
      * apply IH in Hrun
          as [Hnaps [Hframe [saved [Hfiles [Hlen [Hnd Hsaved] ] ] ] ] ].
        cbn [naps downloaded_files] in *.
        split; [cbn; lia|]. split.
        { intros q Hq. rewrite Hframe by (intros k e Hk; apply Hq; lia).
          apply Hframe1. intros e. apply Hq. lia. }
        exists saved. split; [exact Hfiles|]. split; [cbn; lia|].
        split; [exact Hnd|]. intros path Hpath.
        destruct (Hsaved path Hpath)
          as [k [u [d' [e [pl' [data [Hk [Hlook Hrest] ] ] ] ] ] ] ].
        exists k, u, d', e, pl', data. split; [lia|]. split; [|exact Hrest].
        replace (k - i) with (S (k - S i)) by lia. exact Hlook.
      * apply IH in Hrun
          as [Hnaps [Hframe [saved [Hfiles [Hlen [Hnd Hsaved] ] ] ] ] ].
        cbn [naps downloaded_files] in *.
        split; [cbn; lia|]. split.
        { intros q Hq. rewrite Hframe by (intros k e Hk; apply Hq; lia).
          apply Hframe1. intros e. apply Hq. lia. }
        exists (file_path output_dir name i ext :: saved).
        split; [rewrite Hfiles, <- app_assoc; reflexivity|].
        split; [cbn; lia|].
        assert (Hfresh : ~ In (file_path output_dir name i ext) saved).
        { intros Hin.
          destruct (Hsaved _ Hin)
            as [k [_ [_ [e [_ [_ [Hk [_ [_ [_ [_ [_ [Heq _] ] ] ] ] ] ] ] ] ] ] ] ].
          apply file_path_inj in Heq as [Heq _]. lia. }
        split.
        { constructor; [now rewrite list_elem_of_In | exact Hnd]. }
        intros path [<-|Hpath].
        -- exists i, url, d, ext, pl, data. split; [lia|].
           rewrite Nat.sub_diag. split; [reflexivity|].
           split; [exact Hu|]. split; [exact Hs|]. split; [exact Hp|].
           split; [exact Hd|]. split; [reflexivity|].
           rewrite Hframe.
           ++ apply lookup_insert_eq.
           ++ intros k e Hk Heq. apply file_path_inj in Heq as [Heq _]. lia.
        -- destruct (Hsaved path Hpath)
             as [k [u [d' [e [pl' [data' [Hk [Hlook Hrest] ] ] ] ] ] ] ].
           exists k, u, d', e, pl', data'. split; [lia|].
           split; [|exact Hrest].
           replace (k - i) with (S (k - S i)) by lia. exact Hlook.
Qed.

End Batches.

Lemma parse_data_url_ext (data_url ext payload : list N) :
  parse_data_url data_url = Returned (ext, payload) ->
  ext = text_of_string "png" \/ ext = text_of_string "jpg".
Proof.
  unfold parse_data_url.
  destruct (split_header data_url) as [[header body]|]; [|discriminate].
  cbn [bind fst snd].
  destruct (mime_type_of header) as [mime_type|]; [|discriminate].
  cbn [bind]. intros [= <- _]. unfold ext_of.
  repeat destruct (text_eqb _ _); auto.
Qed.

Lemma download_from_nothing
  (execute_script : string -> outcome (list N))
  (b64decode : list N -> outcome (list N))
  (mkdir_raises open_raises : list (list N) -> bool)
  (output_dir : list (list N)) (image_urls : list string) (name : list N)
  (i : nat) (done : batch) (fs : gmap (list (list N)) (list N)) :
  any image_urls = false ->
  download_from execute_script b64decode mkdir_raises open_raises output_dir
    i image_urls name done fs = (done, fs).
Proof.
  unfold any. revert i.
  induction image_urls as [|url rest IH]; intros i Hany; [reflexivity|].
  cbn in Hany. apply orb_false_elim in Hany as [Hu Hany].
  cbn [download_from]. apply negb_false_iff in Hu. rewrite Hu. now apply IH.
Qed.

(** ** Properties of the downloads *)

(** X12: when [download_image] returns a path, the image URL was not
    empty, the path is [output_dir / name / "<name>-<index+1>.<ext>"] with
    "png" or "jpg" for the extension, and the one file that changed is the
    file at that path, which holds the decoded payload of the data URL
    that the browser gave for the image URL. *)
Theorem X12_download_image_saved
  (execute_script : string -> outcome (list N))
  (b64decode : list N -> outcome (list N))
  (mkdir_raises open_raises : list (list N) -> bool)
  (output_dir : list (list N)) (image_url : string) (name : list N)
  (index : nat) (fs fs' : gmap (list (list N)) (list N))
  (path : list (list N)) :
  download_image execute_script b64decode mkdir_raises open_raises output_dir
    image_url name index fs = (Returned (Some path), fs') ->
  exists data_url ext payload data,
    image_url <> ""
    /\ execute_script image_url = Returned data_url
    /\ parse_data_url data_url = Returned (ext, payload)
    /\ b64decode payload = Returned data
    /\ (ext = text_of_string "png" \/ ext = text_of_string "jpg")
    /\ path = file_path output_dir name index ext
    /\ fs' = <[path := data]> fs.
Proof.
  intros Hrun.
  destruct (download_image_cases execute_script b64decode mkdir_raises
              open_raises output_dir image_url name index fs)
    as [H|[[d [ext [pl [_ [_ [_ H] ] ] ] ] ]
          |[d [ext [pl [data [Hu [Hs [Hp [Hd H] ] ] ] ] ] ] ] ] ];
    rewrite H in Hrun; try discriminate.
  injection Hrun as <- <-. exists d, ext, pl, data.
  pose proof (parse_data_url_ext _ _ _ Hp). auto 10.
Qed.

Lemma X12_download_image_saved_witness :
  download_image png_script plain_decode no_path no_path outputs
    "blob:a" [97%N] 2 earlier_files
  = (Returned (Some (file_path outputs [97%N] 2 (text_of_string "png"))),
     <[file_path outputs [97%N] 2 (text_of_string "png")
       := [65; 65; 44; 61]%N]> earlier_files)
  /\ exists data_url ext payload data,
       "blob:a" <> ""
       /\ png_script "blob:a" = Returned data_url
       /\ parse_data_url data_url = Returned (ext, payload)
       /\ plain_decode payload = Returned data
       /\ (ext = text_of_string "png" \/ ext = text_of_string "jpg")
       /\ file_path outputs [97%N] 2 (text_of_string "png")
          = file_path outputs [97%N] 2 ext
       /\ <[file_path outputs [97%N] 2 (text_of_string "png")
            := [65; 65; 44; 61]%N]> earlier_files
          = <[file_path outputs [97%N] 2 (text_of_string "png") := data]>
              earlier_files.
Proof.
  assert (H : download_image png_script plain_decode no_path no_path outputs
                "blob:a" [97%N] 2 earlier_files
    = (Returned (Some (file_path outputs [97%N] 2 (text_of_string "png"))),
       <[file_path outputs [97%N] 2 (text_of_string "png")
         := [65; 65; 44; 61]%N]> earlier_files))
    by (vm_compute; reflexivity).
  split; [exact H|].
  exact (X12_download_image_saved _ _ _ _ _ _ _ _ _ _ _ H).
Defined.

(** X13: when [download_image] returns None the files are as they were,
    with one exception: a payload that [b64decode] rejects leaves an empty
    file at the path of the image, in place of what was there, because the
    file is opened for writing before the payload is decoded. *)
Theorem X13_download_image_failure
  (execute_script : string -> outcome (list N))
  (b64decode : list N -> outcome (list N))
  (mkdir_raises open_raises : list (list N) -> bool)
  (output_dir : list (list N)) (image_url : string) (name : list N)
  (index : nat) (fs fs' : gmap (list (list N)) (list N)) :
  download_image execute_script b64decode mkdir_raises open_raises output_dir
    image_url name index fs = (Returned None, fs') ->
  fs' = fs
  \/ exists data_url ext payload,
       execute_script image_url = Returned data_url
       /\ parse_data_url data_url = Returned (ext, payload)
       /\ b64decode payload = Raised
       /\ fs' = <[file_path output_dir name index ext := []]> fs.
Proof.
  intros Hrun.
  destruct (download_image_cases execute_script b64decode mkdir_raises
              open_raises output_dir image_url name index fs)
    as [H|[[d [ext [pl [Hs [Hp [Hd H] ] ] ] ] ]
          |[d [ext [pl [data [_ [_ [_ [_ H] ] ] ] ] ] ] ] ] ];
    rewrite H in Hrun; try discriminate; injection Hrun as <-.
  - now left.
  - right. exists d, ext, pl. auto.
Qed.

Lemma X13_download_image_failure_witness :
  download_image png_script failing_decode no_path no_path outputs
    "blob:a" [97%N] 0 earlier_files
  = (Returned None,
     {[ file_path outputs [97%N] 0 (text_of_string "png") := [] ]})
  /\ ({[ file_path outputs [97%N] 0 (text_of_string "png") := [] ]}
      = earlier_files
      \/ exists data_url ext payload,
           png_script "blob:a" = Returned data_url
           /\ parse_data_url data_url = Returned (ext, payload)
           /\ failing_decode payload = Raised
           /\ {[ file_path outputs [97%N] 0 (text_of_string "png") := [] ]}
              = <[file_path outputs [97%N] 0 ext := []]> earlier_files).
Proof.
  assert (H : download_image png_script failing_decode no_path no_path
                outputs "blob:a" [97%N] 0 earlier_files
    = (Returned None,
       {[ file_path outputs [97%N] 0 (text_of_string "png") := [] ]}))
    by (vm_compute; reflexivity).
  split; [exact H|].
  exact (X13_download_image_failure _ _ _ _ _ _ _ _ _ _ H).
Defined.

(** X14: [download_all_images] sleeps two seconds once for every
    non-empty entry of the list, whether its download worked or not, and
    returns at most that many paths; for a list of empty entries it does
    nothing. *)
Theorem X14_download_all_images_naps
  (execute_script : string -> outcome (list N))
  (b64decode : list N -> outcome (list N))
  (mkdir_raises open_raises : list (list N) -> bool)
  (output_dir : list (list N)) (image_urls : list string) (name : list N)
  (fs : gmap (list (list N)) (list N)) :
  naps (fst (download_all_images execute_script b64decode mkdir_raises
               open_raises output_dir image_urls name fs))
  = length (truthy image_urls)
  /\ length (downloaded_files
               (fst (download_all_images execute_script b64decode
                       mkdir_raises open_raises output_dir image_urls name
                       fs)))
     <= length (truthy image_urls)
  /\ (any image_urls = false ->
      download_all_images execute_script b64decode mkdir_raises open_raises
        output_dir image_urls name fs
      = ({| downloaded_files := []; naps := 0 |}, fs)).
Proof.
  destruct (download_all_images execute_script b64decode mkdir_raises
              open_raises output_dir image_urls name fs) as [b fs'] eqn:Hrun.
  pose proof Hrun as Hspec. unfold download_all_images in Hspec.
  apply download_from_spec in Hspec
    as [Hnaps [_ [saved [Hfiles [Hlen _] ] ] ] ].
  cbn [fst naps downloaded_files app] in *.
  split; [exact Hnaps|]. split; [rewrite Hfiles; exact Hlen|].
  intros Hany. rewrite <- Hrun. now apply download_from_nothing.
Qed.

(** X15: the paths that [download_all_images] returns are pairwise
    distinct, and each of them is the file of a position of the list with
    a non-empty URL and holds, when the call is over, the decoded payload
    of the data URL fetched for that URL: no image of a batch overwrites
    another one. *)
Theorem X15_download_all_images_saved
  (execute_script : string -> outcome (list N))
  (b64decode : list N -> outcome (list N))
  (mkdir_raises open_raises : list (list N) -> bool)
  (output_dir : list (list N)) (image_urls : list string) (name : list N)
  (fs : gmap (list (list N)) (list N)) :
  NoDup (downloaded_files
           (fst (download_all_images execute_script b64decode mkdir_raises
                   open_raises output_dir image_urls name fs)))
  /\ Forall
       (fun path =>
          exists k url data_url ext payload data,
            image_urls !! k = Some url
            /\ url <> ""
            /\ execute_script url = Returned data_url
            /\ parse_data_url data_url = Returned (ext, payload)
            /\ b64decode payload = Returned data
            /\ path = file_path output_dir name k ext
            /\ snd (download_all_images execute_script b64decode
                      mkdir_raises open_raises output_dir image_urls name
                      fs) !! path = Some data)
       (downloaded_files
          (fst (download_all_images execute_script b64decode mkdir_raises
                  open_raises output_dir image_urls name fs))).
Proof.
  destruct (download_all_images execute_script b64decode mkdir_raises
              open_raises output_dir image_urls name fs) as [b fs'] eqn:Hrun.
  unfold download_all_images in Hrun.
  apply download_from_spec in Hrun
    as [_ [_ [saved [Hfiles [_ [Hnd Hsaved] ] ] ] ] ].
  cbn [fst snd downloaded_files app] in *. rewrite Hfiles.
  split; [exact Hnd|]. apply List.Forall_forall. intros path Hpath.
  destruct (Hsaved path Hpath)
    as [k [u [d [ext [pl [data [_ [Hlook Hrest] ] ] ] ] ] ] ].
  rewrite Nat.sub_0_r in Hlook. exists k, u, d, ext, pl, data. auto.
Qed.

End DownloadFacts.

(** * More about the cookie loader *)

Module CookiesMore.
Import Cookies CookiesFacts.

Lemma normalised_domain_is_text (c c' : gmap string value) :
  domain_is_text c -> normalised c c' -> domain_is_text c'.
Proof.
  unfold domain_is_text. intros Hc [Hstr [Hnone _] ].
  destruct (c !! "domain") as [[| | |s]|] eqn:E; try contradiction.
  - now rewrite (Hstr s eq_refl).
  - now rewrite (Hnone eq_refl).
Qed.

(** X16: the record handed to the browser is a fixed point of the loop
    body: handing it through the loop again changes nothing.  Saved
    cookies that were loaded once load the same way again. *)
Theorem X16_process_cookie_idempotent (c : gmap string value) :
  domain_is_text c ->
  exists c',
    process_cookie c = Returned c' /\ process_cookie c' = Returned c'.
Proof.
  intros Hc.
  destruct (process_cookie_normalised c Hc) as [c' [Hproc Hnorm] ].
  exists c'. split; [exact Hproc|].
  pose proof (normalised_domain_is_text c c' Hc Hnorm) as Hc'.
  destruct (process_cookie_normalised c' Hc') as [c'' [Hproc' Hnorm'] ].
  rewrite Hproc'. f_equal. apply map_eq. intros k.
  destruct Hnorm as [Hstr [Hnone [Hexp [Hnoexp [Hother Hdrop] ] ] ] ].
  destruct Hnorm' as [Hstr' [Hnone' [_ [Hnoexp' [Hother' Hdrop'] ] ] ] ].
  assert (Hgone : c' !! "expires" = None).
  { destruct (c !! "expires") as [v|] eqn:E.
    - now destruct (Hexp v eq_refl).
    - now destruct (Hnoexp eq_refl). }
  destruct (decide (k ∈ allowed_keys)) as [Hk|Hk];
    [|now rewrite Hdrop, Hdrop'].
  destruct (decide (k = "domain")) as [->|Hd].
  - unfold domain_is_text in Hc.
    destruct (c !! "domain") as [[| | |s]|] eqn:E; try contradiction.
    + rewrite (Hstr' _ (Hstr s eq_refl)), (Hstr s eq_refl).
      destruct (String.prefix "." s) eqn:Hdot; [reflexivity|].
      now rewrite Hdot.
    + now rewrite (Hnone' (Hnone eq_refl)), (Hnone eq_refl).
  - destruct (decide (k = "expiry")) as [->|He].
    + now destruct (Hnoexp' Hgone).
    + now apply Hother'.
Qed.

Lemma X16_process_cookie_idempotent_witness :
  domain_is_text exported_cookie
  /\ exists c',
       process_cookie exported_cookie = Returned c'
       /\ process_cookie c' = Returned c'.
Proof.
  assert (H : domain_is_text exported_cookie) by (vm_compute; exact I).
  split; [exact H | exact (X16_process_cookie_idempotent exported_cookie H)].
Defined.

Lemma add_all_through (add_cookie : gmap string value -> outcome unit)
  (good tail : list (gmap string value))
  (handed : list (gmap string value * bool)) :
  Forall domain_is_text good ->
  exists out,
    add_all add_cookie (good ++ tail) handed
    = add_all add_cookie tail (handed ++ out)
    /\ Forall2 (fun c h => normalised c h.1) good out.
Proof.
  intros Hgood. revert handed.
  induction Hgood as [|c good Hc Hgood IH]; intros handed.
  - exists []. split; [now rewrite app_nil_r | constructor].
  - destruct (process_cookie_normalised c Hc) as [c' [Hproc Hnorm] ].
    destruct (IH (handed ++ [(c', try_add add_cookie c')]))
      as [out [Hrun Hout] ].
    exists ((c', try_add add_cookie c') :: out). split.
    + cbn [app add_all]. rewrite Hproc, Hrun. now rewrite <- app_assoc.
    + constructor; assumption.
Qed.

(** X17: a record whose domain is not a string stops [load_cookies] with
    False, but not before the records in front of it were handed to the
    browser; the records behind it are not handed over. *)
Theorem X17_load_cookies_partial
  (add_cookie : gmap string value -> outcome unit)
  (good rest : list (gmap string value)) (bad : gmap string value) :
  Forall domain_is_text good ->
  ~ domain_is_text bad ->
  exists handed,
    load_cookies add_cookie (Loaded (good ++ bad :: rest)) = (false, handed)
    /\ Forall2 (fun c h => normalised c h.1) good handed.
Proof.
  intros Hgood Hbad.
  destruct (add_all_through add_cookie good (bad :: rest) [] Hgood)
    as [out [Hrun Hout] ].
  exists out. unfold load_cookies. rewrite Hrun. cbn [app add_all].
  rewrite (process_cookie_raises bad Hbad). split; [reflexivity|exact Hout].
Qed.

Lemma X17_load_cookies_partial_witness :
  Forall domain_is_text [exported_cookie]
  /\ ~ domain_is_text odd_cookie
  /\ exists handed,
       load_cookies (fun _ => Returned tt)
         (Loaded ([exported_cookie] ++ odd_cookie :: [exported_cookie]))
       = (false, handed)
       /\ Forall2 (fun c h => normalised c h.1) [exported_cookie] handed.
Proof.
  assert (H1 : Forall domain_is_text [exported_cookie]).
  { constructor; [|constructor]. vm_compute. exact I. }
  assert (H2 : ~ domain_is_text odd_cookie) by (vm_compute; tauto).
  split; [exact H1|]. split; [exact H2|].
  exact (X17_load_cookies_partial (fun _ => Returned tt) [exported_cookie]
           [exported_cookie] odd_cookie H1 H2).
Defined.

Lemma add_all_same (add add' : gmap string value -> outcome unit)
  (cs : list (gmap string value))
  (handed handed' : list (gmap string value * bool)) :
  handed.*1 = handed'.*1 ->
  fst (add_all add cs handed) = fst (add_all add' cs handed')
  /\ (snd (add_all add cs handed)).*1 = (snd (add_all add' cs handed')).*1.
Proof.
  revert handed handed'.
  induction cs as [|c cs IH]; intros handed handed' Hsame.
  - split; [reflexivity | exact Hsame].
  - cbn [add_all]. destruct (process_cookie c) as [c'|].
    + apply IH. rewrite !fmap_app. now rewrite Hsame.
    + split; [reflexivity | exact Hsame].
Qed.

(** X18: what the browser does with the records does not matter to
    [load_cookies]: an exception of [add_cookie] is caught for each record,
    so the answer and the records handed over are the same whether the
    browser takes them or rejects them all. *)
Theorem X18_load_cookies_ignores_rejections
  (add add' : gmap string value -> outcome unit) (f : cookies_file) :
  fst (load_cookies add f) = fst (load_cookies add' f)
  /\ (snd (load_cookies add f)).*1 = (snd (load_cookies add' f)).*1.
Proof.
  destruct f as [| |cs]; [split; reflexivity..|].
  unfold load_cookies.
  destruct (add_all_same add add' cs [] [] eq_refl) as [Hfst Hsnd].
  destruct (add_all add cs []) as [o h], (add_all add' cs []) as [o' h'].
  cbn [fst snd] in *. subst o'.
  destruct o; cbn [fst snd]; split; solve [reflexivity | assumption].
Qed.

End CookiesMore.

(** * More about the folder names *)

Module KebabMore.
Import Kebab Letters Download KebabFacts.

Lemma lower_at_low (before after : list N) (c : N) :
  plain c -> lower_at before after c = [low c].
Proof.
  intros [H1 H2]. unfold lower_at, lower_char.
  apply N.eqb_neq in H1. apply N.eqb_neq in H2. now rewrite H1, H2.
Qed.

Lemma lower_from_map_low (before s : list N) :
  Forall plain s -> lower_from before s = map low s.
Proof.
  intros H. revert before.
  induction H as [|c s Hc Hs IH]; intros before; [reflexivity|].
  cbn [lower_from map]. now rewrite IH, lower_at_low.
Qed.

Lemma low_plain (c : N) : plain c -> plain (low c).
Proof.
  intros [H1 H2]. destruct (low_facts c H1) as [_ [_ [_ [_ [H3 [H4 _] ] ] ] ] ].
  split; auto.
Qed.

Lemma lstrip_low (s : list N) :
  Forall plain s -> lstrip (map low s) = map low (lstrip s).
Proof.
  induction 1 as [|c s [Hc _] Hs IH]; [reflexivity|].
  cbn [map lstrip]. destruct (low_facts c Hc) as [-> _].
  destruct (is_space c); [exact IH | reflexivity].
Qed.

Lemma strip_low (s : list N) :
  Forall plain s -> strip (map low s) = map low (strip s).
Proof.
  intros Hs. unfold strip, rstrip.
  rewrite lstrip_low by exact Hs.
  rewrite <- map_rev, lstrip_low, map_rev.
  - reflexivity.
  - apply List.Forall_rev, lstrip_keeps, Hs.
Qed.

Lemma drop_punctuation_low (s : list N) :
  Forall plain s ->
  drop_punctuation (map low s) = map low (drop_punctuation s).
Proof.
  induction 1 as [|c s [Hc _] Hs IH]; [reflexivity|].
  unfold drop_punctuation in *. cbn [map List.filter].
  destruct (low_facts c Hc) as [-> [-> [-> _] ] ].
  destruct (is_word c || is_space c || (c =? hyphen)%N); cbn [map];
    now rewrite IH.
Qed.

Lemma collapse_low (in_run : bool) (s : list N) :
  Forall plain s ->
  collapse in_run (map low s) = map low (collapse in_run s).
Proof.
  intros Hs. revert in_run.
  induction Hs as [|c s [Hc _] Hs IH]; intros in_run; [reflexivity|].
  cbn [map collapse]. unfold is_separator.
  destruct (low_facts c Hc) as [-> [_ [-> _] ] ].
  destruct ((c =? hyphen)%N || is_space c).
  - destruct in_run; [apply IH|]. cbn [map]. rewrite IH.
    now rewrite low_hyphen.
  - cbn [map]. now rewrite IH.
Qed.

Lemma skeleton_keeps_plain (s : list N) :
  Forall plain s ->
  Forall plain (collapse false (drop_punctuation (strip s))).
Proof.
  intros Hs. apply List.Forall_forall. intros c Hc.
  apply skeleton_In in Hc as [->|[Hc _] ]; [split; discriminate|].
  rewrite List.Forall_forall in Hs. now apply Hs.
Qed.

(** [to_kebab_case] on a text without U+0130 and capital sigma, by
    [low]. *)
Lemma to_kebab_case_plain (s : list N) :
  Forall plain s ->
  to_kebab_case s = map low (collapse false (drop_punctuation (strip s))).
Proof.
  intros Hs. unfold to_kebab_case, lower.
  now apply lower_from_map_low, skeleton_keeps_plain.
Qed.

Lemma map_low_twice (s : list N) :
  Forall plain s -> map low (map low s) = map low s.
Proof.
  induction 1 as [|c s [Hc _] Hs IH]; [reflexivity|].
  cbn [map]. rewrite IH.
  now destruct (low_facts c Hc) as [_ [_ [_ [-> _] ] ] ].
Qed.

Lemma to_kebab_case_low (u : list N) :
  Forall plain u -> to_kebab_case (map low u) = to_kebab_case u.
Proof.
  intros Hu.
  assert (Hlow : Forall plain (map low u)).
  { apply Forall_map. eapply List.Forall_impl; [|exact Hu].
    intros c. apply low_plain. }
  rewrite (to_kebab_case_plain u Hu), (to_kebab_case_plain _ Hlow).
  rewrite strip_low by exact Hu.
  rewrite drop_punctuation_low by now apply strip_keeps.
  assert (Hdrop : Forall plain (drop_punctuation (strip u))).
  { apply List.Forall_forall. intros c Hc. apply filter_In in Hc as [Hc _].
    pose proof (strip_keeps _ u Hu) as Hstrip.
    rewrite List.Forall_forall in Hstrip. now apply Hstrip. }
  rewrite collapse_low by exact Hdrop.
  apply map_low_twice. now apply skeleton_keeps_plain.
Qed.

(** X19: the letter case of a prompt does not reach the name made from
    it: two prompts without U+0130 and without capital sigma (U+03A3),
    every prompt of ASCII characters among them, that have the same
    lower-case form get the same name, hence the same folder and the same
    file names. *)
Theorem X19_to_kebab_case_ignores_case (s t : list N) :
  Forall (fun c => c <> 304%N /\ c <> 931%N) s ->
  Forall (fun c => c <> 304%N /\ c <> 931%N) t ->
  lower s = lower t ->
  to_kebab_case s = to_kebab_case t.
Proof.
  intros Hs Ht Heq.
  rewrite <- (to_kebab_case_low s Hs), <- (to_kebab_case_low t Ht).
  unfold lower in Heq.
  rewrite (lower_from_map_low [] s Hs), (lower_from_map_low [] t Ht) in Heq.
  now rewrite Heq.
Qed.

Lemma X19_to_kebab_case_ignores_case_witness :
  Forall (fun c => c <> 304%N /\ c <> 931%N) upper_prompt
  /\ Forall (fun c => c <> 304%N /\ c <> 931%N) mixed_prompt
  /\ lower upper_prompt = lower mixed_prompt
  /\ to_kebab_case upper_prompt = to_kebab_case mixed_prompt.
Proof.
  assert (H1 : Forall (fun c => c <> 304%N /\ c <> 931%N) upper_prompt)
    by (repeat constructor; discriminate).
  assert (H2 : Forall (fun c => c <> 304%N /\ c <> 931%N) mixed_prompt)
    by (repeat constructor; discriminate).
  assert (H3 : lower upper_prompt = lower mixed_prompt)
    by (vm_compute; reflexivity).
  split; [exact H1|]. split; [exact H2|]. split; [exact H3|].
  exact (X19_to_kebab_case_ignores_case _ _ H1 H2 H3).
Defined.

(** A capital sigma is lower-cased by what stands around it, and what
    stands around it when [to_kebab_case] lower-cases is not what stood
    there in the prompt: "AΣ!B" and "aς!b" have the same lower-case form,
    "ας!b", and get the names "aσb" and "aςb". *)
Example capital_sigma_by_its_neighbours :
  lower sigma_prompt = lower final_sigma_prompt
  /\ to_kebab_case sigma_prompt = [97; 963; 98]%N
  /\ to_kebab_case final_sigma_prompt = [97; 962; 98]%N.
Proof. repeat split; vm_compute; reflexivity. Qed.

Lemma lstrip_length (s : list N) : length (lstrip s) <= length s.
Proof.
  induction s as [|c s IH]; [reflexivity|].
  cbn [lstrip]. destruct (is_space c); cbn [length]; lia.
Qed.

Lemma strip_length (s : list N) : length (strip s) <= length s.
Proof.
  unfold strip, rstrip. rewrite length_rev.
  etransitivity; [apply lstrip_length|]. rewrite length_rev.
  apply lstrip_length.
Qed.

Lemma collapse_length (in_run : bool) (s : list N) :
  length (collapse in_run s) <= length s.
Proof.
  revert in_run. induction s as [|c s IH]; intros in_run; [reflexivity|].
  cbn [collapse]. pose proof (IH true). pose proof (IH false).
  destruct (is_separator c); [destruct in_run|]; cbn [length]; lia.
Qed.

(** X20: the name made from a prompt without U+0130 is never longer than
    the prompt. *)
Theorem X20_to_kebab_case_no_longer (s : list N) :
  ~ In 304%N s -> length (to_kebab_case s) <= length s.
Proof.
  intros Hs. unfold to_kebab_case, lower.
  rewrite lower_from_length by now apply skeleton_plain.
  etransitivity; [apply collapse_length|].
  etransitivity; [apply filter_length_le|]. apply strip_length.
Qed.

Lemma X20_to_kebab_case_no_longer_witness :
  ~ In 304%N greek_prompt
  /\ length (to_kebab_case greek_prompt) <= length greek_prompt.
Proof.
  assert (H : ~ In 304%N greek_prompt).
  { intros H. repeat (destruct H as [H|H]; [discriminate|]). exact H. }
  split; [exact H | exact (X20_to_kebab_case_no_longer greek_prompt H)].
Defined.

Lemma collapse_nil (s : list N) : collapse false s = [] -> s = [].
Proof.
  destruct s as [|c s]; [reflexivity|]. cbn [collapse].
  destruct (is_separator c); discriminate.
Qed.

(** X21: the name is empty exactly when the prompt, once stripped, holds
    nothing but punctuation (no word character, no whitespace, no
    hyphen). *)
Theorem X21_to_kebab_case_empty (s : list N) :
  to_kebab_case s = []
  <-> Forall (fun c => is_punctuation c = true) (strip s).
Proof.
  unfold to_kebab_case, lower. split.
  - intros H. apply lower_from_nil, collapse_nil in H.
    apply List.Forall_forall. intros c Hc.
    unfold is_punctuation. apply negb_true_iff.
    destruct (is_word c || is_space c || (c =? hyphen)%N) eqn:Hkeep;
      [|reflexivity].
    assert (Hin : In c (drop_punctuation (strip s)))
      by (apply filter_In; auto).
    rewrite H in Hin. destruct Hin.
  - intros Hall.
    replace (drop_punctuation (strip s)) with (@nil N); [reflexivity|].
    symmetry. unfold drop_punctuation.
    induction Hall as [|c t Hc Ht IH]; [reflexivity|].
    cbn [List.filter]. unfold is_punctuation in Hc.
    apply negb_true_iff in Hc. now rewrite Hc.
Qed.

Lemma settled_take (after_hyphen : bool) (n : nat) (r : list N) :
  settled after_hyphen r = true -> settled after_hyphen (take n r) = true.
Proof.
  revert after_hyphen n.
  induction r as [|c r IH]; intros b n H; [now destruct n|].
  destruct n as [|n]; [reflexivity|]. cbn [take settled] in *.
  destruct (c =? hyphen)%N;
    apply andb_prop in H as [H1 H2]; rewrite H1; cbn [andb]; now apply IH.
Qed.

(** X22: [prepare_prompt_folder] of [enhanced_bing.py] names the folder by
    the first 50 code points of the kebab-case name: for a prompt without
    U+0130 the folder name is at most 50 long, starts the name, and is
    itself a name that [to_kebab_case] leaves as it is. *)
Theorem X22_bounded_folder_name (s : list N) :
  ~ In 304%N s ->
  length (bounded_folder_name (to_kebab_case s)) <= max_length
  /\ bounded_folder_name (to_kebab_case s) = take max_length (to_kebab_case s)
  /\ to_kebab_case (bounded_folder_name (to_kebab_case s))
     = bounded_folder_name (to_kebab_case s).
Proof.
  intros Hs. pose proof (to_kebab_case_is_settled s Hs) as Hset.
  set (r := to_kebab_case s) in *.
  assert (Hcut : bounded_folder_name r = take max_length r).
  { unfold bounded_folder_name.
    destruct (Nat.ltb_spec max_length (length r)); [reflexivity|].
    now rewrite take_ge. }
  rewrite Hcut. split; [rewrite length_take; lia|]. split; [reflexivity|].
  apply to_kebab_case_settled, settled_take, Hset.
Qed.

Lemma X22_bounded_folder_name_witness :
  ~ In 304%N long_prompt
  /\ length (bounded_folder_name (to_kebab_case long_prompt)) <= max_length
  /\ bounded_folder_name (to_kebab_case long_prompt)
     = take max_length (to_kebab_case long_prompt)
  /\ to_kebab_case (bounded_folder_name (to_kebab_case long_prompt))
     = bounded_folder_name (to_kebab_case long_prompt).
Proof.
  assert (H : ~ In 304%N long_prompt).
  { intros H. apply repeat_spec in H. discriminate. }
  split; [exact H | exact (X22_bounded_folder_name long_prompt H)].
Defined.

End KebabMore.

(** * Facts about the cycle *)

Module CycleFacts.
Import Kebab Cycle.

Lemma lstrip_blank (line : list N) :
  Forall (fun c => is_space c = true) line -> lstrip line = [].
Proof.
  induction 1 as [|c line Hc Hline IH]; [reflexivity|].
  cbn [lstrip]. now rewrite Hc.
Qed.

Lemma strip_blank (line : list N) :
  Forall (fun c => is_space c = true) line -> strip line = [].
Proof.
  intros H. unfold strip, rstrip. now rewrite (lstrip_blank line H).
Qed.

(** X23: for a line of whitespace only, the empty line included, the
    cycle answers False and does nothing: the page is not opened, nothing
    is typed or clicked, the poller does not run and no file changes. *)
Theorem X23_blank_prompt (e : setting) (st : Generator.state)
  (fs : gmap (list (list N)) (list N)) (line : list N) :
  typed e = Returned line ->
  Forall (fun c => is_space c = true) line ->
  run_generation_cycle e st fs = Some (stopped st [] fs).
Proof.
  intros Hline Hblank. unfold run_generation_cycle.
  rewrite Hline. now rewrite (strip_blank line Hblank).
Qed.

Lemma X23_blank_prompt_witness :
  typed blank_setting = Returned [32; 9; 32]%N
  /\ Forall (fun c => is_space c = true) [32; 9; 32]%N
  /\ run_generation_cycle blank_setting Generator.fresh_session ∅
     = Some (stopped Generator.fresh_session [] ∅).
Proof.
  assert (H : Forall (fun c => is_space c = true) [32; 9; 32]%N)
    by (repeat constructor).
  split; [reflexivity|]. split; [exact H|].
  exact (X23_blank_prompt blank_setting Generator.fresh_session ∅ _
           eq_refl H).
Defined.

(** The cases of a cycle that gets as far as the poller. *)
Ltac cycle_cases Hrun :=
  unfold run_generation_cycle in Hrun;
  destruct (typed _) as [line|] eqn:Hline; [|injection Hrun as <-];
  [destruct (strip line) as [|c prompt] eqn:Hstrip; [injection Hrun as <-|];
   [|destruct (Generator.generate_image _ _) as [[[|]|] st'] eqn:Hgen;
     [|injection Hrun as <-|injection Hrun as <-];
     [destruct (Poller.get_image_urls _) as [[[image_urls|] tr]|] eqn:Hpoll;
      [|injection Hrun as <-|discriminate Hrun];
      [destruct (Rounds.any image_urls) eqn:Hany; cbn [negb] in Hrun;
       [|injection Hrun as <-]|..]|..]|..]|..].

(** X24: an exception of [find_elements] or [get_attribute] in a round of
    the poller ends the cycle with False: it is caught by the handler of
    the cycle, no download is tried and no file changes. *)
Theorem X24_extraction_exception_absorbed (e : setting)
  (st : Generator.state) (fs : gmap (list (list N)) (list N)) (r : report)
  (j : nat) :
  run_generation_cycle e st fs = Some r ->
  In (Poller.EvFind j) (poll_trace r) ->
  Poller.scan_round (the_world e) j = Raised ->
  verdict r = false /\ saved r = [] /\ download_naps r = 0 /\ files r = fs.
Proof.
  intros Hrun Hin Hraise. cycle_cases Hrun; try (cbn; auto; fail).
  exfalso.
  destruct (Download.download_all_images _ _ _ _ _ _ _ _) as [b fs'].
  injection Hrun as <-. cbn [poll_trace] in Hin.
  destruct (PollerFacts.get_image_urls_polled _ _ _ Hpoll)
    as [o' [tr' [Hp [-> Ho] ] ] ].
  destruct Hin as [Hin|Hin]; [discriminate|].
  assert (Ho' : o' = Raised).
  { apply (PollerFacts.polled_raised _ _ _ _ _ Hp). eauto. }
  subst o'. discriminate.
Qed.

Lemma X24_extraction_exception_absorbed_witness :
  run_generation_cycle raising_setting Generator.fresh_session ∅
  = Some (stopped
            {| Generator.ctx := Locator.DefaultContent;
               Generator.log :=
                 [Generator.EvOpen; Generator.EvSleep 3000;
                  Generator.EvClear (Locator.InFrame 3);
                  Generator.EvType (Locator.InFrame 3);
                  Generator.EvClick Locator.DefaultContent;
                  Generator.EvSeen 3] |}
            [Poller.EvSleep Poller.initial_delay; Poller.EvFind 0] ∅)
  /\ In (Poller.EvFind 0)
        [Poller.EvSleep Poller.initial_delay; Poller.EvFind 0]
  /\ Poller.scan_round (the_world raising_setting) 0 = Raised
  /\ false = false /\ @nil (list (list N)) = [] /\ 0 = 0
  /\ (∅ : gmap (list (list N)) (list N)) = ∅.
Proof.
  assert (H : run_generation_cycle raising_setting Generator.fresh_session ∅
    = Some (stopped
              {| Generator.ctx := Locator.DefaultContent;
                 Generator.log :=
                   [Generator.EvOpen; Generator.EvSleep 3000;
                    Generator.EvClear (Locator.InFrame 3);
                    Generator.EvType (Locator.InFrame 3);
                    Generator.EvClick Locator.DefaultContent;
                    Generator.EvSeen 3] |}
              [Poller.EvSleep Poller.initial_delay; Poller.EvFind 0] ∅))
    by (vm_compute; reflexivity).
  assert (Hin : In (Poller.EvFind 0)
                  [Poller.EvSleep Poller.initial_delay; Poller.EvFind 0])
    by (right; left; reflexivity).
  split; [exact H|]. split; [exact Hin|]. split; [reflexivity|].
  exact (X24_extraction_exception_absorbed raising_setting
           Generator.fresh_session ∅ _ 0 H Hin eq_refl).
Defined.

(** X25: the cycle answers True exactly when it saved an image.  Then the
    form was submitted, the poller returned a sequence with a URL in it,
    and every path of the report is the file of a position of that
    sequence with a non-empty URL: it is named after the kebab-case name of
    the stripped prompt and the position, and it holds the decoded payload
    of the data URL that the browser gave for that URL.  The paths are
    pairwise distinct. *)
Theorem X25_cycle_success (e : setting) (st : Generator.state)
  (fs : gmap (list (list N)) (list N)) (r : report) :
  run_generation_cycle e st fs = Some r ->
  (verdict r = true <-> saved r <> [])
  /\ NoDup (saved r)
  /\ (verdict r = true ->
      exists line image_urls,
        typed e = Returned line
        /\ Generator.generate_image (the_site e) st = (Returned true, form r)
        /\ Poller.get_image_urls (the_world e)
           = Some (Returned image_urls, poll_trace r)
        /\ Rounds.any image_urls = true
        /\ download_naps r = length (Rounds.truthy image_urls)
        /\ Forall
             (fun path =>
                exists k url data_url ext payload data,
                  image_urls !! k = Some url
                  /\ url <> ""
                  /\ execute_script e url = Returned data_url
                  /\ Download.parse_data_url data_url
                     = Returned (ext, payload)
                  /\ b64decode e payload = Returned data
                  /\ path = Download.file_path (output_dir e)
                              (to_kebab_case (strip line)) k ext
                  /\ files r !! path = Some data)
             (saved r)).
Proof.
  intros Hrun. cycle_cases Hrun;
    try (cbn; repeat split; try discriminate; try constructor;
         try (intros []; reflexivity); fail).
  destruct (Download.download_all_images _ _ _ _ _ _ _ _) as [b fs'] eqn:Hdl.
  injection Hrun as <-. cbn [verdict saved files form poll_trace download_naps].
  unfold Download.download_all_images in Hdl.
  apply DownloadFacts.download_from_spec in Hdl
    as [Hnaps [_ [paths [Hfiles [_ [Hnd Hpaths] ] ] ] ] ].
  cbn [Download.downloaded_files Download.naps app] in *.
  rewrite Hfiles. split; [|split; [exact Hnd|] ].
  - destruct paths; split; try discriminate; try reflexivity.
    intros H. now destruct H.
  - intros _. exists line, image_urls.
    split; [reflexivity|]. split; [reflexivity|]. split; [reflexivity|].
    split; [exact Hany|]. split; [exact Hnaps|].
    apply List.Forall_forall. intros path Hpath.
    destruct (Hpaths path Hpath)
      as [k [u [d [ext [pl [data Hfile] ] ] ] ] ].
    destruct Hfile as [_ [Hk [Hu [Hd [Hp [Hb [Hpath' Hlook] ] ] ] ] ] ].
    rewrite Nat.sub_0_r in Hk. rewrite Hstrip.
    exists k, u, d, ext, pl, data. auto 10.
Qed.

Lemma X25_cycle_success_witness :
  run_generation_cycle sample_setting Generator.fresh_session ∅
  = Some
      {| verdict := true;
         form :=
           {| Generator.ctx := Locator.DefaultContent;
              Generator.log :=
                [Generator.EvOpen; Generator.EvSleep 3000;
                 Generator.EvClear (Locator.InFrame 3);
                 Generator.EvType (Locator.InFrame 3);
                 Generator.EvClick Locator.DefaultContent;
                 Generator.EvSeen 3] |};
         poll_trace :=
           Poller.EvSleep Poller.initial_delay
           :: flat_map
                (fun k => [Poller.EvFind k;
                           Poller.EvSleep Poller.poll_interval])
                (seq 0 30);
         saved :=
           [Download.file_path Download.outputs [97%N] 0
              (Download.text_of_string "png");
            Download.file_path Download.outputs [97%N] 1
              (Download.text_of_string "png");
            Download.file_path Download.outputs [97%N] 2
              (Download.text_of_string "png")];
         download_naps := 3;
         files :=
           snd (Download.download_all_images Download.png_script
                  Download.plain_decode Download.no_path Download.no_path
                  Download.outputs ["http://a"; "blob:b"; "http://c"; ""]
                  [97%N] ∅) |}
  /\ Forall
       (fun path =>
          snd (Download.download_all_images Download.png_script
                 Download.plain_decode Download.no_path Download.no_path
                 Download.outputs ["http://a"; "blob:b"; "http://c"; ""]
                 [97%N] ∅) !! path
          = Some [65; 65; 44; 61]%N)
       [Download.file_path Download.outputs [97%N] 0
          (Download.text_of_string "png");
        Download.file_path Download.outputs [97%N] 1
          (Download.text_of_string "png");
        Download.file_path Download.outputs [97%N] 2
          (Download.text_of_string "png")]
  /\ NoDup
       [Download.file_path Download.outputs [97%N] 0
          (Download.text_of_string "png");
        Download.file_path Download.outputs [97%N] 1
          (Download.text_of_string "png");
        Download.file_path Download.outputs [97%N] 2
          (Download.text_of_string "png")].
Proof.
  assert (H : run_generation_cycle sample_setting Generator.fresh_session ∅
    = Some
        {| verdict := true;
           form :=
             {| Generator.ctx := Locator.DefaultContent;
                Generator.log :=
                  [Generator.EvOpen; Generator.EvSleep 3000;
                   Generator.EvClear (Locator.InFrame 3);
                   Generator.EvType (Locator.InFrame 3);
                   Generator.EvClick Locator.DefaultContent;
                   Generator.EvSeen 3] |};
           poll_trace :=
             Poller.EvSleep Poller.initial_delay
             :: flat_map
                  (fun k => [Poller.EvFind k;
                             Poller.EvSleep Poller.poll_interval])
                  (seq 0 30);
           saved :=
             [Download.file_path Download.outputs [97%N] 0
                (Download.text_of_string "png");
              Download.file_path Download.outputs [97%N] 1
                (Download.text_of_string "png");
              Download.file_path Download.outputs [97%N] 2
                (Download.text_of_string "png")];
           download_naps := 3;
           files :=
             snd (Download.download_all_images Download.png_script
                    Download.plain_decode Download.no_path Download.no_path
                    Download.outputs ["http://a"; "blob:b"; "http://c"; ""]
                    [97%N] ∅) |})
    by (vm_compute; reflexivity).
  split; [exact H|]. split.
  - repeat constructor; vm_compute; reflexivity.
  - exact (proj1 (proj2 (X25_cycle_success sample_setting
                           Generator.fresh_session ∅ _ H))).
Defined.

End CycleFacts.
